(** * jetty-setuid native bridge: a shallow embedding of
      [org_eclipse_jetty_setuid_SetUID.c] and the properties of its
      entry points.

    The C file is glue between three worlds: the POSIX process (libc and
    the kernel), the Java virtual machine reached through the JNI function
    table, and the nine [Java_org_mortbay_setuid_SetUID_*] entry points
    with their seven helpers.  The entry points and helpers are translated
    statement by statement; libc/kernel and the JVM, which are not part of
    the file, are modelled as an explicit state with executable
    primitives. *)

From Stdlib Require Import ZArith String Ascii DecimalString.
From stdpp Require Import gmap strings list fin_maps.

Local Open Scope string_scope.
Local Open Scope list_scope.
Local Open Scope Z_scope.

(** ** C integer conversions

    [jint] and [int] are 32-bit two's complement, [uid_t], [gid_t] and
    [mode_t] are unsigned 32-bit, [rlim_t] is unsigned 64-bit (LP64).
    A conversion to an unsigned type reduces modulo 2^N; a conversion of an
    out-of-range value to [int] wraps (the behaviour gcc and clang
    define). *)
Module CInt.

Definition to_uint32 (z : Z) : Z := z mod 2^32.
Definition to_uint64 (z : Z) : Z := z mod 2^64.
Definition to_int32 (z : Z) : Z := (z + 2^31) mod 2^32 - 2^31.

Definition INT_MAX : Z := 2^31 - 1.
Definition INT_MIN : Z := - 2^31.
Definition is_int32 (z : Z) : bool := (INT_MIN <=? z) && (z <=? INT_MAX).

(** [printf]'s [%d] on an [int]. *)
Definition fmt_d (z : Z) : string := NilZero.string_of_int (Z.to_int z).

End CInt.
Export CInt.

(** ** The POSIX side: process credentials, umask, resource limits and the
       identity databases *)
Module Posix.

(** [struct passwd] as handed out by [getpwnam]/[getpwuid]. *)
Record passwd := mk_passwd {
  pw_name : string;
  pw_passwd : string;
  pw_uid : Z;
  pw_gid : Z;
  pw_gecos : string;
  pw_dir : string;
  pw_shell : string
}.

(** [struct group].  [gr_mem] is a [char **]: either the null pointer
    ([None]) or the cells of an array of [char *], each cell being a string
    or the null pointer. *)
Record group := mk_group {
  gr_name : string;
  gr_passwd : string;
  gr_gid : Z;
  gr_mem : option (list (option string))
}.

(** A line of the group database: the members as the database has them.
    [ge_members = None] stands for a libc that hands out a null [gr_mem]. *)
Record group_entry := mk_group_entry {
  ge_name : string;
  ge_passwd : string;
  ge_gid : Z;
  ge_members : option (list string)
}.

(** libc lays the member names out as an array closed by a null pointer. *)
Definition group_of_entry (e : group_entry) : group :=
  {| gr_name := ge_name e;
     gr_passwd := ge_passwd e;
     gr_gid := ge_gid e;
     gr_mem := (λ ms, (Some <$> ms) ++ [None]) <$> ge_members e |}.

(** [struct rlimit]: two [rlim_t]. *)
Record rlimit := mk_rlimit { rlim_cur : Z; rlim_max : Z }.

Inductive resource := RLIMIT_NOFILE | RLIMIT_STACK.

Inductive sysname := NR_setuid | NR_setgid | NR_getrlimit | NR_setrlimit.

Definition sysname_eqb (a b : sysname) : bool :=
  match a, b with
  | NR_setuid, NR_setuid | NR_setgid, NR_setgid
  | NR_getrlimit, NR_getrlimit | NR_setrlimit, NR_setrlimit => true
  | _, _ => false
  end.

Definition EPERM : Z := 1.
Definition EINVAL : Z := 22.
Definition RLIM_INFINITY : Z := 2^64 - 1.

(** [(uid_t)-1] and [(gid_t)-1]: the value the kernel maps to no id. *)
Definition INVALID_ID : Z := 2^32 - 1.

(** Process-wide state.  [nr_open] is the system's ceiling on the hard
    limit of open files (Linux: [fs.nr_open], itself at most [INT_MAX]);
    [refused] lists the system calls that the kernel's filter (seccomp, a
    jail) turns down with [EPERM]. *)
Record OS := mk_OS {
  ruid : Z; euid : Z; suid : Z;
  rgid : Z; egid : Z; sgid : Z;
  cmask : Z;
  nofile : rlimit;
  stack : rlimit;
  nr_open : Z;
  errno : Z;
  refused : list sysname;
  passwd_db : list passwd;
  group_db : list group_entry
}.

Definition is_refused (n : sysname) (o : OS) : bool :=
  existsb (sysname_eqb n) (refused o).

Definition fail_with (e : Z) (o : OS) : Z * OS :=
  (-1, mk_OS (ruid o) (euid o) (suid o) (rgid o) (egid o) (sgid o) (cmask o)
         (nofile o) (stack o) (nr_open o) e (refused o) (passwd_db o) (group_db o)).

(** [setuid(2)]: [EINVAL] for [(uid_t)-1], which is no uid; otherwise a
    process with effective uid 0 sets all three ids, and any other process
    may only switch to its real or saved id. *)
Definition sys_setuid (u : Z) (o : OS) : Z * OS :=
  if is_refused NR_setuid o then fail_with EPERM o
  else if u =? INVALID_ID then fail_with EINVAL o
  else if euid o =? 0 then
    (0, mk_OS u u u (rgid o) (egid o) (sgid o) (cmask o)
          (nofile o) (stack o) (nr_open o) (errno o) (refused o) (passwd_db o) (group_db o))
  else if (u =? ruid o) || (u =? suid o) then
    (0, mk_OS (ruid o) u (suid o) (rgid o) (egid o) (sgid o) (cmask o)
          (nofile o) (stack o) (nr_open o) (errno o) (refused o) (passwd_db o) (group_db o))
  else fail_with EPERM o.

(** [setgid(2)]: [EINVAL] for [(gid_t)-1]; privileged when the effective
    uid is 0. *)
Definition sys_setgid (g : Z) (o : OS) : Z * OS :=
  if is_refused NR_setgid o then fail_with EPERM o
  else if g =? INVALID_ID then fail_with EINVAL o
  else if euid o =? 0 then
    (0, mk_OS (ruid o) (euid o) (suid o) g g g (cmask o)
          (nofile o) (stack o) (nr_open o) (errno o) (refused o) (passwd_db o) (group_db o))
  else if (g =? rgid o) || (g =? sgid o) then
    (0, mk_OS (ruid o) (euid o) (suid o) (rgid o) g (sgid o) (cmask o)
          (nofile o) (stack o) (nr_open o) (errno o) (refused o) (passwd_db o) (group_db o))
  else fail_with EPERM o.

(** [umask(2)] always succeeds: it installs the permission bits of its
    argument and returns the previous mask. *)
Definition sys_umask (m : Z) (o : OS) : Z * OS :=
  (cmask o,
   mk_OS (ruid o) (euid o) (suid o) (rgid o) (egid o) (sgid o) (Z.land m 511)
         (nofile o) (stack o) (nr_open o) (errno o) (refused o) (passwd_db o) (group_db o)).

Definition get_limit (r : resource) (o : OS) : rlimit :=
  match r with RLIMIT_NOFILE => nofile o | RLIMIT_STACK => stack o end.

Definition set_limit (r : resource) (l : rlimit) (o : OS) : OS :=
  match r with
  | RLIMIT_NOFILE =>
      mk_OS (ruid o) (euid o) (suid o) (rgid o) (egid o) (sgid o) (cmask o)
            l (stack o) (nr_open o) (errno o) (refused o) (passwd_db o) (group_db o)
  | RLIMIT_STACK =>
      mk_OS (ruid o) (euid o) (suid o) (rgid o) (egid o) (sgid o) (cmask o)
            (nofile o) l (nr_open o) (errno o) (refused o) (passwd_db o) (group_db o)
  end.

(** [getrlimit(2)]: the result code and, on success, the limits written
    through the pointer. *)
Definition sys_getrlimit (r : resource) (o : OS) : Z * option rlimit * OS :=
  if is_refused NR_getrlimit o then
    let '(rc, o') := fail_with EPERM o in (rc, None, o')
  else (0, Some (get_limit r o), o).

Definition counts_files (r : resource) : bool :=
  match r with RLIMIT_NOFILE => true | RLIMIT_STACK => false end.

(** [setrlimit(2)]: [EINVAL] when the soft limit exceeds the hard limit;
    [EPERM] when the hard limit of open files is put above the system's
    ceiling, whoever asks, and when an unprivileged process raises a hard
    limit; on success both values are installed as given, on failure
    nothing changes. *)
Definition sys_setrlimit (r : resource) (l : rlimit) (o : OS) : Z * OS :=
  if is_refused NR_setrlimit o then fail_with EPERM o
  else if rlim_max l <? rlim_cur l then fail_with EINVAL o
  else if counts_files r && (nr_open o <? rlim_max l) then fail_with EPERM o
  else if (rlim_max (get_limit r o) <? rlim_max l) && negb (euid o =? 0)
  then fail_with EPERM o
  else (0, set_limit r l o).

(** The identity databases: the first matching line wins. *)
Definition db_getpwnam (name : string) (o : OS) : option passwd :=
  find (λ p, String.eqb (pw_name p) name) (passwd_db o).

Definition db_getpwuid (uid : Z) (o : OS) : option passwd :=
  find (λ p, pw_uid p =? uid) (passwd_db o).

Definition db_getgrnam (name : string) (o : OS) : option group :=
  group_of_entry <$> find (λ g, String.eqb (ge_name g) name) (group_db o).

Definition db_getgrgid (gid : Z) (o : OS) : option group :=
  group_of_entry <$> find (λ g, ge_gid g =? gid) (group_db o).

End Posix.
Export Posix.

(** ** The Java side: classes, heap and pending exception *)
Module Jvm.

(** JNI handles.  The null handle is [None]; an object reference is its
    index in the heap, a class handle is the class name, a field id is the
    field's name and type signature, a method id adds the class. *)
Definition jobject := option nat.
Definition jclass := option string.
Definition jfieldID := option (string * string).
Definition jmethodID := option (string * string * string).

Inductive value := VInt (z : Z) | VRef (r : jobject).

Inductive hobj :=
| OInst (cls : string) (flds : gmap string value)
| OStr (s : string)
| OArr (elts : list jobject).

(** What the host runtime knows of a class: whether it can be
    instantiated, its methods (name, signature) and its instance fields
    (name to type signature). *)
Record classdef := mk_classdef {
  cd_abstract : bool;
  cd_methods : list (string * string);
  cd_fields : gmap string string
}.

(** Zero-initialisation of a field: null for class and array types, 0 for
    the primitive ones. *)
Definition default_value (sig : string) : value :=
  match sig with
  | String "L"%char _ | String "["%char _ => VRef None
  | _ => VInt 0
  end.

End Jvm.
Export Jvm.

(** ** The world the native code runs in *)

Inductive syscall :=
| Setuid (u : Z)
| Setgid (g : Z)
| Umask (m : Z)
| Getrlimit (r : resource)
| Setrlimit (r : resource) (l : rlimit)
| Getpwnam (name : string)
| Getpwuid (u : Z)
| Getgrnam (name : string)
| Getgrgid (g : Z).

(** What an observer of the process sees, most recent first: calls into
    libc and exceptions raised through [ThrowNew]. *)
Inductive event :=
| Call (c : syscall)
| Throw (cls msg : string).

Record World := mk_World {
  os : OS;
  classes : gmap string classdef;
  heap : list hobj;
  pending : option (string * string);
  trace : list event
}.

Definition with_os (o : OS) (w : World) : World :=
  mk_World o (classes w) (heap w) (pending w) (trace w).
Definition with_heap (h : list hobj) (w : World) : World :=
  mk_World (os w) (classes w) h (pending w) (trace w).
Definition with_pending (e : option (string * string)) (w : World) : World :=
  mk_World (os w) (classes w) (heap w) e (trace w).
Definition record (e : event) (w : World) : World :=
  mk_World (os w) (classes w) (heap w) (pending w) (e :: trace w).

(** A computation either returns a value in a new world or runs into
    behaviour that neither C nor the JNI specification defines (a null
    handle passed to a JNI function, a write past the end of a buffer);
    the world is the one in which that happened. *)
Inductive outcome (A : Type) :=
| Returns (a : A) (w : World)
| Undefined (w : World).
Arguments Returns {A} a w.
Arguments Undefined {A} w.

Definition M (A : Type) : Type := World → outcome A.

#[global] Instance M_ret : MRet M := λ A a w, Returns a w.
#[global] Instance M_bind : MBind M := λ A B f m w,
  match m w with
  | Returns a w' => f a w'
  | Undefined w' => Undefined w'
  end.

Definition undefined {A} : M A := λ w, Undefined w.

(** ** libc as the C file calls it *)
Module Libc.

Definition setuid (u : Z) : M Z := λ w,
  let '(rc, o) := sys_setuid u (os w) in
  Returns rc (record (Call (Setuid u)) (with_os o w)).

Definition setgid (g : Z) : M Z := λ w,
  let '(rc, o) := sys_setgid g (os w) in
  Returns rc (record (Call (Setgid g)) (with_os o w)).

Definition umask (m : Z) : M Z := λ w,
  let '(rc, o) := sys_umask m (os w) in
  Returns rc (record (Call (Umask m)) (with_os o w)).

Definition getrlimit (r : resource) : M (Z * option rlimit) := λ w,
  let '(rc, l, o) := sys_getrlimit r (os w) in
  Returns (rc, l) (record (Call (Getrlimit r)) (with_os o w)).

Definition setrlimit (r : resource) (l : rlimit) : M Z := λ w,
  let '(rc, o) := sys_setrlimit r l (os w) in
  Returns rc (record (Call (Setrlimit r l)) (with_os o w)).

Definition getpwnam (name : string) : M (option passwd) := λ w,
  Returns (db_getpwnam name (os w)) (record (Call (Getpwnam name)) w).

Definition getpwuid (uid : Z) : M (option passwd) := λ w,
  Returns (db_getpwuid uid (os w)) (record (Call (Getpwuid uid)) w).

Definition getgrnam (name : string) : M (option group) := λ w,
  Returns (db_getgrnam name (os w)) (record (Call (Getgrnam name)) w).

Definition getgrgid (gid : Z) : M (option group) := λ w,
  Returns (db_getgrgid gid (os w)) (record (Call (Getgrgid gid)) w).

(** [sprintf] into a [char] array of [size] bytes: the text and its
    terminating NUL must fit, writing past the array is undefined. *)
Definition sprintf (size : nat) (text : string) : M string :=
  if (String.length text <? size)%nat then mret text else undefined.

End Libc.

(** ** The JNI functions the C file uses

    Java strings cross the boundary as their modified UTF-8 bytes, so
    [GetStringUTFChars] and [NewStringUTF] carry the bytes unchanged.
    Local references are not counted: [DeleteLocalRef] and
    [ReleaseStringUTFChars] leave the world as it is.  A JNI function that
    fails leaves its exception pending and returns null.  On its error
    paths the C file goes on calling JNI functions while an exception is
    pending ([FindClass] and [ThrowNew] in [throwNewJavaException],
    [NewStringUTF], the field accessors); they are taken the way the file
    expects them to behave: they proceed as usual, and [ThrowNew] replaces
    the pending exception.  A null class, method id, field id or object
    where JNI requires one is undefined. *)
Module JNI.

Definition raise (cls msg : string) : M () := λ w,
  Returns () (with_pending (Some (cls, msg)) w).

Definition alloc (o : hobj) : M jobject := λ w,
  Returns (Some (length (heap w))) (with_heap (heap w ++ [o]) w).

Definition FindClass (name : string) : M jclass := λ w,
  match classes w !! name with
  | Some _ => Returns (Some name) w
  | None => (raise "java/lang/NoClassDefFoundError" name ;; mret None) w
  end.

Definition GetMethodID (clazz : jclass) (name sig : string) : M jmethodID := λ w,
  match clazz with
  | None => Undefined w
  | Some c =>
      match classes w !! c with
      | None => Undefined w
      | Some cd =>
          if existsb (λ m, String.eqb m.1 name && String.eqb m.2 sig)
                     (cd_methods cd)
          then Returns (Some (c, name, sig)) w
          else (raise "java/lang/NoSuchMethodError" name ;; mret None) w
      end
  end.

(** [NewObject] with the no-argument constructor: a fresh instance with
    every field zero-initialised (the record classes' constructors assign
    nothing). *)
Definition NewObject (clazz : jclass) (methodID : jmethodID) : M jobject := λ w,
  match clazz, methodID with
  | Some c, Some _ =>
      match classes w !! c with
      | None => Undefined w
      | Some cd =>
          if cd_abstract cd
          then (raise "java/lang/InstantiationException" c ;; mret None) w
          else alloc (OInst c (default_value <$> cd_fields cd)) w
      end
  | _, _ => Undefined w
  end.

Definition GetObjectClass (obj : jobject) : M jclass := λ w,
  match obj with
  | None => Undefined w
  | Some r =>
      match heap w !! r with
      | Some (OInst c _) => Returns (Some c) w
      | Some (OStr _) => Returns (Some "java/lang/String") w
      | Some (OArr _) => Returns (Some "[Ljava/lang/Object;") w
      | None => Undefined w
      end
  end.

Definition GetFieldID (clazz : jclass) (name sig : string) : M jfieldID := λ w,
  match clazz with
  | None => Undefined w
  | Some c =>
      match classes w !! c with
      | None => Undefined w
      | Some cd =>
          match cd_fields cd !! name with
          | Some sig' =>
              if String.eqb sig' sig then Returns (Some (name, sig)) w
              else (raise "java/lang/NoSuchFieldError" name ;; mret None) w
          | None => (raise "java/lang/NoSuchFieldError" name ;; mret None) w
          end
      end
  end.

(** Writing a field through a field id: the object and the id must not be
    null and the object must have the field. *)
Definition set_field (obj : jobject) (fieldID : jfieldID) (v : value) : M () := λ w,
  match obj, fieldID with
  | Some r, Some (name, _) =>
      match heap w !! r with
      | Some (OInst c flds) =>
          match flds !! name with
          | Some _ =>
              Returns () (with_heap (<[r := OInst c (<[name := v]> flds)]> (heap w)) w)
          | None => Undefined w
          end
      | _ => Undefined w
      end
  | _, _ => Undefined w
  end.

Definition SetIntField (obj : jobject) (fieldID : jfieldID) (val : Z) : M () :=
  set_field obj fieldID (VInt val).

Definition SetLongField (obj : jobject) (fieldID : jfieldID) (val : Z) : M () :=
  set_field obj fieldID (VInt val).

Definition SetObjectField (obj : jobject) (fieldID : jfieldID) (val : jobject) : M () :=
  set_field obj fieldID (VRef val).

Definition GetIntField (obj : jobject) (fieldID : jfieldID) : M Z := λ w,
  match obj, fieldID with
  | Some r, Some (name, _) =>
      match heap w !! r with
      | Some (OInst c flds) =>
          match flds !! name with
          | Some (VInt z) => Returns z w
          | _ => Undefined w
          end
      | _ => Undefined w
      end
  | _, _ => Undefined w
  end.

Definition NewStringUTF (bytes : string) : M jobject := alloc (OStr bytes).

Definition GetStringUTFChars (str : jobject) : M string := λ w,
  match str with
  | Some r =>
      match heap w !! r with
      | Some (OStr s) => Returns s w
      | _ => Undefined w
      end
  | None => Undefined w
  end.

Definition ReleaseStringUTFChars (str : jobject) (chars : string) : M () := mret ().

Definition DeleteLocalRef {H : Type} (ref : option H) : M () := mret ().

Definition NewObjectArray (len : nat) (clazz : jclass) (init : jobject) : M jobject :=
  match clazz with
  | None => undefined
  | Some _ => alloc (OArr (replicate len init))
  end.

Definition SetObjectArrayElement (array : jobject) (index : nat) (val : jobject) : M () := λ w,
  match array with
  | Some r =>
      match heap w !! r with
      | Some (OArr elts) =>
          if (index <? length elts)%nat
          then Returns () (with_heap (<[r := OArr (<[index := val]> elts)]> (heap w)) w)
          else raise "java/lang/ArrayIndexOutOfBoundsException" "" w
      | _ => Undefined w
      end
  | None => Undefined w
  end.

(** [ThrowNew]: build an exception of the class with the message and leave
    it pending. *)
Definition ThrowNew (clazz : jclass) (msg : string) : M Z := λ w,
  match clazz with
  | Some c => Returns 0 (record (Throw c msg) (with_pending (Some (c, msg)) w))
  | None => Undefined w
  end.

End JNI.

(** ** The C file, helper functions first *)
Module SetUID.
Import Libc JNI.

(** [jint] to [uid_t]/[gid_t]/[mode_t], [rlim_t]/[uid_t] to [int] and
    [int] to [rlim_t] are the casts and implicit conversions of the C
    text. *)

Definition throwNewJavaException (name msg : string) : M () :=
  clazz ← FindClass name;
  (if clazz is Some _ then ThrowNew clazz msg ;; mret () else mret ()) ;;
  DeleteLocalRef clazz.

Definition throwNewJavaSecurityException (msg : string) : M () :=
  throwNewJavaException "java/lang/SecurityException" msg.

Definition getJavaMethodId (clazz : jclass) (name sig : string) : M jmethodID :=
  methodId ← GetMethodID clazz name sig;
  if methodId is None then
    strErr ← sprintf 255 ("Java Method is not found: " +:+ name +:+ " !!!");
    throwNewJavaSecurityException strErr ;;
    mret None
  else mret methodId.

Definition getJavaFieldInt (obj : jobject) (name : string) : M Z :=
  clazz ← GetObjectClass obj;
  fieldId ← GetFieldID clazz name "I";
  (if fieldId is None then
     strErr ← sprintf 255 ("Java Object Field is not found: int " +:+ name +:+ " !!!");
     throwNewJavaSecurityException strErr
   else mret ()) ;;
  val ← GetIntField obj fieldId;
  DeleteLocalRef clazz ;;
  mret val.

Definition setJavaFieldInt (obj : jobject) (name : string) (value : Z) : M () :=
  clazz ← GetObjectClass obj;
  fieldId ← GetFieldID clazz name "I";
  (if fieldId is None then
     strErr ← sprintf 255 ("Java Object Field is not found: int " +:+ name +:+ " !!!");
     throwNewJavaSecurityException strErr
   else mret ()) ;;
  SetIntField obj fieldId value ;;
  DeleteLocalRef clazz.

Definition setJavaFieldLong (obj : jobject) (name : string) (value : Z) : M () :=
  clazz ← GetObjectClass obj;
  fieldId ← GetFieldID clazz name "L";
  (if fieldId is None then
     strErr ← sprintf 255 ("Java Object Field is not found: long " +:+ name +:+ " !!!");
     throwNewJavaSecurityException strErr
   else mret ()) ;;
  SetLongField obj fieldId value ;;
  DeleteLocalRef clazz.

Definition setJavaFieldString (obj : jobject) (name value : string) : M () :=
  clazz ← GetObjectClass obj;
  fieldId ← GetFieldID clazz name "Ljava/lang/String;";
  (if fieldId is None then
     strErr ← sprintf 255 ("Java Object Field is not found: String " +:+ name +:+ " !!!");
     throwNewJavaSecurityException strErr
   else mret ()) ;;
  jstr ← NewStringUTF value;
  SetObjectField obj fieldId jstr ;;
  DeleteLocalRef clazz.

(** *** Privilege changes *)

Definition Java_org_mortbay_setuid_SetUID_setuid (uid : Z) : M Z :=
  rc ← setuid (to_uint32 uid);
  mret (to_int32 rc).

Definition Java_org_mortbay_setuid_SetUID_setumask (mask : Z) : M Z :=
  rc ← umask (to_uint32 mask);
  mret (to_int32 rc).

Definition Java_org_mortbay_setuid_SetUID_setgid (gid : Z) : M Z :=
  rc ← setgid (to_uint32 gid);
  mret (to_int32 rc).

(** *** User information *)

Definition Java_org_mortbay_setuid_SetUID_getpwnam (name : jobject) : M jobject :=
  pname ← GetStringUTFChars name;
  pw ← getpwnam pname;
  match pw with
  | None =>
      strErr ← sprintf 255 ("User " +:+ pname +:+ " is not found!!!");
      throwNewJavaSecurityException strErr ;;
      mret None
  | Some pw =>
      ReleaseStringUTFChars name pname ;;
      cls ← FindClass "org/mortbay/setuid/Passwd";
      if cls is None then
        throwNewJavaSecurityException "Class: org.mortbay.setuid.Passwd is not found!!!" ;;
        mret None
      else
        constructorMethod ← getJavaMethodId cls "<init>" "()V";
        retVal ← NewObject cls constructorMethod;
        if retVal is None then
          throwNewJavaSecurityException
            "Object Construction error of Class: org.mortbay.setuid.Passwd!!!" ;;
          mret None
        else
          setJavaFieldString retVal "_pwName" (pw_name pw) ;;
          setJavaFieldString retVal "_pwPasswd" (pw_passwd pw) ;;
          setJavaFieldInt retVal "_pwUid" (to_int32 (pw_uid pw)) ;;
          setJavaFieldInt retVal "_pwGid" (to_int32 (pw_gid pw)) ;;
          setJavaFieldString retVal "_pwGecos" (pw_gecos pw) ;;
          setJavaFieldString retVal "_pwDir" (pw_dir pw) ;;
          setJavaFieldString retVal "_pwShell" (pw_shell pw) ;;
          DeleteLocalRef cls ;;
          mret retVal
  end.

Definition Java_org_mortbay_setuid_SetUID_getpwuid (uid : Z) : M jobject :=
  pw ← getpwuid (to_uint32 uid);
  match pw with
  | None =>
      strErr ← sprintf 255 ("User with uid " +:+ fmt_d uid +:+ " is not found!!!");
      throwNewJavaSecurityException strErr ;;
      mret None
  | Some pw =>
      cls ← FindClass "org/mortbay/setuid/Passwd";
      if cls is None then
        throwNewJavaSecurityException "Class: org.mortbay.setuid.Passwd is not found!!!" ;;
        mret None
      else
        constructorMethod ← getJavaMethodId cls "<init>" "()V";
        retVal ← NewObject cls constructorMethod;
        if retVal is None then
          throwNewJavaSecurityException
            "Object Construction error of Class: org.mortbay.setuid.Passwd!!!" ;;
          mret None
        else
          setJavaFieldString retVal "_pwName" (pw_name pw) ;;
          setJavaFieldString retVal "_pwPasswd" (pw_passwd pw) ;;
          setJavaFieldInt retVal "_pwUid" (to_int32 (pw_uid pw)) ;;
          setJavaFieldInt retVal "_pwGid" (to_int32 (pw_gid pw)) ;;
          setJavaFieldString retVal "_pwGecos" (pw_gecos pw) ;;
          setJavaFieldString retVal "_pwDir" (pw_dir pw) ;;
          setJavaFieldString retVal "_pwShell" (pw_shell pw) ;;
          DeleteLocalRef cls ;;
          mret retVal
  end.

(** *** Group information *)

(** [for(array_size = 0; gr->gr_mem[array_size] != NULL; array_size++);]
    with [rest] the cells from index [array_size] on; reading past the
    last cell is undefined. *)
Fixpoint scan_members (rest : list (option string)) (array_size : nat) : M nat :=
  match rest with
  | Some _ :: rest' => scan_members rest' (S array_size)
  | None :: _ => mret array_size
  | [] => undefined
  end.

(** [for(i = 0; i < array_size; i++) SetObjectArrayElement(env, strArr, i,
    NewStringUTF(env, gr->gr_mem[i]));] with [todo = array_size - i].
    [NewStringUTF] of a null pointer is null. *)
Fixpoint copy_members (cells : list (option string)) (strArr : jobject)
    (i todo : nat) : M () :=
  match todo with
  | O => mret ()
  | S todo' =>
      match cells !! i with
      | Some cell =>
          jstr ← (if cell is Some member then NewStringUTF member else mret None);
          SetObjectArrayElement strArr i jstr ;;
          copy_members cells strArr (S i) todo'
      | None => undefined
      end
  end.

(** The two arguments of [NewObjectArray] are themselves JNI calls; C
    leaves their order open and they are taken left to right. *)
Definition Java_org_mortbay_setuid_SetUID_getgrnam (name : jobject) : M jobject :=
  pname ← GetStringUTFChars name;
  gr ← getgrnam pname;
  match gr with
  | None =>
      strErr ← sprintf 255 ("Group " +:+ pname +:+ " is not found!!!");
      throwNewJavaSecurityException strErr ;;
      mret None
  | Some gr =>
      ReleaseStringUTFChars name pname ;;
      cls ← FindClass "org/mortbay/setuid/Group";
      if cls is None then
        throwNewJavaSecurityException "Class: org.mortbay.setuid.Group is not found!!!" ;;
        mret None
      else
        constructorMethod ← getJavaMethodId cls "<init>" "()V";
        retVal ← NewObject cls constructorMethod;
        if retVal is None then
          throwNewJavaSecurityException
            "Object Construction error of Class: org.mortbay.setuid.Group!!!" ;;
          mret None
        else
          setJavaFieldString retVal "_grName" (gr_name gr) ;;
          setJavaFieldString retVal "_grPasswd" (gr_passwd gr) ;;
          setJavaFieldInt retVal "_grGid" (to_int32 (gr_gid gr)) ;;
          (if gr_mem gr is Some cells then
             array_size ← scan_members cells 0%nat;
             if (0 <? array_size)%nat then
               elementClass ← FindClass "java/lang/String";
               initialElement ← NewStringUTF "";
               strArr ← NewObjectArray array_size elementClass initialElement;
               copy_members cells strArr 0%nat array_size ;;
               fieldId ← GetFieldID cls "_grMem" "[Ljava/lang/String;";
               (if fieldId is None then
                  throwNewJavaSecurityException
                    "Class: Java Object Field is not found: String[] _grMem!!!"
                else mret ()) ;;
               SetObjectField retVal fieldId strArr
             else mret ()
           else mret ()) ;;
          DeleteLocalRef cls ;;
          mret retVal
  end.

Definition Java_org_mortbay_setuid_SetUID_getgrgid (gid : Z) : M jobject :=
  gr ← getgrgid (to_uint32 gid);
  match gr with
  | None =>
      strErr ← sprintf 255 ("Group with gid " +:+ fmt_d gid +:+ " is not found!!!");
      throwNewJavaSecurityException strErr ;;
      mret None
  | Some gr =>
      cls ← FindClass "org/mortbay/setuid/Group";
      if cls is None then
        throwNewJavaSecurityException "Class: org.mortbay.setuid.Group is not found!!!" ;;
        mret None
      else
        constructorMethod ← getJavaMethodId cls "<init>" "()V";
        retVal ← NewObject cls constructorMethod;
        if retVal is None then
          throwNewJavaSecurityException
            "Object Construction Error of Class: org.mortbay.setuid.Group!!!" ;;
          mret None
        else
          setJavaFieldString retVal "_grName" (gr_name gr) ;;
          setJavaFieldString retVal "_grPasswd" (gr_passwd gr) ;;
          setJavaFieldInt retVal "_grGid" (to_int32 (gr_gid gr)) ;;
          (if gr_mem gr is Some cells then
             array_size ← scan_members cells 0%nat;
             if (0 <? array_size)%nat then
               elementClass ← FindClass "java/lang/String";
               initialElement ← NewStringUTF "";
               strArr ← NewObjectArray array_size elementClass initialElement;
               copy_members cells strArr 0%nat array_size ;;
               fieldId ← GetFieldID cls "_grMem" "[Ljava/lang/String;";
               (if fieldId is None then
                  throwNewJavaSecurityException
                    "Java Object Field is not found: String _grMem!!!"
                else mret ()) ;;
               SetObjectField retVal fieldId strArr
             else mret ()
           else mret ()) ;;
          DeleteLocalRef cls ;;
          mret retVal
  end.

(** *** Open-file resource limit *)

Definition Java_org_mortbay_setuid_SetUID_getrlimitnofiles : M jobject :=
  '(success, rlim) ← getrlimit RLIMIT_NOFILE;
  if success <? 0 then
    throwNewJavaSecurityException "getrlimit failed" ;;
    mret None
  else
    cls ← FindClass "org/mortbay/setuid/RLimit";
    if cls is None then
      throwNewJavaSecurityException "Class: org.mortbay.setuid.RLimit is not found!!!" ;;
      mret None
    else
      constructorMethod ← getJavaMethodId cls "<init>" "()V";
      retVal ← NewObject cls constructorMethod;
      if retVal is None then
        throwNewJavaSecurityException
          "Object Construction Error of Class: org.mortbay.setuid.RLimit!!!" ;;
        mret None
      else
        (* [rlim] is only written by a [getrlimit] that succeeds *)
        match rlim with
        | Some rlim =>
            setJavaFieldInt retVal "_soft" (to_int32 (rlim_cur rlim)) ;;
            setJavaFieldInt retVal "_hard" (to_int32 (rlim_max rlim)) ;;
            DeleteLocalRef cls ;;
            mret retVal
        | None => undefined
        end.

Definition Java_org_mortbay_setuid_SetUID_setrlimitnofiles (jo : jobject) : M Z :=
  cls ← FindClass "org/mortbay/setuid/RLimit";
  soft ← getJavaFieldInt jo "_soft";
  hard ← getJavaFieldInt jo "_hard";
  let rlim := {| rlim_cur := to_uint64 soft; rlim_max := to_uint64 hard |} in
  success ← setrlimit RLIMIT_NOFILE rlim;
  DeleteLocalRef cls ;;
  mret (to_int32 success).

End SetUID.
Export SetUID.

(** ** Observing the Java side of a world *)
Module Observe.

Definition security : string := "java/lang/SecurityException".

Definition get_field (w : World) (r : nat) (name : string) : option value :=
  match heap w !! r with
  | Some (OInst _ flds) => flds !! name
  | _ => None
  end.

Definition string_at (w : World) (v : jobject) : option string :=
  match v with
  | Some r => match heap w !! r with Some (OStr s) => Some s | _ => None end
  | None => None
  end.

Definition field_int (w : World) (r : nat) (name : string) : option Z :=
  match get_field w r name with Some (VInt z) => Some z | _ => None end.

Definition field_string (w : World) (r : nat) (name : string) : option string :=
  match get_field w r name with Some (VRef v) => string_at w v | _ => None end.

Definition array_strings (w : World) (a : nat) : option (list string) :=
  match heap w !! a with
  | Some (OArr elts) => mapM (string_at w) elts
  | _ => None
  end.

(** The class [c] can be instantiated through a no-argument constructor
    and declares each of the listed fields with the listed type. *)
Definition declares (cs : gmap string classdef) (c : string)
    (fields : list (string * string)) : bool :=
  match cs !! c with
  | Some cd =>
      negb (cd_abstract cd)
      && existsb (λ m, String.eqb m.1 "<init>" && String.eqb m.2 "()V") (cd_methods cd)
      && forallb (λ f, bool_decide (cd_fields cd !! f.1 = Some f.2)) fields
  | None => false
  end.

Definition loadable (cs : gmap string classdef) (c : string) : bool :=
  bool_decide (is_Some (cs !! c)).

Definition jstring : string := "Ljava/lang/String;".

Definition passwd_fields : list (string * string) :=
  [("_pwName", jstring); ("_pwPasswd", jstring); ("_pwUid", "I"); ("_pwGid", "I");
   ("_pwGecos", jstring); ("_pwDir", jstring); ("_pwShell", jstring)].

Definition group_fields : list (string * string) :=
  [("_grName", jstring); ("_grPasswd", jstring); ("_grGid", "I");
   ("_grMem", "[Ljava/lang/String;")].

Definition rlimit_fields : list (string * string) :=
  [("_soft", "I"); ("_hard", "I")].

(** The deployment the bridge is written for: the exception class and
    [String] can be loaded and the three record classes have the
    constructor and the fields the C file names. *)
Definition host_ok (cs : gmap string classdef) : bool :=
  loadable cs security
  && loadable cs "java/lang/String"
  && declares cs "org/mortbay/setuid/Passwd" passwd_fields
  && declares cs "org/mortbay/setuid/Group" group_fields
  && declares cs "org/mortbay/setuid/RLimit" rlimit_fields.

(** The exception a world has pending is a security exception. *)
Definition security_pending (w : World) : bool :=
  match pending w with
  | Some (cls, _) => String.eqb cls security
  | None => false
  end.

(** [key] occurs in [msg]. *)
Definition includes (key msg : string) : Prop :=
  ∃ before after, msg = before +:+ key +:+ after.

End Observe.
Export Observe.

(** ** What a lookup leaves on the Java side *)
Module Views.

(** A user entry as the managed side reads it back: the strings as they
    are and the two ids as Java [int]s. *)
Definition java_passwd (pw : passwd) : passwd :=
  mk_passwd (pw_name pw) (pw_passwd pw) (to_int32 (pw_uid pw)) (to_int32 (pw_gid pw))
    (pw_gecos pw) (pw_dir pw) (pw_shell pw).

(** The seven fields of the [Passwd] object at [r], when all are bound. *)
Definition read_passwd (w : World) (r : nat) : option passwd :=
  n ← field_string w r "_pwName";
  p ← field_string w r "_pwPasswd";
  u ← field_int w r "_pwUid";
  g ← field_int w r "_pwGid";
  c ← field_string w r "_pwGecos";
  d ← field_string w r "_pwDir";
  s ← field_string w r "_pwShell";
  Some (mk_passwd n p u g c d s).

(** What a successful user lookup leaves behind: a fresh object whose
    seven fields read back as the entry, nothing else changed but the
    heap growing and the libc call being observed. *)
Definition built_passwd (call : syscall) (pw : passwd) (w w' : World) : Prop :=
  os w' = os w ∧ classes w' = classes w ∧ pending w' = pending w
  ∧ trace w' = Call call :: trace w
  ∧ (∃ fresh, heap w' = heap w ++ fresh)
  ∧ read_passwd w' (length (heap w)) = Some (java_passwd pw).

(** The references [base], [base + 1], ... of [n] objects allocated in a
    row. *)
Definition refs_from (base n : nat) : list jobject :=
  (λ k, Some (base + k)%nat) <$> seq 0 n.

(** A group line as the managed side reads it back: the gid as a Java
    [int], and no member list at all where the line has no member. *)
Definition java_group (e : group_entry) : group_entry :=
  mk_group_entry (ge_name e) (ge_passwd e) (to_int32 (ge_gid e))
    (match ge_members e with Some (m :: ms) => Some (m :: ms) | _ => None end).

(** The member-list field: unset ([Some None]) or bound to an array of
    strings. *)
Definition read_members (w : World) (r : nat) : option (option (list string)) :=
  match get_field w r "_grMem" with
  | Some (VRef None) => Some None
  | Some (VRef (Some a)) => Some <$> array_strings w a
  | _ => None
  end.

Definition read_group (w : World) (r : nat) : option group_entry :=
  n ← field_string w r "_grName";
  p ← field_string w r "_grPasswd";
  g ← field_int w r "_grGid";
  m ← read_members w r;
  Some (mk_group_entry n p g m).

(** The member-list field of the object at [r] after a lookup from [w]:
    unset when the line has no member, otherwise an array that did not
    exist in [w], as long as the member list and holding the member names
    in order. *)
Definition member_field (e : group_entry) (w w' : World) (r : nat) : Prop :=
  match ge_members e with
  | Some (m :: ms) =>
      ∃ a elts,
        get_field w' r "_grMem" = Some (VRef (Some a))
        ∧ (length (heap w) ≤ a)%nat
        ∧ heap w' !! a = Some (OArr elts)
        ∧ length elts = length (m :: ms)
        ∧ mapM (string_at w') elts = Some (m :: ms)
  | _ => get_field w' r "_grMem" = Some (VRef None)
  end.

Definition built_group (call : syscall) (e : group_entry) (w w' : World) : Prop :=
  os w' = os w ∧ classes w' = classes w ∧ pending w' = pending w
  ∧ trace w' = Call call :: trace w
  ∧ (∃ fresh, heap w' = heap w ++ fresh)
  ∧ read_group w' (length (heap w)) = Some (java_group e)
  ∧ member_field e w w' (length (heap w)).

(** A computation that leaves the loaded classes as they are. *)
Definition stable {A} (m : M A) : Prop :=
  ∀ w a w', m w = Returns a w' → classes w' = classes w.

(** A computation that can only return [v]. *)
Definition returns_only {A} (v : A) (m : M A) : Prop :=
  ∀ w a w', m w = Returns a w' → a = v.

(** A computation of an object that, whenever it returns no object, has
    a security exception pending. *)
Definition reports (m : M jobject) : Prop :=
  ∀ w w', is_Some (classes w !! security) →
    m w = Returns None w' → security_pending w' = true.

(** The exceptions raised so far, and a run that returns without raising
    or leaving any. *)
Definition thrown (w : World) : list event :=
  List.filter (λ e, if e is Throw _ _ then true else false) (trace w).

Definition quiet {A} (m : M A) (w : World) : Prop :=
  ∃ a w', m w = Returns a w' ∧ pending w' = pending w ∧ thrown w' = thrown w.

End Views.
Export Views.

(** ** Concrete deployments *)
Module Deployment.

Definition record_class (fields : list (string * string)) : classdef :=
  mk_classdef false [("<init>", "()V")] (list_to_map fields).

(** The classes of the runtime and of the jetty-setuid jar. *)
Definition bundled : gmap string classdef :=
  list_to_map
    [(security, record_class [("detailMessage", jstring)]);
     ("java/lang/String", record_class []);
     ("org/mortbay/setuid/Passwd", record_class passwd_fields);
     ("org/mortbay/setuid/Group", record_class group_fields);
     ("org/mortbay/setuid/RLimit", record_class rlimit_fields)].

(** A jar whose [Passwd] class has no [_pwShell] field. *)
Definition old_passwd : gmap string classdef :=
  <["org/mortbay/setuid/Passwd" :=
      record_class
        [("_pwName", jstring); ("_pwPasswd", jstring); ("_pwUid", "I");
         ("_pwGid", "I"); ("_pwGecos", jstring); ("_pwDir", jstring)]]> bundled.

(** A jar whose [RLimit] class names its fields [soft] and [hard]. *)
Definition renamed_rlimit : gmap string classdef :=
  <["org/mortbay/setuid/RLimit" := record_class [("soft", "I"); ("hard", "I")]]> bundled.

Definition users : list passwd :=
  [mk_passwd "root" "x" 0 0 "root" "/root" "/bin/sh";
   mk_passwd "jetty" "x" 1001 1001 "Jetty" "/opt/jetty" "/bin/false"].

Definition groups : list group_entry :=
  [mk_group_entry "wheel" "x" 10 (Some ["root"; "jetty"]);
   mk_group_entry "jetty" "x" 1001 (Some [])].

(** A process started by root, umask 022, 1024 to 4096 open files, on a
    system whose ceiling is the usual 1048576. *)
Definition process : OS :=
  mk_OS 0 0 0 0 0 0 18 (mk_rlimit 1024 4096) (mk_rlimit 8388608 RLIM_INFINITY)
    1048576 0 [] users groups.

(** The same process on a system without a hard limit on open files, and
    so without a ceiling. *)
Definition unlimited : OS :=
  mk_OS 0 0 0 0 0 0 18 (mk_rlimit 1024 RLIM_INFINITY)
    (mk_rlimit 8388608 RLIM_INFINITY) RLIM_INFINITY 0 [] users groups.

(** The same process in a sandbox that refuses [getrlimit]. *)
Definition sandboxed : OS :=
  mk_OS 0 0 0 0 0 0 18 (mk_rlimit 1024 4096) (mk_rlimit 8388608 RLIM_INFINITY)
    1048576 0 [NR_getrlimit] users groups.

Definition world (o : OS) (cs : gmap string classdef) (h : list hobj) : World :=
  mk_World o cs h None [].

(** An [RLimit] object holding the two limits. *)
Definition limit_fields (soft hard : Z) : gmap string value :=
  list_to_map [("_soft", VInt soft); ("_hard", VInt hard)].

Definition limits (soft hard : Z) : hobj :=
  OInst "org/mortbay/setuid/RLimit" (limit_fields soft hard).

(** The same object for the jar with the renamed fields. *)
Definition limits_renamed (soft hard : Z) : hobj :=
  OInst "org/mortbay/setuid/RLimit"
    (list_to_map [("soft", VInt soft); ("hard", VInt hard)]).

(** A jar whose [Passwd] class has no no-argument constructor. *)
Definition no_constructor : gmap string classdef :=
  <["org/mortbay/setuid/Passwd" :=
      mk_classdef false [("<init>", "(Ljava/lang/String;)V")]
        (list_to_map passwd_fields)]> bundled.

(** A name of 240 bytes. *)
Definition long_name : string := string_of_list_ascii (replicate 240 "a"%char).

End Deployment.
Export Deployment.

(** ** Whole runs *)
Module Runs.

(** The world a run ends in, whether it returns or not. *)
Definition final {A} (o : outcome A) : World :=
  match o with Returns _ w => w | Undefined w => w end.

(** Every event a run adds to the trace satisfies [P], whichever way the
    run ends. *)
Definition emits {A} (P : event → Prop) (m : M A) : Prop :=
  ∀ w, ∃ evs, trace (final (m w)) = evs ++ trace w ∧ Forall P evs.

(** A security exception thrown through [ThrowNew]; no libc call is
    one. *)
Definition security_throw (e : event) : Prop :=
  match e with
  | Call _ => False
  | Throw cls _ => cls = security
  end.

(** The run adds [Call c] to the trace and after it security exceptions
    only. *)
Definition calls_then_throws {A} (c : syscall) (m : M A) (w : World) : Prop :=
  ∃ throws, trace (final (m w)) = throws ++ Call c :: trace w
            ∧ Forall security_throw throws.

(** The shape of a lookup, whichever way it ends: no event at all, or one
    libc call, the one [own] names in the world the run starts from, as
    the first event and security exceptions only after it. *)
Definition queries_once {A} (own : World → syscall → Prop) (m : M A) : Prop :=
  ∀ w, trace (final (m w)) = trace w
       ∨ ∃ c, own w c ∧ calls_then_throws c m w.

End Runs.
Export Runs.

(** ** Running the code: one equation per primitive and helper *)
Section Running.

Import Libc JNI.

Lemma run_bind {A B} (m : M A) (f : A → M B) w a w' :
  m w = Returns a w' → (m ≫= f) w = f a w'.
Proof. intros H. unfold mbind, M_bind. now rewrite H. Qed.

Lemma run_bind_undefined {A B} (m : M A) (f : A → M B) w w' :
  m w = Undefined w' → (m ≫= f) w = Undefined w'.
Proof. intros H. unfold mbind, M_bind. now rewrite H. Qed.

Lemma run_ret {A} (a : A) w : (mret a : M A) w = Returns a w.
Proof. reflexivity. Qed.

Lemma loadable_Some cs c : loadable cs c = true → is_Some (cs !! c).
Proof. unfold loadable. intros H. now apply bool_decide_eq_true in H. Qed.

Lemma declares_inv cs c fields :
  declares cs c fields = true →
  ∃ cd, cs !! c = Some cd ∧ cd_abstract cd = false
    ∧ existsb (λ m, String.eqb m.1 "<init>" && String.eqb m.2 "()V") (cd_methods cd) = true
    ∧ ∀ n s, In (n, s) fields → cd_fields cd !! n = Some s.
Proof.
  unfold declares. destruct (cs !! c) as [cd|]; [|discriminate].
  intros H. apply andb_prop in H as [H Hf]. apply andb_prop in H as [Ha Hm].
  exists cd. repeat split; auto.
  - now destruct (cd_abstract cd).
  - intros n s Hin. rewrite forallb_forall in Hf.
    specialize (Hf _ Hin). now apply bool_decide_eq_true in Hf.
Qed.

Lemma FindClass_found n w :
  is_Some (classes w !! n) → FindClass n w = Returns (Some n) w.
Proof. intros [cd H]. unfold FindClass. now rewrite H. Qed.

Lemma throw_security msg w :
  is_Some (classes w !! security) →
  throwNewJavaSecurityException msg w
  = Returns () (record (Throw security msg) (with_pending (Some (security, msg)) w)).
Proof.
  intros H. unfold throwNewJavaSecurityException, throwNewJavaException.
  rewrite (run_bind _ _ _ _ _ (FindClass_found _ _ H)). reflexivity.
Qed.

Lemma sprintf_fits size text w :
  (String.length text < size)%nat → sprintf size text w = Returns text w.
Proof.
  intros H. unfold sprintf.
  destruct (Nat.ltb_spec (String.length text) size); [reflexivity | lia].
Qed.

Lemma sprintf_overflow size text w :
  (size ≤ String.length text)%nat → sprintf size text w = Undefined w.
Proof.
  intros H. unfold sprintf.
  destruct (Nat.ltb_spec (String.length text) size); [lia | reflexivity].
Qed.

Lemma getJavaMethodId_ctor c cd w :
  classes w !! c = Some cd →
  existsb (λ m, String.eqb m.1 "<init>" && String.eqb m.2 "()V") (cd_methods cd) = true →
  getJavaMethodId (Some c) "<init>" "()V" w = Returns (Some (c, "<init>", "()V")) w.
Proof.
  intros Hc Hm. unfold getJavaMethodId.
  rewrite (run_bind _ _ w (Some (c, "<init>", "()V")) w); [reflexivity|].
  unfold GetMethodID. now rewrite Hc, Hm.
Qed.

Lemma NewObject_fresh c cd m w :
  classes w !! c = Some cd → cd_abstract cd = false →
  NewObject (Some c) (Some m) w
  = Returns (Some (length (heap w)))
      (with_heap (heap w ++ [OInst c (default_value <$> cd_fields cd)]) w).
Proof. intros Hc Ha. unfold NewObject. now rewrite Hc, Ha. Qed.

Lemma set_field_middle h c flds tl name sig v w :
  heap w = h ++ OInst c flds :: tl → is_Some (flds !! name) →
  set_field (Some (length h)) (Some (name, sig)) v w
  = Returns () (with_heap (h ++ OInst c (<[name := v]> flds) :: tl) w).
Proof.
  intros Hh [x Hx]. unfold set_field.
  rewrite Hh, list_lookup_middle, Hx by reflexivity.
  do 2 f_equal.
  replace (length h) with (length h + 0)%nat at 1 by lia.
  now rewrite insert_app_r.
Qed.

Lemma GetObjectClass_middle h c flds tl w :
  heap w = h ++ OInst c flds :: tl →
  GetObjectClass (Some (length h)) w = Returns (Some c) w.
Proof.
  intros Hh. unfold GetObjectClass. now rewrite Hh, list_lookup_middle.
Qed.

Lemma GetFieldID_found c cd name sig w :
  classes w !! c = Some cd → cd_fields cd !! name = Some sig →
  GetFieldID (Some c) name sig w = Returns (Some (name, sig)) w.
Proof.
  intros Hc Hf. unfold GetFieldID. now rewrite Hc, Hf, String.eqb_refl.
Qed.

Lemma setJavaFieldString_run h c cd flds tl name v w :
  classes w !! c = Some cd → cd_fields cd !! name = Some jstring →
  heap w = h ++ OInst c flds :: tl → is_Some (flds !! name) →
  setJavaFieldString (Some (length h)) name v w
  = Returns ()
      (with_heap
         (h ++ OInst c (<[name := VRef (Some (length h + S (length tl))%nat)]> flds)
            :: tl ++ [OStr v]) w).
Proof.
  intros Hc Hf Hh Hx. unfold setJavaFieldString.
  rewrite (run_bind _ _ _ _ _ (GetObjectClass_middle _ _ _ _ _ Hh)).
  rewrite (run_bind _ _ _ _ _ (GetFieldID_found _ _ _ _ _ Hc Hf)).
  rewrite (run_bind _ _ w () w) by reflexivity.
  erewrite run_bind; [|reflexivity].
  erewrite run_bind.
  2:{ unfold SetObjectField. eapply set_field_middle with (tl := tl ++ [OStr v]); [|exact Hx].
      simpl. rewrite Hh. now rewrite <- app_assoc. }
  destruct w; simpl in *. subst. unfold DeleteLocalRef, with_heap. simpl.
  rewrite run_ret, length_app. reflexivity.
Qed.

Lemma setJavaFieldInt_run h c cd flds tl name v w :
  classes w !! c = Some cd → cd_fields cd !! name = Some "I" →
  heap w = h ++ OInst c flds :: tl → is_Some (flds !! name) →
  setJavaFieldInt (Some (length h)) name v w
  = Returns () (with_heap (h ++ OInst c (<[name := VInt v]> flds) :: tl) w).
Proof.
  intros Hc Hf Hh Hx. unfold setJavaFieldInt.
  rewrite (run_bind _ _ _ _ _ (GetObjectClass_middle _ _ _ _ _ Hh)).
  rewrite (run_bind _ _ _ _ _ (GetFieldID_found _ _ _ _ _ Hc Hf)).
  rewrite (run_bind _ _ w () w) by reflexivity.
  erewrite run_bind.
  2:{ unfold SetIntField. eapply set_field_middle; [exact Hh | exact Hx]. }
  reflexivity.
Qed.

End Running.

(** ** The record a lookup builds *)
Section Records.

Import Libc JNI.

Lemma host_ok_inv cs :
  host_ok cs = true →
  is_Some (cs !! security) ∧ is_Some (cs !! "java/lang/String")
  ∧ declares cs "org/mortbay/setuid/Passwd" passwd_fields = true
  ∧ declares cs "org/mortbay/setuid/Group" group_fields = true
  ∧ declares cs "org/mortbay/setuid/RLimit" rlimit_fields = true.
Proof.
  unfold host_ok. intros H.
  repeat (apply andb_prop in H as [H ?]).
  auto using loadable_Some.
Qed.

Lemma lookup_past_middle {A} (h tl : list A) x k :
  (h ++ x :: tl) !! (length h + S k)%nat = tl !! k.
Proof.
  rewrite lookup_app_r by lia.
  replace (length h + S k - length h)%nat with (S k) by lia. reflexivity.
Qed.

End Records.

(** Discharging the side conditions of the field setters. *)
Ltac in_fields := simpl; repeat (first [left; reflexivity | right]).
Ltac read_map :=
  repeat (first [apply lookup_insert_eq | rewrite lookup_insert_ne by done]).
Ltac has_field Hf :=
  rewrite ?lookup_insert_ne by done;
  rewrite lookup_fmap; erewrite Hf by in_fields; simpl; eauto.
Ltac tidy :=
  cbv beta iota; unfold with_heap, with_os, with_pending, record;
  cbn [heap classes os pending trace length app Nat.add].
Ltac run tac := erewrite run_bind; [| tidy; tac]; tidy.
Ltac set_string Hc Hf :=
  run ltac:(eapply setJavaFieldString_run;
     [exact Hc | apply Hf; in_fields | simpl; reflexivity | has_field Hf]).
Ltac set_int Hc Hf :=
  run ltac:(eapply setJavaFieldInt_run;
     [exact Hc | apply Hf; in_fields | simpl; reflexivity | has_field Hf]).

(** The part the two user lookups share, from [FindClass] on. *)
Ltac build_passwd Hsec Hc Habs Hctor Hf :=
  run ltac:(apply FindClass_found; simpl; eauto);
  run ltac:(eapply getJavaMethodId_ctor; simpl; eauto);
  run ltac:(eapply NewObject_fresh; simpl; eauto);
  set_string Hc Hf; set_string Hc Hf; set_int Hc Hf; set_int Hc Hf;
  set_string Hc Hf; set_string Hc Hf; set_string Hc Hf;
  reflexivity.

Section Passwd.

Import Libc JNI.

Lemma field_string_built w hp c (F : gmap string value) tl name k s :
  heap w = hp ++ OInst c F :: tl →
  F !! name = Some (VRef (Some (length hp + S k)%nat)) →
  tl !! k = Some (OStr s) →
  field_string w (length hp) name = Some s.
Proof.
  intros Hh HF Hk. unfold field_string, get_field, string_at.
  rewrite Hh, list_lookup_middle, HF, lookup_past_middle, Hk; reflexivity.
Qed.

Lemma field_int_built w hp c (F : gmap string value) tl name z :
  heap w = hp ++ OInst c F :: tl →
  F !! name = Some (VInt z) →
  field_int w (length hp) name = Some z.
Proof.
  intros Hh HF. unfold field_int, get_field.
  rewrite Hh, list_lookup_middle, HF; reflexivity.
Qed.

Lemma read_built_passwd o cs hp p t c (m : gmap string value) pw :
  read_passwd
    {| os := o; classes := cs;
       heap := hp ++
         [OInst c
            (<["_pwShell":=VRef (Some (length hp + 5)%nat)]>
               (<["_pwDir":=VRef (Some (length hp + 4)%nat)]>
                  (<["_pwGecos":=VRef (Some (length hp + 3)%nat)]>
                     (<["_pwGid":=VInt (to_int32 (pw_gid pw))]>
                        (<["_pwUid":=VInt (to_int32 (pw_uid pw))]>
                           (<["_pwPasswd":=VRef (Some (length hp + 2)%nat)]>
                              (<["_pwName":=VRef (Some (length hp + 1)%nat)]> m)))))));
          OStr (pw_name pw); OStr (pw_passwd pw); OStr (pw_gecos pw);
          OStr (pw_dir pw); OStr (pw_shell pw)];
       pending := p; trace := t |} (length hp)
  = Some (java_passwd pw).
Proof.
  unfold read_passwd.
  erewrite (field_string_built _ _ _ _ _ "_pwName" 0); [|reflexivity|read_map|reflexivity].
  erewrite (field_string_built _ _ _ _ _ "_pwPasswd" 1); [|reflexivity|read_map|reflexivity].
  erewrite (field_int_built _ _ _ _ _ "_pwUid"); [|reflexivity|read_map].
  erewrite (field_int_built _ _ _ _ _ "_pwGid"); [|reflexivity|read_map].
  erewrite (field_string_built _ _ _ _ _ "_pwGecos" 2); [|reflexivity|read_map|reflexivity].
  erewrite (field_string_built _ _ _ _ _ "_pwDir" 3); [|reflexivity|read_map|reflexivity].
  erewrite (field_string_built _ _ _ _ _ "_pwShell" 4); [|reflexivity|read_map|reflexivity].
  reflexivity.
Qed.

Lemma getpwnam_found w sref name pw :
  host_ok (classes w) = true →
  heap w !! sref = Some (OStr name) →
  db_getpwnam name (os w) = Some pw →
  ∃ w', Java_org_mortbay_setuid_SetUID_getpwnam (Some sref) w
          = Returns (Some (length (heap w))) w'
        ∧ built_passwd (Getpwnam name) pw w w'.
Proof.
  intros Hok Hs Hdb.
  apply host_ok_inv in Hok as (Hsec & Hstr & Hpw & _ & _).
  apply declares_inv in Hpw as (cd & Hc & Habs & Hctor & Hf).
  destruct w as [o cs hp p t]; simpl in *.
  unfold Java_org_mortbay_setuid_SetUID_getpwnam.
  eexists. split.
  - run ltac:(unfold GetStringUTFChars; simpl; rewrite Hs; reflexivity).
    run ltac:(unfold getpwnam; simpl; rewrite Hdb; reflexivity).
    run ltac:(reflexivity).
    build_passwd Hsec Hc Habs Hctor Hf.
  - unfold built_passwd; cbn [os classes heap pending trace].
    repeat split; [eexists; reflexivity | apply read_built_passwd].
Qed.

Lemma getpwuid_found w uid pw :
  host_ok (classes w) = true →
  db_getpwuid (to_uint32 uid) (os w) = Some pw →
  ∃ w', Java_org_mortbay_setuid_SetUID_getpwuid uid w
          = Returns (Some (length (heap w))) w'
        ∧ built_passwd (Getpwuid (to_uint32 uid)) pw w w'.
Proof.
  intros Hok Hdb.
  apply host_ok_inv in Hok as (Hsec & Hstr & Hpw & _ & _).
  apply declares_inv in Hpw as (cd & Hc & Habs & Hctor & Hf).
  destruct w as [o cs hp p t]; simpl in *.
  unfold Java_org_mortbay_setuid_SetUID_getpwuid.
  eexists. split.
  - run ltac:(unfold getpwuid; simpl; rewrite Hdb; reflexivity).
    build_passwd Hsec Hc Habs Hctor Hf.
  - unfold built_passwd; cbn [os classes heap pending trace].
    repeat split; [eexists; reflexivity | apply read_built_passwd].
Qed.

End Passwd.

(** ** Group records: measuring and copying the member list *)
Section Members.

Import Libc JNI.

Lemma refs_from_S base n :
  refs_from base (S n) = Some base :: refs_from (S base) n.
Proof.
  unfold refs_from. simpl. rewrite Nat.add_0_r. f_equal.
  rewrite <- fmap_S_seq, <- list_fmap_compose.
  apply list_fmap_ext. intros _ k _. simpl. f_equal. lia.
Qed.

Lemma length_refs_from base n : length (refs_from base n) = n.
Proof. unfold refs_from. now rewrite length_fmap, length_seq. Qed.

(** The scan stops at the terminator libc puts after the last member. *)
Lemma scan_members_terminated (ms : list string) k w :
  scan_members ((Some <$> ms) ++ [None]) k w = Returns (k + length ms)%nat w.
Proof.
  revert k. induction ms as [|m ms IH]; intros k; simpl.
  - now rewrite Nat.add_0_r.
  - rewrite IH. f_equal. lia.
Qed.

(** Without a terminator the scan leaves the array. *)
Lemma scan_members_unterminated (ms : list string) k w :
  scan_members (Some <$> ms) k w = Undefined w.
Proof. revert k. induction ms as [|m ms IH]; intros k; simpl; auto. Qed.

Lemma alloc_middle h x tl o w :
  heap w = h ++ x :: tl →
  alloc o w = Returns (Some (length h + S (length tl))%nat)
                (with_heap (h ++ x :: tl ++ [o]) w).
Proof.
  intros Hh. unfold alloc. rewrite Hh, length_app, <- app_assoc. reflexivity.
Qed.

Lemma copy_members_run (ms : list string) todo :
  ∀ i done pre tl init a o cs hp p t,
    hp = pre ++ OArr (done ++ replicate todo init) :: tl →
    a = length pre → length done = i → (i + todo ≤ length ms)%nat →
    copy_members ((Some <$> ms) ++ [None]) (Some a) i todo (mk_World o cs hp p t)
    = Returns ()
        (mk_World o cs
           (pre ++ OArr (done ++ refs_from (length pre + S (length tl)) todo)
                :: tl ++ (OStr <$> take todo (drop i ms)))
           p t).
Proof.
  induction todo as [|todo IH]; intros i done pre tl init a o cs hp p t Hh Ha Hd Hle.
  - simpl. subst. unfold refs_from. simpl. now rewrite !app_nil_r.
  - destruct (lookup_lt_is_Some_2 ms i) as [m Hm]; [lia|].
    cbn [copy_members].
    rewrite lookup_app_l by (rewrite length_fmap; lia).
    rewrite list_lookup_fmap, Hm. cbn [fmap option_fmap option_map].
    erewrite run_bind.
    2:{ unfold NewStringUTF. eapply alloc_middle. simpl. exact Hh. }
    cbv beta. unfold with_heap. cbn [os classes heap pending trace].
    erewrite run_bind.
    2:{ unfold SetObjectArrayElement. cbn [heap]. subst a.
        rewrite list_lookup_middle by reflexivity.
        destruct (Nat.ltb_spec i (length (done ++ replicate (S todo) init))) as [_|Hge].
        2:{ rewrite length_app, length_replicate in Hge. lia. }
        reflexivity. }
    cbv beta. unfold with_heap. cbn [os classes heap pending trace].
    erewrite (IH (S i) (done ++ [Some (length pre + S (length tl))%nat]) pre
                 (tl ++ [OStr m]) init a).
    + rewrite refs_from_S, (drop_S _ _ _ Hm), <- !app_assoc, length_app.
      cbn [take fmap list_fmap app length].
      now replace (length pre + S (length tl + 1))%nat
        with (S (length pre + S (length tl))) by lia.
    + subst a. replace (length pre) with (length pre + 0)%nat at 1 by lia.
      rewrite insert_app_r. simpl. do 2 f_equal.
      subst i. replace (length done) with (length done + 0)%nat at 1 by lia.
      rewrite insert_app_r. simpl. now rewrite <- app_assoc.
    + exact Ha.
    + rewrite length_app. simpl. lia.
    + lia.
Qed.

(** The whole loop, on the array allocated last in the heap. *)
Lemma copy_members_all (ms : list string) h x mid init o cs p t :
  copy_members ((Some <$> ms) ++ [None]) (Some (length h + S (length mid))%nat)
    0 (length ms)
    (mk_World o cs (h ++ x :: mid ++ [OArr (replicate (length ms) init)]) p t)
  = Returns ()
      (mk_World o cs
         (h ++ x :: mid
            ++ OArr (refs_from (length h + S (S (length mid))) (length ms))
            :: (OStr <$> ms)) p t).
Proof.
  erewrite (copy_members_run ms (length ms) 0 [] (h ++ x :: mid) [] init).
  - rewrite drop_0, firstn_all, <- app_assoc, length_app. simpl.
    now replace (length h + S (length mid) + 1)%nat
      with (length h + S (S (length mid)))%nat by lia.
  - now rewrite <- app_assoc.
  - rewrite length_app. simpl. lia.
  - reflexivity.
  - simpl. lia.
Qed.

(** Reading back [n] strings allocated in a row. *)
Lemma mapM_string_at w (ms : list string) :
  ∀ base,
    (∀ k s, ms !! k = Some s → heap w !! (base + k)%nat = Some (OStr s)) →
    mapM (string_at w) (refs_from base (length ms)) = Some ms.
Proof.
  induction ms as [|m ms IH]; intros base H; [reflexivity|].
  simpl length. rewrite refs_from_S. simpl.
  unfold string_at at 1. rewrite <- (Nat.add_0_r base) at 1.
  rewrite (H 0%nat m) by reflexivity. simpl.
  rewrite IH; [reflexivity|].
  intros k s Hk. replace (S base + k)%nat with (base + S k)%nat by lia.
  now apply H.
Qed.

End Members.

Section Group.

Import Libc JNI.

Lemma get_field_built w hp c (F : gmap string value) tl name v :
  heap w = hp ++ OInst c F :: tl → F !! name = Some v →
  get_field w (length hp) name = Some v.
Proof.
  intros Hh HF. unfold get_field. now rewrite Hh, list_lookup_middle, HF.
Qed.

Lemma built_group_plain call o cs hp p t c (m0 : gmap string value) n pwd g mem :
  m0 !! "_grMem" = Some (VRef None) →
  match mem with Some (_ :: _) => False | _ => True end →
  built_group call (mk_group_entry n pwd g mem)
    (mk_World o cs hp p t)
    (mk_World o cs
       (hp ++
        [OInst c
           (<["_grGid":=VInt (to_int32 g)]>
              (<["_grPasswd":=VRef (Some (length hp + 2)%nat)]>
                 (<["_grName":=VRef (Some (length hp + 1)%nat)]> m0)));
         OStr n; OStr pwd])
       p (Call call :: t)).
Proof.
  intros Hm Hmem.
  assert (Hfield : get_field
            (mk_World o cs
               (hp ++
                [OInst c
                   (<["_grGid":=VInt (to_int32 g)]>
                      (<["_grPasswd":=VRef (Some (length hp + 2)%nat)]>
                         (<["_grName":=VRef (Some (length hp + 1)%nat)]> m0)));
                 OStr n; OStr pwd])
               p (Call call :: t)) (length hp) "_grMem" = Some (VRef None)).
  { eapply get_field_built; [reflexivity|].
    now rewrite !lookup_insert_ne by done. }
  unfold built_group, member_field; cbn [os classes heap pending trace ge_members].
  repeat split; [eexists; reflexivity | |].
  - unfold read_group, read_members. rewrite Hfield.
    erewrite (field_string_built _ _ _ _ _ "_grName" 0); [|reflexivity|read_map|reflexivity].
    erewrite (field_string_built _ _ _ _ _ "_grPasswd" 1); [|reflexivity|read_map|reflexivity].
    erewrite (field_int_built _ _ _ _ _ "_grGid"); [|reflexivity|read_map].
    unfold java_group. simpl. now destruct mem as [[|? ?]|].
  - now destruct mem as [[|? ?]|].
Qed.

Lemma built_group_members call o cs hp p t c (m0 : gmap string value) n pwd g m ms :
  built_group call (mk_group_entry n pwd g (Some (m :: ms)))
    (mk_World o cs hp p t)
    (mk_World o cs
       (hp ++
        OInst c
          (<["_grMem":=VRef (Some (length hp + 4)%nat)]>
             (<["_grGid":=VInt (to_int32 g)]>
                (<["_grPasswd":=VRef (Some (length hp + 2)%nat)]>
                   (<["_grName":=VRef (Some (length hp + 1)%nat)]> m0))))
        :: OStr n :: OStr pwd :: OStr ""
        :: OArr (refs_from (length hp + 5) (S (length ms)))
        :: OStr m :: (OStr <$> ms))
       p (Call call :: t)).
Proof.
  set (w' := mk_World o cs _ p (Call call :: t)).
  assert (Hfield : get_field w' (length hp) "_grMem"
                   = Some (VRef (Some (length hp + 4)%nat))).
  { eapply get_field_built; [reflexivity|]. read_map. }
  assert (Harr : heap w' !! (length hp + 4)%nat
                 = Some (OArr (refs_from (length hp + 5) (S (length ms))))).
  { unfold w'; cbn [heap]. now rewrite lookup_past_middle. }
  assert (Hstrs : mapM (string_at w') (refs_from (length hp + 5) (S (length ms)))
                  = Some (m :: ms)).
  { apply (mapM_string_at w' (m :: ms)). intros k s Hk.
    unfold w'; cbn [heap].
    replace (length hp + 5 + k)%nat with (length hp + S (4 + k))%nat by lia.
    rewrite lookup_past_middle. simpl.
    change (OStr m :: (OStr <$> ms)) with (OStr <$> (m :: ms)).
    now rewrite list_lookup_fmap, Hk. }
  unfold built_group, member_field; cbn [os classes heap pending trace ge_members].
  repeat split; [eexists; reflexivity | |].
  - unfold read_group, read_members, array_strings. rewrite Hfield, Harr, Hstrs.
    erewrite (field_string_built _ _ _ _ _ "_grName" 0); [|reflexivity|read_map|reflexivity].
    erewrite (field_string_built _ _ _ _ _ "_grPasswd" 1); [|reflexivity|read_map|reflexivity].
    erewrite (field_int_built _ _ _ _ _ "_grGid"); [|reflexivity|read_map].
    reflexivity.
  - exists (length hp + 4)%nat, (refs_from (length hp + 5) (S (length ms))).
    repeat split; auto; [lia | apply length_refs_from].
Qed.

End Group.

(** The part the two group lookups share, from [FindClass] on. *)
Ltac build_group Hsec Hstr Hc Habs Hctor Hf mem :=
  run ltac:(apply FindClass_found; simpl; eauto);
  run ltac:(eapply getJavaMethodId_ctor; simpl; eauto);
  run ltac:(eapply NewObject_fresh; simpl; eauto);
  cbn [gr_name gr_passwd gr_gid gr_mem group_of_entry ge_name ge_passwd ge_gid ge_members
       fmap option_fmap option_map];
  set_string Hc Hf; set_string Hc Hf; set_int Hc Hf;
  lazymatch mem with
  | Some (?m :: ?ms) =>
      erewrite run_bind;
      [| run ltac:(apply (scan_members_terminated (m :: ms) 0));
         cbn [Nat.ltb Nat.leb];
         run ltac:(apply FindClass_found; simpl; eauto);
         run ltac:(unfold JNI.NewStringUTF; eapply alloc_middle; simpl; reflexivity);
         run ltac:(unfold JNI.NewObjectArray; eapply alloc_middle; simpl; reflexivity);
         run ltac:(apply (copy_members_all (m :: ms) _ _ [_; _; _]));
         cbn [fmap list_fmap];
         run ltac:(eapply GetFieldID_found; [simpl; exact Hc | apply Hf; in_fields]);
         unfold JNI.SetObjectField;
         eapply set_field_middle; [simpl; reflexivity | has_field Hf]];
      tidy; reflexivity
  | Some [] =>
      erewrite run_bind;
      [| run ltac:(apply (scan_members_terminated [] 0)); reflexivity];
      tidy; reflexivity
  | None => run ltac:(reflexivity); reflexivity
  end.

Section GroupLookups.

Import Libc JNI.

Lemma default_grMem cd :
  (∀ n s, In (n, s) group_fields → cd_fields cd !! n = Some s) →
  (default_value <$> cd_fields cd) !! "_grMem" = Some (VRef None).
Proof. intros Hf. rewrite lookup_fmap. erewrite Hf by in_fields. reflexivity. Qed.

Lemma getgrgid_found w gid e :
  host_ok (classes w) = true →
  find (λ g, ge_gid g =? to_uint32 gid) (group_db (os w)) = Some e →
  ∃ w', Java_org_mortbay_setuid_SetUID_getgrgid gid w
          = Returns (Some (length (heap w))) w'
        ∧ built_group (Getgrgid (to_uint32 gid)) e w w'.
Proof.
  intros Hok Hdb.
  apply host_ok_inv in Hok as (Hsec & Hstr & _ & Hgr & _).
  apply declares_inv in Hgr as (cd & Hc & Habs & Hctor & Hf).
  pose proof (default_grMem cd Hf) as Hdef.
  destruct w as [o cs hp p t]; simpl in *.
  unfold Java_org_mortbay_setuid_SetUID_getgrgid.
  destruct e as [n pwd g [[|m ms]|]]; eexists; (split; [
    run ltac:(unfold getgrgid, db_getgrgid; simpl; rewrite Hdb; simpl; reflexivity) |]).
  - build_group Hsec Hstr Hc Habs Hctor Hf (Some (@nil string)).
  - now apply built_group_plain.
  - build_group Hsec Hstr Hc Habs Hctor Hf (Some (m :: ms)).
  - apply built_group_members.
  - build_group Hsec Hstr Hc Habs Hctor Hf (@None (list string)).
  - now apply built_group_plain.
Qed.

Lemma getgrnam_found w sref name e :
  host_ok (classes w) = true →
  heap w !! sref = Some (OStr name) →
  find (λ g, String.eqb (ge_name g) name) (group_db (os w)) = Some e →
  ∃ w', Java_org_mortbay_setuid_SetUID_getgrnam (Some sref) w
          = Returns (Some (length (heap w))) w'
        ∧ built_group (Getgrnam name) e w w'.
Proof.
  intros Hok Hs Hdb.
  apply host_ok_inv in Hok as (Hsec & Hstr & _ & Hgr & _).
  apply declares_inv in Hgr as (cd & Hc & Habs & Hctor & Hf).
  pose proof (default_grMem cd Hf) as Hdef.
  destruct w as [o cs hp p t]; simpl in *.
  unfold Java_org_mortbay_setuid_SetUID_getgrnam.
  destruct e as [n pwd g [[|m ms]|]]; eexists; (split; [
    run ltac:(unfold GetStringUTFChars; simpl; rewrite Hs; reflexivity);
    run ltac:(unfold getgrnam, db_getgrnam; simpl; rewrite Hdb; simpl; reflexivity);
    run ltac:(reflexivity) |]).
  - build_group Hsec Hstr Hc Habs Hctor Hf (Some (@nil string)).
  - now apply built_group_plain.
  - build_group Hsec Hstr Hc Habs Hctor Hf (Some (m :: ms)).
  - apply built_group_members.
  - build_group Hsec Hstr Hc Habs Hctor Hf (@None (list string)).
  - now apply built_group_plain.
Qed.

End GroupLookups.

(** ** Integer conversions *)
Section Conversions.

Lemma to_int32_range z : INT_MIN ≤ to_int32 z ≤ INT_MAX.
Proof.
  unfold to_int32, INT_MIN, INT_MAX.
  pose proof (Z.mod_pos_bound (z + 2^31) (2^32) ltac:(lia)). lia.
Qed.

Lemma to_int32_small z : INT_MIN ≤ z ≤ INT_MAX → to_int32 z = z.
Proof.
  unfold to_int32, INT_MIN, INT_MAX. intros H.
  rewrite Z.mod_small; lia.
Qed.

Lemma to_int32_congruent z : (to_int32 z - z) mod 2^32 = 0.
Proof.
  unfold to_int32.
  replace ((z + 2^31) mod 2^32 - 2^31 - z)
    with ((z + 2^31) mod 2^32 - (z + 2^31)) by lia.
  rewrite Zminus_mod, Zmod_mod, Z.sub_diag. reflexivity.
Qed.

Lemma to_int32_idem z : to_int32 (to_int32 z) = to_int32 z.
Proof. apply to_int32_small, to_int32_range. Qed.

Lemma to_int32_uint64 z : to_int32 (to_uint64 z) = to_int32 z.
Proof.
  unfold to_int32, to_uint64. f_equal.
  pose proof (Z.div_mod z (2^64) ltac:(lia)) as H.
  replace (z mod 2^64 + 2^31)
    with ((z + 2^31) + (- (2^32 * (z / 2^64))) * 2^32) by lia.
  apply Z_mod_plus_full.
Qed.

(** A value above [INT_MAX] never survives the trip through [int]. *)
Lemma to_int32_large z : INT_MAX < z → to_int32 z ≠ z.
Proof. pose proof (to_int32_range z). lia. Qed.



End Conversions.

(** ** The resource-limit operations *)
Section Limits.

Import Libc JNI.

Lemma sys_setrlimit_code r l o :
  (sys_setrlimit r l o).1 = 0 ∨ (sys_setrlimit r l o).1 = -1.
Proof.
  unfold sys_setrlimit, fail_with.
  repeat case_match; simpl; auto.
Qed.

Lemma sys_setrlimit_refused r l o :
  refused (sys_setrlimit r l o).2 = refused o.
Proof.
  unfold sys_setrlimit, fail_with, set_limit.
  repeat case_match; reflexivity.
Qed.

(** A failed [setrlimit] leaves the limits alone, a successful one
    installs exactly the pair it was given. *)
Lemma sys_setrlimit_nofile l o :
  nofile (sys_setrlimit RLIMIT_NOFILE l o).2
  = if (sys_setrlimit RLIMIT_NOFILE l o).1 =? 0 then l else nofile o.
Proof.
  unfold sys_setrlimit, fail_with, set_limit.
  destruct (is_refused NR_setrlimit o); [reflexivity|].
  destruct (rlim_max l <? rlim_cur l); [reflexivity|].
  destruct (_ && _); [reflexivity|].
  destruct (_ && _); reflexivity.
Qed.



Lemma getrlimitnofiles_run w :
  host_ok (classes w) = true →
  is_refused NR_getrlimit (os w) = false →
  ∃ flds,
    flds !! "_soft" = Some (VInt (to_int32 (rlim_cur (nofile (os w)))))
    ∧ flds !! "_hard" = Some (VInt (to_int32 (rlim_max (nofile (os w)))))
    ∧ Java_org_mortbay_setuid_SetUID_getrlimitnofiles w
      = Returns (Some (length (heap w)))
          (mk_World (os w) (classes w)
             (heap w ++ [OInst "org/mortbay/setuid/RLimit" flds])
             (pending w) (Call (Getrlimit RLIMIT_NOFILE) :: trace w)).
Proof.
  intros Hok Hsys.
  apply host_ok_inv in Hok as (Hsec & Hstr & _ & _ & Hrl).
  apply declares_inv in Hrl as (cd & Hc & Habs & Hctor & Hf).
  destruct w as [o cs hp p t]; simpl in *.
  eexists. split; [|split].
  3:{ unfold Java_org_mortbay_setuid_SetUID_getrlimitnofiles.
      run ltac:(unfold getrlimit, sys_getrlimit; simpl; rewrite Hsys; reflexivity).
      cbn [Z.ltb Z.compare].
      run ltac:(apply FindClass_found; simpl; eauto).
      run ltac:(eapply getJavaMethodId_ctor; simpl; eauto).
      run ltac:(eapply NewObject_fresh; simpl; eauto).
      cbn [get_limit].
      set_int Hc Hf. set_int Hc Hf. reflexivity. }
  - read_map.
  - read_map.
Qed.

Lemma getrlimitnofiles_refused w :
  is_Some (classes w !! security) →
  is_refused NR_getrlimit (os w) = true →
  Java_org_mortbay_setuid_SetUID_getrlimitnofiles w
  = Returns None
      (mk_World (fail_with EPERM (os w)).2 (classes w) (heap w)
         (Some (security, "getrlimit failed"))
         (Throw security "getrlimit failed"
            :: Call (Getrlimit RLIMIT_NOFILE) :: trace w)).
Proof.
  intros Hsec Hsys.
  destruct w as [o cs hp p t]; simpl in *.
  unfold Java_org_mortbay_setuid_SetUID_getrlimitnofiles.
  run ltac:(unfold getrlimit, sys_getrlimit; simpl; rewrite Hsys; reflexivity).
  cbn [Z.ltb Z.compare Z.opp].
  run ltac:(apply throw_security; simpl; eauto).
  reflexivity.
Qed.

Lemma setrlimit_run r l w :
  setrlimit r l w
  = Returns (sys_setrlimit r l (os w)).1
      (record (Call (Setrlimit r l)) (with_os (sys_setrlimit r l (os w)).2 w)).
Proof. unfold setrlimit. now destruct (sys_setrlimit r l (os w)). Qed.

Lemma getJavaFieldInt_run r c cd flds name z w :
  heap w !! r = Some (OInst c flds) →
  classes w !! c = Some cd → cd_fields cd !! name = Some "I" →
  flds !! name = Some (VInt z) →
  getJavaFieldInt (Some r) name w = Returns z w.
Proof.
  intros Hr Hc Hf Hz. unfold getJavaFieldInt.
  rewrite (run_bind _ _ w (Some c) w) by (unfold GetObjectClass; now rewrite Hr).
  rewrite (run_bind _ _ _ _ _ (GetFieldID_found _ _ _ _ _ Hc Hf)).
  rewrite (run_bind _ _ w () w) by reflexivity.
  rewrite (run_bind _ _ w z w) by (unfold GetIntField; now rewrite Hr, Hz).
  reflexivity.
Qed.

Lemma setrlimitnofiles_run w r flds soft hard :
  host_ok (classes w) = true →
  heap w !! r = Some (OInst "org/mortbay/setuid/RLimit" flds) →
  flds !! "_soft" = Some (VInt soft) →
  flds !! "_hard" = Some (VInt hard) →
  let l := mk_rlimit (to_uint64 soft) (to_uint64 hard) in
  Java_org_mortbay_setuid_SetUID_setrlimitnofiles (Some r) w
  = Returns (sys_setrlimit RLIMIT_NOFILE l (os w)).1
      (mk_World (sys_setrlimit RLIMIT_NOFILE l (os w)).2 (classes w) (heap w)
         (pending w) (Call (Setrlimit RLIMIT_NOFILE l) :: trace w)).
Proof.
  intros Hok Hr Hsoft Hhard l.
  apply host_ok_inv in Hok as (Hsec & Hstr & _ & _ & Hrl).
  pose proof (declares_inv _ _ _ Hrl) as (cd & Hc & Habs & Hctor & Hf).
  unfold Java_org_mortbay_setuid_SetUID_setrlimitnofiles.
  run ltac:(apply FindClass_found; eauto).
  run ltac:(eapply getJavaFieldInt_run; [exact Hr | exact Hc | apply Hf; in_fields | exact Hsoft]).
  run ltac:(eapply getJavaFieldInt_run; [exact Hr | exact Hc | apply Hf; in_fields | exact Hhard]).
  fold l.
  run ltac:(apply setrlimit_run).
  pose proof (sys_setrlimit_code RLIMIT_NOFILE l (os w)) as Hrc.
  unfold DeleteLocalRef, mbind, M_bind, mret, M_ret.
  destruct w; simpl in *.
  destruct Hrc as [-> | ->]; reflexivity.
Qed.

End Limits.

(** ** Failure reporting of the lookups *)
Section Reporting.

Import Libc JNI.

Lemma bind_inv {A B} (m : M A) (f : A → M B) w b w' :
  (m ≫= f) w = Returns b w' →
  ∃ a w1, m w = Returns a w1 ∧ f a w1 = Returns b w'.
Proof.
  unfold mbind, M_bind. destruct (m w) as [a w1|w1]; [eauto | discriminate].
Qed.

Lemma stable_ret {A} (a : A) : stable (mret a : M A).
Proof. intros w b w' H. now inversion H. Qed.

Lemma stable_bind {A B} (m : M A) (f : A → M B) :
  stable m → (∀ a, stable (f a)) → stable (m ≫= f).
Proof.
  intros Hm Hf w b w' H. apply bind_inv in H as (a & w1 & H1 & H2).
  rewrite (Hf _ _ _ _ H2). eauto.
Qed.

Lemma stable_prim {A} (m : M A) :
  (∀ w, match m w with Returns _ w' => classes w' = classes w | Undefined _ => True end) →
  stable m.
Proof. intros H w a w' E. specialize (H w). now rewrite E in H. Qed.

Lemma stable_FindClass n : stable (FindClass n).
Proof. apply stable_prim. intros w. unfold FindClass. now destruct (classes w !! n). Qed.

Lemma stable_ThrowNew c msg : stable (ThrowNew c msg).
Proof. apply stable_prim. intros w. now destruct c. Qed.

Lemma stable_throw msg : stable (throwNewJavaSecurityException msg).
Proof.
  unfold throwNewJavaSecurityException, throwNewJavaException.
  apply stable_bind; [apply stable_FindClass|]. intros [c|].
  - apply stable_bind; [|intros; apply stable_ret].
    apply stable_bind; [apply stable_ThrowNew | intros; apply stable_ret].
  - apply stable_bind; intros; apply stable_ret.
Qed.

Lemma stable_sprintf n s : stable (sprintf n s).
Proof.
  apply stable_prim. intros w. unfold sprintf.
  now destruct (String.length s <? n)%nat.
Qed.

Lemma stable_GetStringUTFChars s : stable (GetStringUTFChars s).
Proof.
  apply stable_prim. intros w. unfold GetStringUTFChars.
  destruct s as [r|]; [|exact I]. now destruct (heap w !! r) as [[]|].
Qed.

Lemma stable_getJavaMethodId c n s : stable (getJavaMethodId c n s).
Proof.
  unfold getJavaMethodId. apply stable_bind.
  - apply stable_prim. intros w. unfold GetMethodID.
    destruct c as [c|]; [|exact I].
    destruct (classes w !! c) as [cd|]; [|exact I]. now destruct (existsb _ _).
  - intros [m|]; [apply stable_ret|].
    apply stable_bind; [apply stable_sprintf|]. intros strErr.
    apply stable_bind; [apply stable_throw | intros; apply stable_ret].
Qed.

Lemma stable_NewObject c m : stable (NewObject c m).
Proof.
  apply stable_prim. intros w. unfold NewObject.
  destruct c as [c|], m as [m|]; try exact I.
  destruct (classes w !! c) as [cd|]; [|exact I]. now destruct (cd_abstract cd).
Qed.

Lemma stable_libc {A} (f : World → A) (e : syscall) :
  stable (λ w, Returns (f w) (record (Call e) w)).
Proof. apply stable_prim. reflexivity. Qed.

Lemma stable_getrlimit r : stable (getrlimit r).
Proof.
  apply stable_prim. intros w. unfold getrlimit.
  now destruct (sys_getrlimit r (os w)) as [[rc l] o'].
Qed.

Lemma returns_only_ret {A} (v : A) : returns_only v (mret v : M A).
Proof. intros w a w' H. now inversion H. Qed.

Lemma returns_only_bind {A B} (v : B) (m : M A) (f : A → M B) :
  (∀ a, returns_only v (f a)) → returns_only v (m ≫= f).
Proof.
  intros Hf w b w' H. apply bind_inv in H as (a & w1 & _ & H2).
  exact (Hf _ _ _ _ H2).
Qed.

Lemma reports_some r (m : M jobject) : returns_only (Some r) m → reports m.
Proof. intros H w w' _ E. now apply H in E. Qed.

Lemma reports_bind {A} (m : M A) (f : A → M jobject) :
  stable m → (∀ a, reports (f a)) → reports (m ≫= f).
Proof.
  intros Hm Hf w w' Hsec H. apply bind_inv in H as (a & w1 & H1 & H2).
  eapply Hf; [|exact H2]. now rewrite (Hm _ _ _ H1).
Qed.

(** [throwNewJavaSecurityException(env, msg); return NULL;] *)
Lemma reports_throw msg :
  reports (throwNewJavaSecurityException msg ;; mret None).
Proof.
  intros w w' Hsec H. rewrite (run_bind _ _ _ _ _ (throw_security msg w Hsec)) in H.
  inversion H. reflexivity.
Qed.

Lemma reports_sprintf_throw n text :
  reports (strErr ← sprintf n text; throwNewJavaSecurityException strErr ;; mret None).
Proof.
  apply reports_bind; [apply stable_sprintf | intros; apply reports_throw].
Qed.

End Reporting.

(** The statements after the record has been constructed end in
    [return retVal]. *)
Ltac ends_in_retVal :=
  repeat (first [apply returns_only_ret | apply returns_only_bind; intros]).

(** From [FindClass] to the construction of the record. *)
Ltac reports_record :=
  apply reports_bind; [apply stable_FindClass|]; intros [cls|];
  [| apply reports_throw];
  apply reports_bind; [apply stable_getJavaMethodId|]; intros constructorMethod;
  apply reports_bind; [apply stable_NewObject|]; intros [retVal|];
  [| apply reports_throw];
  apply reports_some with retVal; ends_in_retVal.

Section ReportingLookups.

Import Libc JNI.

Lemma getpwnam_reports name : reports (Java_org_mortbay_setuid_SetUID_getpwnam name).
Proof.
  unfold Java_org_mortbay_setuid_SetUID_getpwnam.
  apply reports_bind; [apply stable_GetStringUTFChars|]; intros pname.
  apply reports_bind; [apply stable_libc|]; intros [pw|];
    [| apply reports_sprintf_throw].
  apply reports_bind; [apply stable_ret|]; intros _.
  reports_record.
Qed.

Lemma getpwuid_reports uid : reports (Java_org_mortbay_setuid_SetUID_getpwuid uid).
Proof.
  unfold Java_org_mortbay_setuid_SetUID_getpwuid.
  apply reports_bind; [apply stable_libc|]; intros [pw|];
    [| apply reports_sprintf_throw].
  reports_record.
Qed.

Lemma getgrnam_reports name : reports (Java_org_mortbay_setuid_SetUID_getgrnam name).
Proof.
  unfold Java_org_mortbay_setuid_SetUID_getgrnam.
  apply reports_bind; [apply stable_GetStringUTFChars|]; intros pname.
  apply reports_bind; [apply stable_libc|]; intros [gr|];
    [| apply reports_sprintf_throw].
  apply reports_bind; [apply stable_ret|]; intros _.
  reports_record.
Qed.

Lemma getgrgid_reports gid : reports (Java_org_mortbay_setuid_SetUID_getgrgid gid).
Proof.
  unfold Java_org_mortbay_setuid_SetUID_getgrgid.
  apply reports_bind; [apply stable_libc|]; intros [gr|];
    [| apply reports_sprintf_throw].
  reports_record.
Qed.

Lemma getrlimitnofiles_reports : reports Java_org_mortbay_setuid_SetUID_getrlimitnofiles.
Proof.
  unfold Java_org_mortbay_setuid_SetUID_getrlimitnofiles.
  apply reports_bind; [apply stable_getrlimit|]; intros [success rlim].
  destruct (success <? 0); [apply reports_throw|].
  apply reports_bind; [apply stable_FindClass|]; intros [cls|];
    [| apply reports_throw].
  apply reports_bind; [apply stable_getJavaMethodId|]; intros constructorMethod.
  apply reports_bind; [apply stable_NewObject|]; intros [retVal|];
    [| apply reports_throw].
  destruct rlim as [rlim|]; [|intros w w' _ H; discriminate H].
  apply reports_some with retVal; ends_in_retVal.
Qed.

End ReportingLookups.

(** ** The privilege changes *)
Section Privileges.

Import Libc JNI.

Lemma sys_setuid_code u o : (sys_setuid u o).1 = 0 ∨ (sys_setuid u o).1 = -1.
Proof. unfold sys_setuid, fail_with. repeat case_match; simpl; auto. Qed.

Lemma sys_setgid_code g o : (sys_setgid g o).1 = 0 ∨ (sys_setgid g o).1 = -1.
Proof. unfold sys_setgid, fail_with. repeat case_match; simpl; auto. Qed.

Lemma setuid_quiet arg o cs hp p t :
  Java_org_mortbay_setuid_SetUID_setuid arg (mk_World o cs hp p t)
  = Returns (sys_setuid (to_uint32 arg) o).1
      (mk_World (sys_setuid (to_uint32 arg) o).2 cs hp p
         (Call (Setuid (to_uint32 arg)) :: t)).
Proof.
  unfold Java_org_mortbay_setuid_SetUID_setuid, setuid, mbind, M_bind. cbn.
  pose proof (sys_setuid_code (to_uint32 arg) o) as Hrc.
  destruct (sys_setuid (to_uint32 arg) o) as [rc o']. cbn in *.
  destruct Hrc as [-> | ->]; reflexivity.
Qed.

Lemma setgid_quiet arg o cs hp p t :
  Java_org_mortbay_setuid_SetUID_setgid arg (mk_World o cs hp p t)
  = Returns (sys_setgid (to_uint32 arg) o).1
      (mk_World (sys_setgid (to_uint32 arg) o).2 cs hp p
         (Call (Setgid (to_uint32 arg)) :: t)).
Proof.
  unfold Java_org_mortbay_setuid_SetUID_setgid, setgid, mbind, M_bind. cbn.
  pose proof (sys_setgid_code (to_uint32 arg) o) as Hrc.
  destruct (sys_setgid (to_uint32 arg) o) as [rc o']. cbn in *.
  destruct Hrc as [-> | ->]; reflexivity.
Qed.

End Privileges.

(** ** The claims *)
Section Claims.

Import Libc JNI.

(** C4.  Each of [setuid], [setgid] and [setumask] makes exactly one call
    into libc, the corresponding one, with its argument converted to the
    call's unsigned type, and returns the code of that call unchanged;
    nothing is validated, nothing is thrown and the Java side is left as
    it was.  (The stored mask is a valid [mode_t] that fits a [jint].) *)
Theorem privilege_change_pass_through (arg : Z) (w : World) :
  is_int32 (cmask (os w)) = true →
  Java_org_mortbay_setuid_SetUID_setuid arg w
  = Returns (sys_setuid (to_uint32 arg) (os w)).1
      (mk_World (sys_setuid (to_uint32 arg) (os w)).2 (classes w) (heap w)
         (pending w) (Call (Setuid (to_uint32 arg)) :: trace w))
  ∧ Java_org_mortbay_setuid_SetUID_setgid arg w
    = Returns (sys_setgid (to_uint32 arg) (os w)).1
        (mk_World (sys_setgid (to_uint32 arg) (os w)).2 (classes w) (heap w)
           (pending w) (Call (Setgid (to_uint32 arg)) :: trace w))
  ∧ Java_org_mortbay_setuid_SetUID_setumask arg w
    = Returns (sys_umask (to_uint32 arg) (os w)).1
        (mk_World (sys_umask (to_uint32 arg) (os w)).2 (classes w) (heap w)
           (pending w) (Call (Umask (to_uint32 arg)) :: trace w)).
Proof.
  intros Hmask. destruct w as [o cs hp p t]. cbn [os classes heap pending trace] in *.
  split; [|split].
  - apply setuid_quiet.
  - apply setgid_quiet.
  - unfold Java_org_mortbay_setuid_SetUID_setumask, umask, sys_umask, mbind, M_bind.
    cbn. rewrite to_int32_small; [reflexivity|].
    unfold is_int32 in Hmask. apply andb_prop in Hmask as [H1 H2]. lia.
Qed.

Lemma privilege_change_pass_through_witness :
  is_int32 (cmask (os (world process bundled []))) = true
  ∧ ∃ w', Java_org_mortbay_setuid_SetUID_setuid 1001 (world process bundled [])
          = Returns 0 w' ∧ euid (os w') = 1001 ∧ pending w' = None.
Proof.
  split; [reflexivity|].
  destruct (privilege_change_pass_through 1001 (world process bundled []) eq_refl)
    as (H & _).
  eexists. split; [exact H|]. split; reflexivity.
Defined.

End Claims.

Section ClaimsLimits.

Import Libc JNI.

(** C5, as stated, fails: with a record class that lacks the int field
    [_soft], the resource-limit write raises a security exception, the
    channel the claim reserves for the lookups and the read. *)
Lemma setrlimitnofiles_raises :
  ∃ w',
    Java_org_mortbay_setuid_SetUID_setrlimitnofiles (Some 0%nat)
      (world process renamed_rlimit [limits_renamed 1024 4096])
    = Undefined w'
    ∧ thrown (world process renamed_rlimit [limits_renamed 1024 4096]) = []
    ∧ thrown w' = [Throw security "Java Object Field is not found: int _soft !!!"]
    ∧ security_pending w' = true.
Proof. eexists. split; [vm_compute; reflexivity|]. repeat split; reflexivity. Qed.

(** C5, amended.  [setuid], [setgid] and [setumask] return a code and
    never raise; the resource-limit write, given a record whose class has
    the int fields [_soft] and [_hard], returns the code of [setrlimit] and
    raises nothing (its only exception is the one of a failed field
    lookup); the four lookups and the resource-limit read return an object
    or no object, never a code, and whenever they return no object a
    security exception is pending. *)
Theorem failure_channels (w : World) :
  host_ok (classes w) = true →
  (∀ arg, quiet (Java_org_mortbay_setuid_SetUID_setuid arg) w
          ∧ quiet (Java_org_mortbay_setuid_SetUID_setgid arg) w
          ∧ quiet (Java_org_mortbay_setuid_SetUID_setumask arg) w)
  ∧ (∀ r flds soft hard,
       heap w !! r = Some (OInst "org/mortbay/setuid/RLimit" flds) →
       flds !! "_soft" = Some (VInt soft) → flds !! "_hard" = Some (VInt hard) →
       quiet (Java_org_mortbay_setuid_SetUID_setrlimitnofiles (Some r)) w)
  ∧ (∀ name, reports (Java_org_mortbay_setuid_SetUID_getpwnam name))
  ∧ (∀ uid, reports (Java_org_mortbay_setuid_SetUID_getpwuid uid))
  ∧ (∀ name, reports (Java_org_mortbay_setuid_SetUID_getgrnam name))
  ∧ (∀ gid, reports (Java_org_mortbay_setuid_SetUID_getgrgid gid))
  ∧ reports Java_org_mortbay_setuid_SetUID_getrlimitnofiles.
Proof.
  intros Hok. split; [|split].
  - intros arg. destruct w as [o cs hp p t]. unfold quiet. split; [|split].
    + rewrite setuid_quiet. eauto.
    + rewrite setgid_quiet. eauto.
    + unfold Java_org_mortbay_setuid_SetUID_setumask, umask, sys_umask, mbind, M_bind.
      cbn. eauto.
  - intros r flds soft hard Hr Hsoft Hhard. unfold quiet.
    rewrite (setrlimitnofiles_run w r flds soft hard Hok Hr Hsoft Hhard). eauto.
  - auto using getpwnam_reports, getpwuid_reports, getgrnam_reports,
      getgrgid_reports, getrlimitnofiles_reports.
Qed.

Lemma failure_channels_witness :
  host_ok (classes (world process bundled [])) = true
  ∧ quiet (Java_org_mortbay_setuid_SetUID_setuid 1001) (world process bundled []).
Proof.
  split; [reflexivity|].
  apply (failure_channels (world process bundled []) eq_refl).
Defined.



End ClaimsLimits.

Section ClaimsRead.

Import Libc JNI.

(** C7, as stated, fails: where the hard limit is [RLIM_INFINITY] the
    record's hard field holds -1, not the value [getrlimit] reported. *)
Lemma unlimited_read_as_minus_one :
  ∃ r w',
    Java_org_mortbay_setuid_SetUID_getrlimitnofiles (world unlimited bundled [])
    = Returns (Some r) w'
    ∧ rlim_max (nofile (os (world unlimited bundled []))) = 18446744073709551615
    ∧ field_int w' r "_hard" = Some (-1)
    ∧ field_int w' r "_hard" ≠ Some (rlim_max (nofile (os (world unlimited bundled [])))).
Proof.
  eexists _, _. split; [vm_compute; reflexivity|]. split; [reflexivity|].
  split; [reflexivity | discriminate].
Qed.

(** C7, amended.  When [getrlimit] fails the read raises a security
    exception with the fixed message "getrlimit failed" and returns no
    object.  When it succeeds (and the record class is the bundled one)
    the read returns an object that did not exist before, whose [_soft]
    and [_hard] fields hold the two limits converted to a 32-bit signed
    int: the limits themselves whenever they are at most 2^31 - 1. *)
Theorem getrlimitnofiles_contract (w : World) :
  host_ok (classes w) = true →
  (is_refused NR_getrlimit (os w) = true →
     ∃ w', Java_org_mortbay_setuid_SetUID_getrlimitnofiles w = Returns None w'
           ∧ pending w' = Some (security, "getrlimit failed")
           ∧ heap w' = heap w)
  ∧ (is_refused NR_getrlimit (os w) = false →
     ∃ r w' obj,
       Java_org_mortbay_setuid_SetUID_getrlimitnofiles w = Returns (Some r) w'
       ∧ heap w !! r = None ∧ heap w' = heap w ++ [obj] ∧ heap w' !! r = Some obj
       ∧ pending w' = pending w
       ∧ field_int w' r "_soft" = Some (to_int32 (rlim_cur (nofile (os w))))
       ∧ field_int w' r "_hard" = Some (to_int32 (rlim_max (nofile (os w))))
       ∧ (0 ≤ rlim_cur (nofile (os w)) ≤ INT_MAX →
          field_int w' r "_soft" = Some (rlim_cur (nofile (os w))))
       ∧ (0 ≤ rlim_max (nofile (os w)) ≤ INT_MAX →
          field_int w' r "_hard" = Some (rlim_max (nofile (os w))))).
Proof.
  intros Hok. split; intros Hsys.
  - apply host_ok_inv in Hok as (Hsec & _).
    rewrite (getrlimitnofiles_refused w Hsec Hsys). eauto.
  - destruct (getrlimitnofiles_run w Hok Hsys) as (flds & Hs & Hh & Hrun).
    rewrite Hrun. eexists _, _, _. split; [reflexivity|].
    assert (Hsoft : field_int
              (mk_World (os w) (classes w)
                 (heap w ++ [OInst "org/mortbay/setuid/RLimit" flds])
                 (pending w) (Call (Getrlimit RLIMIT_NOFILE) :: trace w))
              (length (heap w)) "_soft"
            = Some (to_int32 (rlim_cur (nofile (os w)))))
      by (eapply field_int_built; [reflexivity | exact Hs]).
    assert (Hhard : field_int
              (mk_World (os w) (classes w)
                 (heap w ++ [OInst "org/mortbay/setuid/RLimit" flds])
                 (pending w) (Call (Getrlimit RLIMIT_NOFILE) :: trace w))
              (length (heap w)) "_hard"
            = Some (to_int32 (rlim_max (nofile (os w)))))
      by (eapply field_int_built; [reflexivity | exact Hh]).
    cbn [heap pending].
    split; [apply lookup_ge_None_2; lia|].
    split; [reflexivity|].
    split; [now rewrite list_lookup_middle|].
    split; [reflexivity|].
    split; [exact Hsoft|]. split; [exact Hhard|].
    unfold INT_MAX.
    split; intros H; [rewrite Hsoft | rewrite Hhard];
      (rewrite to_int32_small; [reflexivity | unfold INT_MIN, INT_MAX; lia]).
Qed.

Lemma getrlimitnofiles_contract_witness :
  (∃ w', Java_org_mortbay_setuid_SetUID_getrlimitnofiles (world sandboxed bundled [])
         = Returns None w'
         ∧ pending w' = Some (security, "getrlimit failed"))
  ∧ (∃ r w', Java_org_mortbay_setuid_SetUID_getrlimitnofiles (world process bundled [])
             = Returns (Some r) w'
             ∧ field_int w' r "_soft" = Some 1024
             ∧ field_int w' r "_hard" = Some 4096).
Proof.
  split.
  - destruct (getrlimitnofiles_contract (world sandboxed bundled []) eq_refl)
      as (Hfail & _).
    destruct (Hfail eq_refl) as (w' & Hrun & Hp & _). eauto.
  - destruct (getrlimitnofiles_contract (world process bundled []) eq_refl)
      as (_ & Hgood).
    destruct (Hgood eq_refl) as (r & w' & obj & Hrun & _ & _ & _ & _ & _ & _ & Hs & Hh).
    exists r, w'. split; [exact Hrun|]. split.
    + apply Hs. unfold INT_MAX. simpl. lia.
    + apply Hh. unfold INT_MAX. simpl. lia.
Defined.

(** C8.  Whatever the process state in which [getrlimit] is available:
    reading the limits, writing the record just read and reading again
    all return, and the second read gives the same soft and hard values
    as the first. *)
Theorem read_write_read (w : World) :
  host_ok (classes w) = true →
  is_refused NR_getrlimit (os w) = false →
  ∃ r1 w1 rc w2 r2 w3 soft hard,
    Java_org_mortbay_setuid_SetUID_getrlimitnofiles w = Returns (Some r1) w1
    ∧ Java_org_mortbay_setuid_SetUID_setrlimitnofiles (Some r1) w1 = Returns rc w2
    ∧ Java_org_mortbay_setuid_SetUID_getrlimitnofiles w2 = Returns (Some r2) w3
    ∧ field_int w1 r1 "_soft" = Some soft ∧ field_int w1 r1 "_hard" = Some hard
    ∧ field_int w3 r2 "_soft" = Some soft ∧ field_int w3 r2 "_hard" = Some hard.
Proof.
  intros Hok Hsys.
  destruct (getrlimitnofiles_run w Hok Hsys) as (flds & Hs & Hh & Hrun1).
  set (w1 := mk_World (os w) (classes w)
               (heap w ++ [OInst "org/mortbay/setuid/RLimit" flds])
               (pending w) (Call (Getrlimit RLIMIT_NOFILE) :: trace w)) in *.
  assert (Hr1 : heap w1 !! length (heap w)
                = Some (OInst "org/mortbay/setuid/RLimit" flds))
    by (unfold w1; cbn [heap]; now rewrite list_lookup_middle).
  pose proof (setrlimitnofiles_run w1 (length (heap w)) flds _ _ Hok Hr1 Hs Hh) as Hrun2.
  cbv zeta in Hrun2.
  set (l := mk_rlimit (to_uint64 (to_int32 (rlim_cur (nofile (os w)))))
                      (to_uint64 (to_int32 (rlim_max (nofile (os w)))))) in *.
  set (w2 := mk_World (sys_setrlimit RLIMIT_NOFILE l (os w1)).2 (classes w1) (heap w1)
               (pending w1) (Call (Setrlimit RLIMIT_NOFILE l) :: trace w1)) in *.
  assert (Hsys2 : is_refused NR_getrlimit (os w2) = false).
  { unfold w2, is_refused; cbn [os]. rewrite sys_setrlimit_refused. exact Hsys. }
  destruct (getrlimitnofiles_run w2 Hok Hsys2) as (flds3 & Hs3 & Hh3 & Hrun3).
  assert (Hsame : to_int32 (rlim_cur (nofile (os w2))) = to_int32 (rlim_cur (nofile (os w)))
                ∧ to_int32 (rlim_max (nofile (os w2))) = to_int32 (rlim_max (nofile (os w)))).
  { unfold w2; cbn [os]. rewrite sys_setrlimit_nofile.
    destruct (_ =? 0); [|split; reflexivity].
    unfold l; cbn [rlim_cur rlim_max].
    rewrite !to_int32_uint64, !to_int32_idem. split; reflexivity. }
  destruct Hsame as [Hc Hm]. rewrite Hc in Hs3. rewrite Hm in Hh3.
  eexists _, _, _, _, _, _, _, _.
  split; [exact Hrun1|]. split; [exact Hrun2|]. split; [exact Hrun3|].
  split; [eapply field_int_built; [reflexivity | exact Hs]|].
  split; [eapply field_int_built; [reflexivity | exact Hh]|].
  split; eapply field_int_built; try reflexivity; assumption.
Qed.

Lemma read_write_read_witness :
  ∃ r1 w1 rc w2 r2 w3,
    Java_org_mortbay_setuid_SetUID_getrlimitnofiles (world unlimited bundled [])
    = Returns (Some r1) w1
    ∧ Java_org_mortbay_setuid_SetUID_setrlimitnofiles (Some r1) w1 = Returns rc w2
    ∧ Java_org_mortbay_setuid_SetUID_getrlimitnofiles w2 = Returns (Some r2) w3
    ∧ field_int w3 r2 "_hard" = field_int w1 r1 "_hard".
Proof.
  destruct (read_write_read (world unlimited bundled []) eq_refl eq_refl)
    as (r1 & w1 & rc & w2 & r2 & w3 & soft & hard & H1 & H2 & H3 & _ & Ha & _ & Hb).
  exists r1, w1, rc, w2, r2, w3.
  split; [exact H1|]. split; [exact H2|]. split; [exact H3|].
  rewrite Ha, Hb. reflexivity.
Defined.

(** C9.  Both limits cross the boundary as a C [int].  The read stores
    each [rlim_t] converted to [int]: a value in the 32-bit signed range,
    congruent to the limit modulo 2^32, different from it as soon as the
    limit exceeds 2^31 - 1, and -1 for [RLIM_INFINITY].  The write passes
    to [setrlimit] each int field widened to [rlim_t], that is reduced
    modulo 2^64. *)
Theorem limits_cross_as_int (w : World) :
  host_ok (classes w) = true →
  (is_refused NR_getrlimit (os w) = false →
     ∃ r w' soft hard,
       Java_org_mortbay_setuid_SetUID_getrlimitnofiles w = Returns (Some r) w'
       ∧ field_int w' r "_soft" = Some soft ∧ field_int w' r "_hard" = Some hard
       ∧ soft = to_int32 (rlim_cur (nofile (os w)))
       ∧ hard = to_int32 (rlim_max (nofile (os w)))
       ∧ INT_MIN ≤ soft ≤ INT_MAX ∧ INT_MIN ≤ hard ≤ INT_MAX
       ∧ (soft - rlim_cur (nofile (os w))) mod 2^32 = 0
       ∧ (hard - rlim_max (nofile (os w))) mod 2^32 = 0
       ∧ (INT_MAX < rlim_cur (nofile (os w)) → soft ≠ rlim_cur (nofile (os w)))
       ∧ (INT_MAX < rlim_max (nofile (os w)) → hard ≠ rlim_max (nofile (os w)))
       ∧ (rlim_max (nofile (os w)) = RLIM_INFINITY → hard = -1))
  ∧ (∀ r flds soft hard,
       heap w !! r = Some (OInst "org/mortbay/setuid/RLimit" flds) →
       flds !! "_soft" = Some (VInt soft) → flds !! "_hard" = Some (VInt hard) →
       ∃ rc w',
         Java_org_mortbay_setuid_SetUID_setrlimitnofiles (Some r) w = Returns rc w'
         ∧ trace w' = Call (Setrlimit RLIMIT_NOFILE
                              (mk_rlimit (soft mod 2^64) (hard mod 2^64))) :: trace w).
Proof.
  intros Hok. split.
  - intros Hsys.
    destruct (getrlimitnofiles_run w Hok Hsys) as (flds & Hs & Hh & Hrun).
    rewrite Hrun. eexists _, _, _, _. split; [reflexivity|].
    split; [eapply field_int_built; [reflexivity | exact Hs]|].
    split; [eapply field_int_built; [reflexivity | exact Hh]|].
    split; [reflexivity|]. split; [reflexivity|].
    split; [apply to_int32_range|]. split; [apply to_int32_range|].
    split; [apply to_int32_congruent|]. split; [apply to_int32_congruent|].
    split; [apply to_int32_large|]. split; [apply to_int32_large|].
    intros ->. reflexivity.
  - intros r flds soft hard Hr Hs Hh.
    rewrite (setrlimitnofiles_run w r flds soft hard Hok Hr Hs Hh).
    eexists _, _. split; reflexivity.
Qed.

Lemma limits_cross_as_int_witness :
  ∃ r w',
    Java_org_mortbay_setuid_SetUID_getrlimitnofiles (world unlimited bundled [])
    = Returns (Some r) w'
    ∧ field_int w' r "_hard" = Some (-1).
Proof.
  destruct (limits_cross_as_int (world unlimited bundled []) eq_refl) as (Hread & _).
  destruct (Hread eq_refl)
    as (r & w' & soft & hard & Hrun & _ & Hh & _ & _ & _ & _ & _ & _ & _ & _ & Hinf).
  exists r, w'. split; [exact Hrun|].
  rewrite Hh. rewrite (Hinf eq_refl). reflexivity.
Defined.

End ClaimsRead.

Section ClaimsLookups.

Import Libc JNI.

(** C3.  For both group lookups: the member array libc hands out is
    measured by scanning up to its null terminator, which yields the
    number of members; when that number is not zero the [_grMem] field of
    the record is bound to an array that did not exist before the call, of
    exactly that length, whose elements are the member names in their
    original order; when the group has no member, or libc hands out no
    member array, the field keeps its zero-initialised value, null. *)
Theorem group_member_list (w : World) (e : group_entry) :
  host_ok (classes w) = true →
  (∀ ms k w0,
     ge_members e = Some ms →
     gr_mem (group_of_entry e) = Some ((Some <$> ms) ++ [None])
     ∧ scan_members ((Some <$> ms) ++ [None]) k w0 = Returns (k + length ms)%nat w0)
  ∧ (∀ sref name,
       heap w !! sref = Some (OStr name) →
       find (λ g, String.eqb (ge_name g) name) (group_db (os w)) = Some e →
       ∃ r w',
         Java_org_mortbay_setuid_SetUID_getgrnam (Some sref) w = Returns (Some r) w'
         ∧ match ge_members e with
           | Some (m :: ms) =>
               ∃ a elts,
                 get_field w' r "_grMem" = Some (VRef (Some a))
                 ∧ heap w !! a = None
                 ∧ heap w' !! a = Some (OArr elts)
                 ∧ length elts = length (m :: ms)
                 ∧ mapM (string_at w') elts = Some (m :: ms)
           | _ => get_field w' r "_grMem" = Some (VRef None)
           end)
  ∧ (∀ gid,
       find (λ g, ge_gid g =? to_uint32 gid) (group_db (os w)) = Some e →
       ∃ r w',
         Java_org_mortbay_setuid_SetUID_getgrgid gid w = Returns (Some r) w'
         ∧ match ge_members e with
           | Some (m :: ms) =>
               ∃ a elts,
                 get_field w' r "_grMem" = Some (VRef (Some a))
                 ∧ heap w !! a = None
                 ∧ heap w' !! a = Some (OArr elts)
                 ∧ length elts = length (m :: ms)
                 ∧ mapM (string_at w') elts = Some (m :: ms)
           | _ => get_field w' r "_grMem" = Some (VRef None)
           end).
Proof.
  intros Hok.
  assert (Hmem : ∀ w' r, member_field e w w' r →
            match ge_members e with
            | Some (m :: ms) =>
                ∃ a elts,
                  get_field w' r "_grMem" = Some (VRef (Some a))
                  ∧ heap w !! a = None
                  ∧ heap w' !! a = Some (OArr elts)
                  ∧ length elts = length (m :: ms)
                  ∧ mapM (string_at w') elts = Some (m :: ms)
            | _ => get_field w' r "_grMem" = Some (VRef None)
            end).
  { intros w' r. unfold member_field.
    destruct (ge_members e) as [[|m ms]|]; auto.
    intros (a & elts & Hf & Hge & Ha & Hlen & Hstr).
    exists a, elts. repeat split; auto. now apply lookup_ge_None_2. }
  split; [|split].
  - intros ms k w0 Hms. split.
    + unfold group_of_entry. cbn [gr_mem]. now rewrite Hms.
    + apply scan_members_terminated.
  - intros sref name Hs Hdb.
    destruct (getgrnam_found w sref name e Hok Hs Hdb) as (w' & Hrun & Hb).
    exists (length (heap w)), w'. split; [exact Hrun|].
    apply Hmem, Hb.
  - intros gid Hdb.
    destruct (getgrgid_found w gid e Hok Hdb) as (w' & Hrun & Hb).
    exists (length (heap w)), w'. split; [exact Hrun|].
    apply Hmem, Hb.
Qed.

Lemma group_member_list_witness :
  ∃ r w' a,
    Java_org_mortbay_setuid_SetUID_getgrgid 10 (world process bundled [])
    = Returns (Some r) w'
    ∧ get_field w' r "_grMem" = Some (VRef (Some a))
    ∧ array_strings w' a = Some ["root"; "jetty"].
Proof.
  destruct (group_member_list (world process bundled [])
              (mk_group_entry "wheel" "x" 10 (Some ["root"; "jetty"])) eq_refl)
    as (_ & _ & Hgid).
  destruct (Hgid 10 eq_refl) as (r & w' & Hrun & a & elts & Hf & _ & Ha & _ & Hs).
  exists r, w', a. split; [exact Hrun|]. split; [exact Hf|].
  unfold array_strings. rewrite Ha. exact Hs.
Defined.

(** C10.  A user entry that libc finds both under a name and under a
    numeric id gives, through [getpwnam] and through [getpwuid], two
    records whose seven fields read the same, namely the entry's; and a
    group entry gives, through [getgrnam] and through [getgrgid], two
    records whose name, password, gid and member list read the same. *)
Theorem by_name_and_by_id_agree (w : World) :
  host_ok (classes w) = true →
  (∀ sref name uid pw,
     heap w !! sref = Some (OStr name) →
     db_getpwnam name (os w) = Some pw →
     db_getpwuid (to_uint32 uid) (os w) = Some pw →
     ∃ r1 w1 r2 w2 view,
       Java_org_mortbay_setuid_SetUID_getpwnam (Some sref) w = Returns (Some r1) w1
       ∧ Java_org_mortbay_setuid_SetUID_getpwuid uid w = Returns (Some r2) w2
       ∧ read_passwd w1 r1 = Some view ∧ read_passwd w2 r2 = Some view
       ∧ view = java_passwd pw)
  ∧ (∀ sref name gid e,
       heap w !! sref = Some (OStr name) →
       find (λ g, String.eqb (ge_name g) name) (group_db (os w)) = Some e →
       find (λ g, ge_gid g =? to_uint32 gid) (group_db (os w)) = Some e →
       ∃ r1 w1 r2 w2 view,
         Java_org_mortbay_setuid_SetUID_getgrnam (Some sref) w = Returns (Some r1) w1
         ∧ Java_org_mortbay_setuid_SetUID_getgrgid gid w = Returns (Some r2) w2
         ∧ read_group w1 r1 = Some view ∧ read_group w2 r2 = Some view
         ∧ view = java_group e).
Proof.
  intros Hok. split.
  - intros sref name uid pw Hs Hn Hu.
    destruct (getpwnam_found w sref name pw Hok Hs Hn) as (w1 & H1 & B1).
    destruct (getpwuid_found w uid pw Hok Hu) as (w2 & H2 & B2).
    destruct B1 as (_ & _ & _ & _ & _ & R1). destruct B2 as (_ & _ & _ & _ & _ & R2).
    eexists _, w1, _, w2, _. repeat split; eauto.
  - intros sref name gid e Hs Hn Hg.
    destruct (getgrnam_found w sref name e Hok Hs Hn) as (w1 & H1 & B1).
    destruct (getgrgid_found w gid e Hok Hg) as (w2 & H2 & B2).
    destruct B1 as (_ & _ & _ & _ & _ & R1 & _). destruct B2 as (_ & _ & _ & _ & _ & R2 & _).
    eexists _, w1, _, w2, _. repeat split; eauto.
Qed.

Lemma by_name_and_by_id_agree_witness :
  ∃ r1 w1 r2 w2,
    Java_org_mortbay_setuid_SetUID_getpwnam (Some 0%nat)
      (world process bundled [OStr "jetty"]) = Returns (Some r1) w1
    ∧ Java_org_mortbay_setuid_SetUID_getpwuid 1001
        (world process bundled [OStr "jetty"]) = Returns (Some r2) w2
    ∧ read_passwd w1 r1 = read_passwd w2 r2.
Proof.
  destruct (by_name_and_by_id_agree (world process bundled [OStr "jetty"]) eq_refl)
    as (Huser & _).
  destruct (Huser 0%nat "jetty" 1001
              (mk_passwd "jetty" "x" 1001 1001 "Jetty" "/opt/jetty" "/bin/false")
              eq_refl eq_refl eq_refl)
    as (r1 & w1 & r2 & w2 & view & H1 & H2 & R1 & R2 & _).
  exists r1, w1, r2, w2. split; [exact H1|]. split; [exact H2|].
  rewrite R1, R2. reflexivity.
Defined.

End ClaimsLookups.

Section ClaimsErrors.

Import Libc JNI.

Lemma length_append (s t : string) :
  String.length (s +:+ t) = (String.length s + String.length t)%nat.
Proof. induction s as [|c s IH]; simpl; [reflexivity | now rewrite IH]. Qed.

Lemma getpwnam_not_found w sref name :
  is_Some (classes w !! security) →
  heap w !! sref = Some (OStr name) →
  db_getpwnam name (os w) = None →
  (String.length name ≤ 233)%nat →
  Java_org_mortbay_setuid_SetUID_getpwnam (Some sref) w
  = Returns None
      (mk_World (os w) (classes w) (heap w)
         (Some (security, "User " +:+ name +:+ " is not found!!!"))
         (Throw security ("User " +:+ name +:+ " is not found!!!")
            :: Call (Getpwnam name) :: trace w))
  ∧ includes name ("User " +:+ name +:+ " is not found!!!").
Proof.
  intros Hsec Hs Hdb Hlen. split; [|now exists "User ", " is not found!!!"].
  destruct w as [o cs hp p t]; simpl in *.
  unfold Java_org_mortbay_setuid_SetUID_getpwnam.
  run ltac:(unfold GetStringUTFChars; simpl; rewrite Hs; reflexivity).
  run ltac:(unfold getpwnam; simpl; rewrite Hdb; reflexivity).
  run ltac:(apply sprintf_fits; rewrite !length_append; simpl; lia).
  run ltac:(apply throw_security; simpl; eauto).
  reflexivity.
Qed.

(** C1 fails on the code.  With a [Passwd] class that has no [_pwShell]
    field, [getpwnam] of an existing user raises the security exception
    naming the field and then, instead of returning early with no result,
    goes on: it creates the Java string for the shell and calls
    [SetObjectField] with the null field id, on the record it has
    populated so far. *)
Theorem missing_field_no_early_return :
  ∃ w',
    Java_org_mortbay_setuid_SetUID_getpwnam (Some 0%nat)
      (world process old_passwd [OStr "jetty"])
    = Undefined w'
    ∧ pending w'
      = Some (security, "Java Object Field is not found: String _pwShell !!!")
    ∧ field_string w' 1 "_pwName" = Some "jetty"
    ∧ field_string w' 1 "_pwDir" = Some "/opt/jetty"
    ∧ last (heap w') = Some (OStr "/bin/false").
Proof.
  eexists. split; [vm_compute; reflexivity|].
  repeat split; vm_compute; reflexivity.
Qed.

(** The same for a missing constructor: [getJavaMethodId] raises and
    returns null, and the null method id goes to [NewObject]. *)
Lemma missing_constructor_reaches_NewObject :
  ∃ w',
    Java_org_mortbay_setuid_SetUID_getpwuid 1001 (world process no_constructor [])
    = Undefined w'
    ∧ pending w' = Some (security, "Java Method is not found: <init> !!!")
    ∧ heap w' = [].
Proof. eexists. split; [vm_compute; reflexivity|]. split; reflexivity. Qed.

(** Where the class itself is missing the lookups do return early: the
    security exception names the class and no object is returned. *)
Lemma missing_class_returns_early :
  ∃ w',
    Java_org_mortbay_setuid_SetUID_getgrgid 10
      (world process (delete "org/mortbay/setuid/Group" bundled) [])
    = Returns None w'
    ∧ pending w'
      = Some (security, "Class: org.mortbay.setuid.Group is not found!!!")
    ∧ heap w' = [].
Proof. eexists. split; [vm_compute; reflexivity|]. split; reflexivity. Qed.

(** C2 fails on the code.  For a name of 240 bytes that the user database
    does not have, the message does not fit the 255-byte buffer it is
    formatted into: [sprintf] writes past the buffer and no exception has
    been raised at that point. *)
Theorem long_name_overflows_message_buffer :
  db_getpwnam long_name process = None
  ∧ String.length long_name = 240%nat
  ∧ Java_org_mortbay_setuid_SetUID_getpwnam (Some 0%nat)
      (world process bundled [OStr long_name])
    = Undefined
        (mk_World process bundled [OStr long_name] None [Call (Getpwnam long_name)]).
Proof. repeat split; vm_compute; reflexivity. Qed.

End ClaimsErrors.

(** ** The helpers on their own *)
Section Digits.

Lemma nb_digits_double d :
  (Decimal.nb_digits (Decimal.Little.double d) ≤ S (Decimal.nb_digits d))%nat
  ∧ (Decimal.nb_digits (Decimal.Little.succ_double d) ≤ S (Decimal.nb_digits d))%nat.
Proof. induction d; simpl; lia. Qed.

Lemma nb_digits_to_little_uint p :
  (Decimal.nb_digits (Pos.to_little_uint p) ≤ Pos.size_nat p)%nat.
Proof.
  induction p as [p IH|p IH|]; simpl; [| |lia].
  - pose proof (proj2 (nb_digits_double (Pos.to_little_uint p))). lia.
  - pose proof (proj1 (nb_digits_double (Pos.to_little_uint p))). lia.
Qed.

Lemma nb_digits_revapp d d' :
  Decimal.nb_digits (Decimal.revapp d d')
  = (Decimal.nb_digits d + Decimal.nb_digits d')%nat.
Proof. revert d'. induction d; intros d'; simpl; rewrite ?IHd; simpl; lia. Qed.

Lemma length_string_of_uint d :
  String.length (NilEmpty.string_of_uint d) = Decimal.nb_digits d.
Proof. induction d; simpl; congruence. Qed.

Lemma size_nat_above p n : (n < Pos.size_nat p)%nat → 2 ^ Z.of_nat n ≤ Z.pos p.
Proof.
  revert n. induction p as [p IH|p IH|]; intros n Hn; simpl in Hn.
  - destruct n as [|n]; [simpl; lia|].
    specialize (IH n ltac:(lia)). rewrite Nat2Z.inj_succ, Z.pow_succ_r by lia. lia.
  - destruct n as [|n]; [simpl; lia|].
    specialize (IH n ltac:(lia)). rewrite Nat2Z.inj_succ, Z.pow_succ_r by lia. lia.
  - assert (n = 0%nat) as -> by lia. simpl. lia.
Qed.

(** [%d] of an [int] takes at most 33 bytes (a sign and no more digits
    than bits). *)
Lemma length_fmt_d z : is_int32 z = true → (String.length (fmt_d z) ≤ 33)%nat.
Proof.
  unfold is_int32, INT_MIN, INT_MAX. intros H. apply andb_prop in H as [Hlo Hhi].
  apply Z.leb_le in Hlo, Hhi.
  assert (Hbits : ∀ p, Z.pos p < 2 ^ 32 →
            (String.length (NilZero.string_of_uint (Pos.to_uint p)) ≤ 32)%nat).
  { intros p Hp. unfold NilZero.string_of_uint.
    assert (String.length (NilEmpty.string_of_uint (Pos.to_uint p)) ≤ 32)%nat.
    { rewrite length_string_of_uint. unfold Pos.to_uint.
      unfold Decimal.rev. rewrite nb_digits_revapp. simpl. rewrite Nat.add_0_r.
      pose proof (nb_digits_to_little_uint p).
      destruct (le_lt_dec (Pos.size_nat p) 32) as [|Hbig]; [lia|].
      apply size_nat_above in Hbig. simpl Z.of_nat in Hbig. lia. }
    destruct (Pos.to_uint p); simpl in *; lia. }
  unfold fmt_d. destruct z as [|p|p]; simpl.
  - lia.
  - apply Nat.le_trans with 32%nat; [apply Hbits; lia | lia].
  - specialize (Hbits p ltac:(lia)). lia.
Qed.

End Digits.

Section FieldHelpers.

Import Libc JNI.

Lemma GetObjectClass_at r c flds w :
  heap w !! r = Some (OInst c flds) →
  GetObjectClass (Some r) w = Returns (Some c) w.
Proof. intros Hr. unfold GetObjectClass. now rewrite Hr. Qed.

Lemma set_field_at r c flds name sig v w :
  heap w !! r = Some (OInst c flds) → is_Some (flds !! name) →
  set_field (Some r) (Some (name, sig)) v w
  = Returns () (with_heap (<[r := OInst c (<[name := v]> flds)]> (heap w)) w).
Proof. intros Hr [x Hx]. unfold set_field. now rewrite Hr, Hx. Qed.

Lemma GetFieldID_missing c cd name sig w :
  classes w !! c = Some cd → cd_fields cd !! name ≠ Some sig →
  GetFieldID (Some c) name sig w
  = Returns None (with_pending (Some ("java/lang/NoSuchFieldError", name)) w).
Proof.
  intros Hc Hf. unfold GetFieldID. rewrite Hc.
  destruct (cd_fields cd !! name) as [sig'|] eqn:E; [|reflexivity].
  destruct (String.eqb_spec sig' sig) as [->|]; [congruence | reflexivity].
Qed.

Lemma setJavaFieldInt_at r c cd flds name v w :
  heap w !! r = Some (OInst c flds) → classes w !! c = Some cd →
  cd_fields cd !! name = Some "I" → is_Some (flds !! name) →
  setJavaFieldInt (Some r) name v w
  = Returns () (with_heap (<[r := OInst c (<[name := VInt v]> flds)]> (heap w)) w).
Proof.
  intros Hr Hc Hf Hx. unfold setJavaFieldInt.
  rewrite (run_bind _ _ _ _ _ (GetObjectClass_at _ _ _ _ Hr)).
  rewrite (run_bind _ _ _ _ _ (GetFieldID_found _ _ _ _ _ Hc Hf)).
  rewrite (run_bind _ _ w () w) by reflexivity.
  erewrite run_bind; [|unfold SetIntField; eapply set_field_at; eassumption].
  reflexivity.
Qed.

Lemma setJavaFieldString_at r c cd flds name s w :
  heap w !! r = Some (OInst c flds) → classes w !! c = Some cd →
  cd_fields cd !! name = Some jstring → is_Some (flds !! name) →
  setJavaFieldString (Some r) name s w
  = Returns ()
      (with_heap
         (<[r := OInst c (<[name := VRef (Some (length (heap w)))]> flds)]>
            (heap w ++ [OStr s])) w).
Proof.
  intros Hr Hc Hf Hx. unfold setJavaFieldString.
  rewrite (run_bind _ _ _ _ _ (GetObjectClass_at _ _ _ _ Hr)).
  rewrite (run_bind _ _ _ _ _ (GetFieldID_found _ _ _ _ _ Hc Hf)).
  rewrite (run_bind _ _ w () w) by reflexivity.
  erewrite run_bind; [|reflexivity].
  erewrite run_bind.
  2:{ unfold SetObjectField. eapply set_field_at; [|exact Hx].
      simpl. apply lookup_app_l_Some. exact Hr. }
  destruct w; reflexivity.
Qed.

(** X1.  Writing an int field with [setJavaFieldInt] and reading it with
    [getJavaFieldInt] gives the value back; the write changes nothing
    else: the object's other fields, the other objects, the pending
    exception and the trace stay as they were, and the read changes
    nothing at all. *)
Theorem int_field_round_trip (w : World) (r : nat) (c : string) (cd : classdef)
    (flds : gmap string value) (name : string) (v : Z) :
  heap w !! r = Some (OInst c flds) →
  classes w !! c = Some cd →
  cd_fields cd !! name = Some "I" →
  is_Some (flds !! name) →
  ∃ w',
    setJavaFieldInt (Some r) name v w = Returns () w'
    ∧ getJavaFieldInt (Some r) name w' = Returns v w'
    ∧ (∀ other, other ≠ name → get_field w' r other = get_field w r other)
    ∧ (∀ r', r' ≠ r → heap w' !! r' = heap w !! r')
    ∧ length (heap w') = length (heap w)
    ∧ classes w' = classes w ∧ pending w' = pending w ∧ trace w' = trace w
    ∧ os w' = os w.
Proof.
  intros Hr Hc Hf Hx.
  assert (Hlt : (r < length (heap w))%nat) by (eapply lookup_lt_Some; eauto).
  eexists. split; [apply (setJavaFieldInt_at r c cd flds name v w Hr Hc Hf Hx)|].
  split.
  - eapply getJavaFieldInt_run with (c := c) (flds := <[name := VInt v]> flds);
      [|exact Hc|exact Hf|apply lookup_insert_eq].
    simpl. now apply list_lookup_insert_eq.
  - repeat split; simpl.
    + intros other Hne. unfold get_field; simpl.
      rewrite list_lookup_insert_eq, Hr by exact Hlt. now apply lookup_insert_ne.
    + intros r' Hne. now apply list_lookup_insert_ne.
    + apply length_insert.
Qed.

Lemma int_field_round_trip_witness :
  ∃ w',
    setJavaFieldInt (Some 0%nat) "_soft" 77 (world process bundled [limits 1 2])
    = Returns () w'
    ∧ getJavaFieldInt (Some 0%nat) "_soft" w' = Returns 77 w'
    ∧ field_int w' 0 "_hard" = Some 2.
Proof.
  assert (Hx : is_Some (limit_fields 1 2 !! "_soft"))
    by (exists (VInt 1); vm_compute; reflexivity).
  destruct (int_field_round_trip (world process bundled [limits 1 2]) 0
              "org/mortbay/setuid/RLimit" (record_class rlimit_fields)
              (limit_fields 1 2) "_soft" 77 eq_refl
              ltac:(vm_compute; reflexivity) ltac:(vm_compute; reflexivity) Hx)
    as (w' & Hset & Hget & Hother & _).
  exists w'. split; [exact Hset|]. split; [exact Hget|].
  unfold field_int. rewrite (Hother "_hard") by discriminate.
  vm_compute. reflexivity.
Defined.

(** X2.  [setJavaFieldString] creates exactly one Java string, holding
    the C string, and binds the field to it: the field reads back as the
    string, the reference is one that did not exist before, and the
    object's other fields and all other objects stay as they were. *)
Theorem string_field_binding (w : World) (r : nat) (c : string) (cd : classdef)
    (flds : gmap string value) (name s : string) :
  heap w !! r = Some (OInst c flds) →
  classes w !! c = Some cd →
  cd_fields cd !! name = Some jstring →
  is_Some (flds !! name) →
  ∃ w',
    setJavaFieldString (Some r) name s w = Returns () w'
    ∧ field_string w' r name = Some s
    ∧ get_field w' r name = Some (VRef (Some (length (heap w))))
    ∧ heap w !! length (heap w) = None
    ∧ length (heap w') = S (length (heap w))
    ∧ (∀ other, other ≠ name → get_field w' r other = get_field w r other)
    ∧ (∀ r', r' ≠ r → (r' < length (heap w))%nat → heap w' !! r' = heap w !! r')
    ∧ classes w' = classes w ∧ pending w' = pending w ∧ trace w' = trace w
    ∧ os w' = os w.
Proof.
  intros Hr Hc Hf Hx.
  assert (Hlt : (r < length (heap w))%nat) by (eapply lookup_lt_Some; eauto).
  assert (Hlt' : (r < length (heap w ++ [OStr s]))%nat)
    by (rewrite length_app; simpl; lia).
  eexists. split; [apply (setJavaFieldString_at r c cd flds name s w Hr Hc Hf Hx)|].
  assert (Hfield : ∀ n, get_field
             (with_heap
                (<[r := OInst c (<[name := VRef (Some (length (heap w)))]> flds)]>
                   (heap w ++ [OStr s])) w) r n
           = <[name := VRef (Some (length (heap w)))]> flds !! n).
  { intros n. unfold get_field; simpl. now rewrite list_lookup_insert_eq. }
  repeat split; simpl.
  - unfold field_string. rewrite Hfield, lookup_insert_eq.
    unfold string_at; simpl.
    rewrite list_lookup_insert_ne by lia.
    now rewrite list_lookup_middle.
  - rewrite Hfield. apply lookup_insert_eq.
  - apply lookup_ge_None_2. lia.
  - rewrite length_insert, length_app. simpl. lia.
  - intros other Hne. rewrite Hfield, lookup_insert_ne by done.
    unfold get_field. now rewrite Hr.
  - intros r' Hne Hr'. rewrite list_lookup_insert_ne by done.
    now apply lookup_app_l.
Qed.

Lemma string_field_binding_witness :
  ∃ w',
    setJavaFieldString (Some 1%nat) "_pwShell" "/bin/zsh"
      (world process bundled
         [OStr "jetty";
          OInst "org/mortbay/setuid/Passwd"
            (default_value <$> cd_fields (record_class passwd_fields))])
    = Returns () w'
    ∧ field_string w' 1 "_pwShell" = Some "/bin/zsh".
Proof.
  assert (Hx : is_Some ((default_value <$> cd_fields (record_class passwd_fields))
                          !! "_pwShell"))
    by (exists (VRef None); vm_compute; reflexivity).
  destruct (string_field_binding
              (world process bundled
                 [OStr "jetty";
                  OInst "org/mortbay/setuid/Passwd"
                    (default_value <$> cd_fields (record_class passwd_fields))])
              1 "org/mortbay/setuid/Passwd" (record_class passwd_fields)
              (default_value <$> cd_fields (record_class passwd_fields))
              "_pwShell" "/bin/zsh" eq_refl
              ltac:(vm_compute; reflexivity) ltac:(vm_compute; reflexivity) Hx)
    as (w' & Hset & Hread & _).
  exists w'. split; [exact Hset | exact Hread].
Defined.

End FieldHelpers.

Section MissingHandles.

Import Libc JNI.

(** What a field helper does once [GetFieldID] has come back null: format
    the message, raise, and return to the statement after the [if]. *)
Lemma missing_field_raise prefix name w :
  is_Some (classes w !! security) →
  (String.length (prefix +:+ name +:+ " !!!") < 255)%nat →
  (strErr ← sprintf 255 (prefix +:+ name +:+ " !!!");
   throwNewJavaSecurityException strErr)
    (with_pending (Some ("java/lang/NoSuchFieldError", name)) w)
  = Returns ()
      (mk_World (os w) (classes w) (heap w)
         (Some (security, prefix +:+ name +:+ " !!!"))
         (Throw security (prefix +:+ name +:+ " !!!") :: trace w)).
Proof.
  intros Hsec Hlen.
  erewrite run_bind; [|apply sprintf_fits; exact Hlen].
  rewrite throw_security by exact Hsec. reflexivity.
Qed.

(** X3.  When the class of the object does not declare the field with
    the type a helper asks for, the helper raises a security exception
    naming the type and the field and then carries on with the null field
    id: [setJavaFieldInt] and [getJavaFieldInt] pass it to [SetIntField]
    and [GetIntField], [setJavaFieldString] first creates the Java string
    and passes it to [SetObjectField].  The object is not written. *)
Theorem field_helpers_go_on_after_raising (w : World) (r : nat) (c : string)
    (cd : classdef) (flds : gmap string value) (name : string) :
  heap w !! r = Some (OInst c flds) →
  classes w !! c = Some cd →
  is_Some (classes w !! security) →
  (String.length name ≤ 211)%nat →
  (cd_fields cd !! name ≠ Some "I" →
     (∀ v, setJavaFieldInt (Some r) name v w
           = Undefined
               (mk_World (os w) (classes w) (heap w)
                  (Some (security, "Java Object Field is not found: int " +:+ name +:+ " !!!"))
                  (Throw security ("Java Object Field is not found: int " +:+ name +:+ " !!!")
                     :: trace w)))
     ∧ getJavaFieldInt (Some r) name w
       = Undefined
           (mk_World (os w) (classes w) (heap w)
              (Some (security, "Java Object Field is not found: int " +:+ name +:+ " !!!"))
              (Throw security ("Java Object Field is not found: int " +:+ name +:+ " !!!")
                 :: trace w)))
  ∧ (cd_fields cd !! name ≠ Some jstring →
     ∀ s, setJavaFieldString (Some r) name s w
          = Undefined
              (mk_World (os w) (classes w) (heap w ++ [OStr s])
                 (Some (security, "Java Object Field is not found: String " +:+ name +:+ " !!!"))
                 (Throw security ("Java Object Field is not found: String " +:+ name +:+ " !!!")
                    :: trace w))).
Proof.
  intros Hr Hc Hsec Hlen. split.
  - intros Hf.
    assert (Hfit : (String.length ("Java Object Field is not found: int " +:+ name +:+ " !!!")
                    < 255)%nat) by (rewrite !length_append; simpl; lia).
    split; [intros v; unfold setJavaFieldInt | unfold getJavaFieldInt].
    + rewrite (run_bind _ _ _ _ _ (GetObjectClass_at _ _ _ _ Hr)).
      rewrite (run_bind _ _ _ _ _ (GetFieldID_missing _ _ _ _ _ Hc Hf)).
      rewrite (run_bind _ _ _ _ _ (missing_field_raise _ name w Hsec Hfit)).
      reflexivity.
    + rewrite (run_bind _ _ _ _ _ (GetObjectClass_at _ _ _ _ Hr)).
      rewrite (run_bind _ _ _ _ _ (GetFieldID_missing _ _ _ _ _ Hc Hf)).
      rewrite (run_bind _ _ _ _ _ (missing_field_raise _ name w Hsec Hfit)).
      reflexivity.
  - intros Hf s.
    assert (Hfit : (String.length ("Java Object Field is not found: String " +:+ name +:+ " !!!")
                    < 255)%nat) by (rewrite !length_append; simpl; lia).
    unfold setJavaFieldString.
    rewrite (run_bind _ _ _ _ _ (GetObjectClass_at _ _ _ _ Hr)).
    rewrite (run_bind _ _ _ _ _ (GetFieldID_missing _ _ _ _ _ Hc Hf)).
    rewrite (run_bind _ _ _ _ _ (missing_field_raise _ name w Hsec Hfit)).
    reflexivity.
Qed.

Lemma field_helpers_go_on_after_raising_witness :
  getJavaFieldInt (Some 0%nat) "_hard"
    (world process renamed_rlimit [limits_renamed 1024 4096])
  = Undefined
      (mk_World process renamed_rlimit [limits_renamed 1024 4096]
         (Some (security, "Java Object Field is not found: int _hard !!!"))
         [Throw security "Java Object Field is not found: int _hard !!!"]).
Proof.
  assert (Hc : classes (world process renamed_rlimit [limits_renamed 1024 4096])
                 !! "org/mortbay/setuid/RLimit"
               = Some (record_class [("soft", "I"); ("hard", "I")]))
    by (vm_compute; reflexivity).
  assert (Hsec : is_Some (classes (world process renamed_rlimit
                                     [limits_renamed 1024 4096]) !! security))
    by (eexists; vm_compute; reflexivity).
  destruct (field_helpers_go_on_after_raising
              (world process renamed_rlimit [limits_renamed 1024 4096]) 0
              "org/mortbay/setuid/RLimit" _ _ "_hard" eq_refl Hc Hsec
              ltac:(simpl; lia))
    as (Hint & _).
  destruct (Hint ltac:(vm_compute; discriminate)) as (_ & Hget).
  exact Hget.
Defined.

(** X4.  [getJavaMethodId] returns the id of the method when the class
    has it, leaving the world untouched; when the class does not have it,
    it returns null with a security exception pending that names the
    method, and nothing else changed. *)
Theorem getJavaMethodId_found_or_reported (w : World) (c : string) (cd : classdef)
    (name sig : string) :
  classes w !! c = Some cd →
  is_Some (classes w !! security) →
  (String.length name ≤ 224)%nat →
  (In (name, sig) (cd_methods cd) →
     getJavaMethodId (Some c) name sig w = Returns (Some (c, name, sig)) w)
  ∧ (¬ In (name, sig) (cd_methods cd) →
     getJavaMethodId (Some c) name sig w
     = Returns None
         (mk_World (os w) (classes w) (heap w)
            (Some (security, "Java Method is not found: " +:+ name +:+ " !!!"))
            (Throw security ("Java Method is not found: " +:+ name +:+ " !!!")
               :: trace w))).
Proof.
  intros Hc Hsec Hlen.
  assert (Hex : existsb (λ m, String.eqb m.1 name && String.eqb m.2 sig) (cd_methods cd)
                = true ↔ In (name, sig) (cd_methods cd)).
  { rewrite existsb_exists. split.
    - intros ([n s] & Hin & Heq). apply andb_prop in Heq as [H1 H2].
      apply String.eqb_eq in H1, H2. simpl in *. now subst.
    - intros Hin. exists (name, sig). simpl. now rewrite !String.eqb_refl. }
  split; intros Hin; unfold getJavaMethodId.
  - rewrite (run_bind _ _ w (Some (c, name, sig)) w); [reflexivity|].
    unfold GetMethodID. rewrite Hc. apply Hex in Hin. now rewrite Hin.
  - rewrite (run_bind _ _ w None
               (with_pending (Some ("java/lang/NoSuchMethodError", name)) w)).
    2:{ unfold GetMethodID. rewrite Hc.
        rewrite (not_true_is_false _ (λ E, Hin (proj1 Hex E))). reflexivity. }
    erewrite run_bind;
      [|apply sprintf_fits; rewrite !length_append; simpl; lia].
    erewrite run_bind; [|apply throw_security; exact Hsec]. reflexivity.
Qed.

Lemma getJavaMethodId_found_or_reported_witness :
  getJavaMethodId (Some "org/mortbay/setuid/Passwd") "<init>" "()V"
    (world process no_constructor [])
  = Returns None
      (mk_World process no_constructor []
         (Some (security, "Java Method is not found: <init> !!!"))
         [Throw security "Java Method is not found: <init> !!!"]).
Proof.
  assert (Hc : classes (world process no_constructor []) !! "org/mortbay/setuid/Passwd"
               = Some (mk_classdef false [("<init>", "(Ljava/lang/String;)V")]
                         (list_to_map passwd_fields)))
    by (vm_compute; reflexivity).
  assert (Hsec : is_Some (classes (world process no_constructor []) !! security))
    by (eexists; vm_compute; reflexivity).
  destruct (getJavaMethodId_found_or_reported (world process no_constructor [])
              "org/mortbay/setuid/Passwd" _ "<init>" "()V" Hc Hsec
              ltac:(simpl; lia))
    as (_ & Hmissing).
  apply Hmissing. simpl. intros [H|[]]. discriminate H.
Defined.

(** X5.  [throwNewJavaException] always returns, and always with an
    exception pending: the requested one, thrown with the message, when
    its class can be loaded; otherwise nothing is thrown and what stays
    pending is the [NoClassDefFoundError] of the failed [FindClass].  The
    heap is not touched. *)
Theorem throwNewJavaException_leaves_exception (name msg : string) (w : World) :
  ∃ w',
    throwNewJavaException name msg w = Returns () w'
    ∧ heap w' = heap w ∧ os w' = os w ∧ classes w' = classes w
    ∧ match classes w !! name with
      | Some _ =>
          pending w' = Some (name, msg) ∧ trace w' = Throw name msg :: trace w
      | None =>
          pending w' = Some ("java/lang/NoClassDefFoundError", name)
          ∧ trace w' = trace w
      end.
Proof.
  unfold throwNewJavaException, FindClass, mbind, M_bind.
  destruct (classes w !! name) as [cd|] eqn:E; simpl.
  - eexists. split; [reflexivity|]. simpl. auto.
  - eexists. split; [reflexivity|]. simpl. auto.
Qed.

(** X6.  [setJavaFieldLong] asks [GetFieldID] for the type signature
    [L], which is not the signature of a Java [long] ([J]): on an object
    whose class declares the field as a [long] the lookup fails, the
    helper raises the security exception for the field and passes the null
    field id to [SetLongField]; the field is not written. *)
Theorem setJavaFieldLong_misses_long_fields (w : World) (r : nat) (c : string)
    (cd : classdef) (flds : gmap string value) (name : string) (v : Z) :
  heap w !! r = Some (OInst c flds) →
  classes w !! c = Some cd →
  cd_fields cd !! name = Some "J" →
  is_Some (classes w !! security) →
  (String.length name ≤ 213)%nat →
  setJavaFieldLong (Some r) name v w
  = Undefined
      (mk_World (os w) (classes w) (heap w)
         (Some (security, "Java Object Field is not found: long " +:+ name +:+ " !!!"))
         (Throw security ("Java Object Field is not found: long " +:+ name +:+ " !!!")
            :: trace w)).
Proof.
  intros Hr Hc Hf Hsec Hlen.
  assert (Hfit : (String.length ("Java Object Field is not found: long " +:+ name +:+ " !!!")
                  < 255)%nat) by (rewrite !length_append; simpl; lia).
  assert (Hne : cd_fields cd !! name ≠ Some "L") by (rewrite Hf; discriminate).
  unfold setJavaFieldLong.
  rewrite (run_bind _ _ _ _ _ (GetObjectClass_at _ _ _ _ Hr)).
  rewrite (run_bind _ _ _ _ _ (GetFieldID_missing _ _ _ _ _ Hc Hne)).
  rewrite (run_bind _ _ _ _ _ (missing_field_raise _ name w Hsec Hfit)).
  reflexivity.
Qed.

Lemma setJavaFieldLong_misses_long_fields_witness :
  ∃ w',
    setJavaFieldLong (Some 0%nat) "_count" 5
      (world process
         (<["Counter" := record_class [("_count", "J")]]> bundled)
         [OInst "Counter" (list_to_map [("_count", VInt 0)])])
    = Undefined w'
    ∧ field_int w' 0 "_count" = Some 0.
Proof.
  eexists. split.
  - apply (setJavaFieldLong_misses_long_fields
             (world process
                (<["Counter" := record_class [("_count", "J")]]> bundled)
                [OInst "Counter" (list_to_map [("_count", VInt 0)])])
             0 "Counter" (record_class [("_count", "J")])
             (list_to_map [("_count", VInt 0)]) "_count" 5 eq_refl).
    + vm_compute; reflexivity.
    + vm_compute; reflexivity.
    + eexists; vm_compute; reflexivity.
    + simpl; lia.
  - vm_compute. reflexivity.
Defined.

End MissingHandles.

(** ** The lookups on their error paths *)
Section NotFound.

Import Libc JNI.

(** X7.  The member scan counts the entries in front of the first null
    pointer and ignores whatever the array holds after it; an array
    without a null pointer makes it read past the end. *)
Theorem scan_members_stops_at_first_null (ms : list string)
    (rest : list (option string)) (k : nat) (w : World) :
  scan_members ((Some <$> ms) ++ None :: rest) k w = Returns (k + length ms)%nat w
  ∧ scan_members (Some <$> ms) k w = Undefined w.
Proof.
  split.
  - revert k. induction ms as [|m ms IH]; intros k; simpl.
    + now rewrite Nat.add_0_r.
    + rewrite IH. f_equal. lia.
  - revert k. induction ms as [|m ms IH]; intros k; simpl; auto.
Qed.

(** X8.  A user name that the database does not have is reported when it
    is at most 233 bytes long: [getpwnam] makes its one libc query,
    raises the security exception "User <name> is not found!!!", creates
    no object and returns null.  From 234 bytes on the message no longer
    fits its buffer and [sprintf] writes past it before anything is
    raised. *)
Theorem getpwnam_absent_name (w : World) (sref : nat) (name : string) :
  is_Some (classes w !! security) →
  heap w !! sref = Some (OStr name) →
  db_getpwnam name (os w) = None →
  ((String.length name ≤ 233)%nat →
     Java_org_mortbay_setuid_SetUID_getpwnam (Some sref) w
     = Returns None
         (mk_World (os w) (classes w) (heap w)
            (Some (security, "User " +:+ name +:+ " is not found!!!"))
            (Throw security ("User " +:+ name +:+ " is not found!!!")
               :: Call (Getpwnam name) :: trace w)))
  ∧ ((234 ≤ String.length name)%nat →
     Java_org_mortbay_setuid_SetUID_getpwnam (Some sref) w
     = Undefined
         (mk_World (os w) (classes w) (heap w) (pending w)
            (Call (Getpwnam name) :: trace w))).
Proof.
  intros Hsec Hs Hdb.
  destruct w as [o cs hp p t]; simpl in *.
  unfold Java_org_mortbay_setuid_SetUID_getpwnam.
  run ltac:(unfold GetStringUTFChars; simpl; rewrite Hs; reflexivity).
  run ltac:(unfold getpwnam; simpl; rewrite Hdb; reflexivity).
  split; intros Hlen.
  - run ltac:(apply sprintf_fits; rewrite !length_append; simpl; lia).
    run ltac:(apply throw_security; simpl; eauto).
    reflexivity.
  - erewrite run_bind_undefined; [reflexivity|].
    apply sprintf_overflow. rewrite !length_append. simpl. lia.
Qed.

Lemma getpwnam_absent_name_witness :
  Java_org_mortbay_setuid_SetUID_getpwnam (Some 0%nat)
    (world process bundled [OStr "nobody"])
  = Returns None
      (mk_World process bundled [OStr "nobody"]
         (Some (security, "User nobody is not found!!!"))
         [Throw security "User nobody is not found!!!"; Call (Getpwnam "nobody")]).
Proof.
  assert (Hsec : is_Some (classes (world process bundled [OStr "nobody"]) !! security))
    by (eexists; vm_compute; reflexivity).
  destruct (getpwnam_absent_name (world process bundled [OStr "nobody"]) 0 "nobody"
              Hsec eq_refl eq_refl) as (Hshort & _).
  apply Hshort. simpl. lia.
Defined.

(** X9.  The same for group names, with the limit one byte lower: up to
    232 bytes [getgrnam] raises "Group <name> is not found!!!" and returns
    null, from 233 bytes on [sprintf] writes past the buffer. *)
Theorem getgrnam_absent_name (w : World) (sref : nat) (name : string) :
  is_Some (classes w !! security) →
  heap w !! sref = Some (OStr name) →
  db_getgrnam name (os w) = None →
  ((String.length name ≤ 232)%nat →
     Java_org_mortbay_setuid_SetUID_getgrnam (Some sref) w
     = Returns None
         (mk_World (os w) (classes w) (heap w)
            (Some (security, "Group " +:+ name +:+ " is not found!!!"))
            (Throw security ("Group " +:+ name +:+ " is not found!!!")
               :: Call (Getgrnam name) :: trace w)))
  ∧ ((233 ≤ String.length name)%nat →
     Java_org_mortbay_setuid_SetUID_getgrnam (Some sref) w
     = Undefined
         (mk_World (os w) (classes w) (heap w) (pending w)
            (Call (Getgrnam name) :: trace w))).
Proof.
  intros Hsec Hs Hdb.
  destruct w as [o cs hp p t]; simpl in *.
  unfold Java_org_mortbay_setuid_SetUID_getgrnam.
  run ltac:(unfold GetStringUTFChars; simpl; rewrite Hs; reflexivity).
  run ltac:(unfold getgrnam; simpl; rewrite Hdb; reflexivity).
  split; intros Hlen.
  - run ltac:(apply sprintf_fits; rewrite !length_append; simpl; lia).
    run ltac:(apply throw_security; simpl; eauto).
    reflexivity.
  - erewrite run_bind_undefined; [reflexivity|].
    apply sprintf_overflow. rewrite !length_append. simpl. lia.
Qed.

Lemma getgrnam_absent_name_witness :
  Java_org_mortbay_setuid_SetUID_getgrnam (Some 0%nat)
    (world process bundled [OStr "staff"])
  = Returns None
      (mk_World process bundled [OStr "staff"]
         (Some (security, "Group staff is not found!!!"))
         [Throw security "Group staff is not found!!!"; Call (Getgrnam "staff")]).
Proof.
  assert (Hsec : is_Some (classes (world process bundled [OStr "staff"]) !! security))
    by (eexists; vm_compute; reflexivity).
  destruct (getgrnam_absent_name (world process bundled [OStr "staff"]) 0 "staff"
              Hsec eq_refl eq_refl) as (Hshort & _).
  apply Hshort. simpl. lia.
Defined.

(** X10.  A numeric id that has no entry is always reported: for every
    [jint] the messages "User with uid <id> is not found!!!" and "Group
    with gid <id> is not found!!!" fit the buffer, so [getpwuid] and
    [getgrgid] make their one libc query (with the id cast to the unsigned
    type), raise the security exception carrying the id as the caller gave
    it, create no object and return null. *)
Theorem absent_id_always_reported (w : World) (id : Z) :
  is_Some (classes w !! security) →
  is_int32 id = true →
  (db_getpwuid (to_uint32 id) (os w) = None →
     Java_org_mortbay_setuid_SetUID_getpwuid id w
     = Returns None
         (mk_World (os w) (classes w) (heap w)
            (Some (security, "User with uid " +:+ fmt_d id +:+ " is not found!!!"))
            (Throw security ("User with uid " +:+ fmt_d id +:+ " is not found!!!")
               :: Call (Getpwuid (to_uint32 id)) :: trace w)))
  ∧ (db_getgrgid (to_uint32 id) (os w) = None →
     Java_org_mortbay_setuid_SetUID_getgrgid id w
     = Returns None
         (mk_World (os w) (classes w) (heap w)
            (Some (security, "Group with gid " +:+ fmt_d id +:+ " is not found!!!"))
            (Throw security ("Group with gid " +:+ fmt_d id +:+ " is not found!!!")
               :: Call (Getgrgid (to_uint32 id)) :: trace w))).
Proof.
  intros Hsec Hint. pose proof (length_fmt_d id Hint) as Hd.
  destruct w as [o cs hp p t]; simpl in *.
  split; intros Hdb.
  - unfold Java_org_mortbay_setuid_SetUID_getpwuid.
    run ltac:(unfold getpwuid; simpl; rewrite Hdb; reflexivity).
    run ltac:(apply sprintf_fits; rewrite !length_append; simpl; lia).
    run ltac:(apply throw_security; simpl; eauto).
    reflexivity.
  - unfold Java_org_mortbay_setuid_SetUID_getgrgid.
    run ltac:(unfold getgrgid; simpl; rewrite Hdb; reflexivity).
    run ltac:(apply sprintf_fits; rewrite !length_append; simpl; lia).
    run ltac:(apply throw_security; simpl; eauto).
    reflexivity.
Qed.

Lemma absent_id_always_reported_witness :
  Java_org_mortbay_setuid_SetUID_getpwuid (-2) (world process bundled [])
  = Returns None
      (mk_World process bundled []
         (Some (security, "User with uid -2 is not found!!!"))
         [Throw security "User with uid -2 is not found!!!";
          Call (Getpwuid 4294967294)]).
Proof.
  assert (Hsec : is_Some (classes (world process bundled []) !! security))
    by (eexists; vm_compute; reflexivity).
  destruct (absent_id_always_reported (world process bundled []) (-2) Hsec eq_refl)
    as (Huser & _).
  apply Huser. reflexivity.
Defined.

End NotFound.

Section ClassProblems.

Import Libc JNI.

Lemma FindClass_missing n w :
  classes w !! n = None →
  FindClass n w
  = Returns None (with_pending (Some ("java/lang/NoClassDefFoundError", n)) w).
Proof. intros H. unfold FindClass. now rewrite H. Qed.

Lemma NewObject_abstract c cd m w :
  classes w !! c = Some cd → cd_abstract cd = true →
  NewObject (Some c) (Some m) w
  = Returns None (with_pending (Some ("java/lang/InstantiationException", c)) w).
Proof. intros Hc Ha. unfold NewObject. now rewrite Hc, Ha. Qed.

(** From [FindClass] on, when the class cannot be loaded. *)
Ltac class_missing Hsec Hc :=
  run ltac:(apply FindClass_missing; exact Hc);
  run ltac:(apply throw_security; simpl; eauto);
  reflexivity.

(** From [FindClass] on, when the class cannot be instantiated. *)
Ltac class_abstract Hsec Hc Habs Hctor :=
  run ltac:(apply FindClass_found; simpl; eauto);
  run ltac:(eapply getJavaMethodId_ctor; simpl; eauto);
  run ltac:(eapply NewObject_abstract; simpl; eauto);
  run ltac:(apply throw_security; simpl; eauto);
  reflexivity.

(** X11.  When the record class cannot be loaded, every operation that
    builds a record returns early: after its libc query it raises a
    security exception naming the class, creates no object and returns
    null. *)
Theorem missing_class_reported (w : World) :
  is_Some (classes w !! security) →
  (classes w !! "org/mortbay/setuid/Passwd" = None →
     (∀ sref name pw,
        heap w !! sref = Some (OStr name) → db_getpwnam name (os w) = Some pw →
        Java_org_mortbay_setuid_SetUID_getpwnam (Some sref) w
        = Returns None
            (mk_World (os w) (classes w) (heap w)
               (Some (security, "Class: org.mortbay.setuid.Passwd is not found!!!"))
               (Throw security "Class: org.mortbay.setuid.Passwd is not found!!!"
                  :: Call (Getpwnam name) :: trace w)))
     ∧ (∀ uid pw,
          db_getpwuid (to_uint32 uid) (os w) = Some pw →
          Java_org_mortbay_setuid_SetUID_getpwuid uid w
          = Returns None
              (mk_World (os w) (classes w) (heap w)
                 (Some (security, "Class: org.mortbay.setuid.Passwd is not found!!!"))
                 (Throw security "Class: org.mortbay.setuid.Passwd is not found!!!"
                    :: Call (Getpwuid (to_uint32 uid)) :: trace w))))
  ∧ (classes w !! "org/mortbay/setuid/Group" = None →
     (∀ sref name gr,
        heap w !! sref = Some (OStr name) → db_getgrnam name (os w) = Some gr →
        Java_org_mortbay_setuid_SetUID_getgrnam (Some sref) w
        = Returns None
            (mk_World (os w) (classes w) (heap w)
               (Some (security, "Class: org.mortbay.setuid.Group is not found!!!"))
               (Throw security "Class: org.mortbay.setuid.Group is not found!!!"
                  :: Call (Getgrnam name) :: trace w)))
     ∧ (∀ gid gr,
          db_getgrgid (to_uint32 gid) (os w) = Some gr →
          Java_org_mortbay_setuid_SetUID_getgrgid gid w
          = Returns None
              (mk_World (os w) (classes w) (heap w)
                 (Some (security, "Class: org.mortbay.setuid.Group is not found!!!"))
                 (Throw security "Class: org.mortbay.setuid.Group is not found!!!"
                    :: Call (Getgrgid (to_uint32 gid)) :: trace w))))
  ∧ (classes w !! "org/mortbay/setuid/RLimit" = None →
     is_refused NR_getrlimit (os w) = false →
     Java_org_mortbay_setuid_SetUID_getrlimitnofiles w
     = Returns None
         (mk_World (os w) (classes w) (heap w)
            (Some (security, "Class: org.mortbay.setuid.RLimit is not found!!!"))
            (Throw security "Class: org.mortbay.setuid.RLimit is not found!!!"
               :: Call (Getrlimit RLIMIT_NOFILE) :: trace w))).
Proof.
  intros Hsec. destruct w as [o cs hp p t]; simpl in *.
  split; [|split].
  - intros Hc. split.
    + intros sref name pw Hs Hdb.
      unfold Java_org_mortbay_setuid_SetUID_getpwnam.
      run ltac:(unfold GetStringUTFChars; simpl; rewrite Hs; reflexivity).
      run ltac:(unfold getpwnam; simpl; rewrite Hdb; reflexivity).
      run ltac:(reflexivity).
      class_missing Hsec Hc.
    + intros uid pw Hdb.
      unfold Java_org_mortbay_setuid_SetUID_getpwuid.
      run ltac:(unfold getpwuid; simpl; rewrite Hdb; reflexivity).
      class_missing Hsec Hc.
  - intros Hc. split.
    + intros sref name gr Hs Hdb.
      unfold Java_org_mortbay_setuid_SetUID_getgrnam.
      run ltac:(unfold GetStringUTFChars; simpl; rewrite Hs; reflexivity).
      run ltac:(unfold getgrnam; simpl; rewrite Hdb; reflexivity).
      run ltac:(reflexivity).
      class_missing Hsec Hc.
    + intros gid gr Hdb.
      unfold Java_org_mortbay_setuid_SetUID_getgrgid.
      run ltac:(unfold getgrgid; simpl; rewrite Hdb; reflexivity).
      class_missing Hsec Hc.
  - intros Hc Hsys.
    unfold Java_org_mortbay_setuid_SetUID_getrlimitnofiles.
    run ltac:(unfold getrlimit, sys_getrlimit; simpl; rewrite Hsys; reflexivity).
    cbn [Z.ltb Z.compare].
    class_missing Hsec Hc.
Qed.

Lemma missing_class_reported_witness :
  Java_org_mortbay_setuid_SetUID_getrlimitnofiles
    (world process (delete "org/mortbay/setuid/RLimit" bundled) [])
  = Returns None
      (mk_World process (delete "org/mortbay/setuid/RLimit" bundled) []
         (Some (security, "Class: org.mortbay.setuid.RLimit is not found!!!"))
         [Throw security "Class: org.mortbay.setuid.RLimit is not found!!!";
          Call (Getrlimit RLIMIT_NOFILE)]).
Proof.
  assert (Hsec : is_Some (classes (world process
                    (delete "org/mortbay/setuid/RLimit" bundled) []) !! security))
    by (eexists; vm_compute; reflexivity).
  destruct (missing_class_reported
              (world process (delete "org/mortbay/setuid/RLimit" bundled) []) Hsec)
    as (_ & _ & Hlimit).
  apply Hlimit; vm_compute; reflexivity.
Defined.

(** X12.  When the record class is there with its no-argument
    constructor but cannot be instantiated, [NewObject] comes back null
    and every operation that builds a record returns early: it raises the
    security exception "Object Construction ..." for the class, creates no
    object and returns null. *)
Theorem failed_construction_reported (w : World) (cd : classdef) :
  is_Some (classes w !! security) →
  cd_abstract cd = true →
  In ("<init>", "()V") (cd_methods cd) →
  (classes w !! "org/mortbay/setuid/Passwd" = Some cd →
     (∀ sref name pw,
        heap w !! sref = Some (OStr name) → db_getpwnam name (os w) = Some pw →
        Java_org_mortbay_setuid_SetUID_getpwnam (Some sref) w
        = Returns None
            (mk_World (os w) (classes w) (heap w)
               (Some (security,
                      "Object Construction error of Class: org.mortbay.setuid.Passwd!!!"))
               (Throw security
                  "Object Construction error of Class: org.mortbay.setuid.Passwd!!!"
                  :: Call (Getpwnam name) :: trace w)))
     ∧ (∀ uid pw,
          db_getpwuid (to_uint32 uid) (os w) = Some pw →
          Java_org_mortbay_setuid_SetUID_getpwuid uid w
          = Returns None
              (mk_World (os w) (classes w) (heap w)
                 (Some (security,
                        "Object Construction error of Class: org.mortbay.setuid.Passwd!!!"))
                 (Throw security
                    "Object Construction error of Class: org.mortbay.setuid.Passwd!!!"
                    :: Call (Getpwuid (to_uint32 uid)) :: trace w))))
  ∧ (classes w !! "org/mortbay/setuid/Group" = Some cd →
     (∀ sref name gr,
        heap w !! sref = Some (OStr name) → db_getgrnam name (os w) = Some gr →
        Java_org_mortbay_setuid_SetUID_getgrnam (Some sref) w
        = Returns None
            (mk_World (os w) (classes w) (heap w)
               (Some (security,
                      "Object Construction error of Class: org.mortbay.setuid.Group!!!"))
               (Throw security
                  "Object Construction error of Class: org.mortbay.setuid.Group!!!"
                  :: Call (Getgrnam name) :: trace w)))
     ∧ (∀ gid gr,
          db_getgrgid (to_uint32 gid) (os w) = Some gr →
          Java_org_mortbay_setuid_SetUID_getgrgid gid w
          = Returns None
              (mk_World (os w) (classes w) (heap w)
                 (Some (security,
                        "Object Construction Error of Class: org.mortbay.setuid.Group!!!"))
                 (Throw security
                    "Object Construction Error of Class: org.mortbay.setuid.Group!!!"
                    :: Call (Getgrgid (to_uint32 gid)) :: trace w))))
  ∧ (classes w !! "org/mortbay/setuid/RLimit" = Some cd →
     is_refused NR_getrlimit (os w) = false →
     Java_org_mortbay_setuid_SetUID_getrlimitnofiles w
     = Returns None
         (mk_World (os w) (classes w) (heap w)
            (Some (security,
                   "Object Construction Error of Class: org.mortbay.setuid.RLimit!!!"))
            (Throw security
               "Object Construction Error of Class: org.mortbay.setuid.RLimit!!!"
               :: Call (Getrlimit RLIMIT_NOFILE) :: trace w))).
Proof.
  intros Hsec Habs Hin.
  assert (Hctor : existsb (λ m, String.eqb m.1 "<init>" && String.eqb m.2 "()V")
                    (cd_methods cd) = true).
  { rewrite existsb_exists. exists ("<init>", "()V"). split; [exact Hin | reflexivity]. }
  destruct w as [o cs hp p t]; simpl in *.
  split; [|split].
  - intros Hc. split.
    + intros sref name pw Hs Hdb.
      unfold Java_org_mortbay_setuid_SetUID_getpwnam.
      run ltac:(unfold GetStringUTFChars; simpl; rewrite Hs; reflexivity).
      run ltac:(unfold getpwnam; simpl; rewrite Hdb; reflexivity).
      run ltac:(reflexivity).
      class_abstract Hsec Hc Habs Hctor.
    + intros uid pw Hdb.
      unfold Java_org_mortbay_setuid_SetUID_getpwuid.
      run ltac:(unfold getpwuid; simpl; rewrite Hdb; reflexivity).
      class_abstract Hsec Hc Habs Hctor.
  - intros Hc. split.
    + intros sref name gr Hs Hdb.
      unfold Java_org_mortbay_setuid_SetUID_getgrnam.
      run ltac:(unfold GetStringUTFChars; simpl; rewrite Hs; reflexivity).
      run ltac:(unfold getgrnam; simpl; rewrite Hdb; reflexivity).
      run ltac:(reflexivity).
      class_abstract Hsec Hc Habs Hctor.
    + intros gid gr Hdb.
      unfold Java_org_mortbay_setuid_SetUID_getgrgid.
      run ltac:(unfold getgrgid; simpl; rewrite Hdb; reflexivity).
      class_abstract Hsec Hc Habs Hctor.
  - intros Hc Hsys.
    unfold Java_org_mortbay_setuid_SetUID_getrlimitnofiles.
    run ltac:(unfold getrlimit, sys_getrlimit; simpl; rewrite Hsys; reflexivity).
    cbn [Z.ltb Z.compare].
    class_abstract Hsec Hc Habs Hctor.
Qed.

Lemma failed_construction_reported_witness :
  Java_org_mortbay_setuid_SetUID_getgrgid 10
    (world process
       (<["org/mortbay/setuid/Group" :=
            mk_classdef true [("<init>", "()V")] (list_to_map group_fields)]> bundled) [])
  = Returns None
      (mk_World process
         (<["org/mortbay/setuid/Group" :=
              mk_classdef true [("<init>", "()V")] (list_to_map group_fields)]> bundled)
         []
         (Some (security,
                "Object Construction Error of Class: org.mortbay.setuid.Group!!!"))
         [Throw security "Object Construction Error of Class: org.mortbay.setuid.Group!!!";
          Call (Getgrgid 10)]).
Proof.
  assert (Hsec : is_Some (classes (world process
                    (<["org/mortbay/setuid/Group" :=
                         mk_classdef true [("<init>", "()V")] (list_to_map group_fields)]>
                       bundled) []) !! security))
    by (eexists; vm_compute; reflexivity).
  destruct (failed_construction_reported
              (world process
                 (<["org/mortbay/setuid/Group" :=
                      mk_classdef true [("<init>", "()V")] (list_to_map group_fields)]>
                    bundled) [])
              (mk_classdef true [("<init>", "()V")] (list_to_map group_fields))
              Hsec eq_refl ltac:(left; reflexivity))
    as (_ & Hgroup & _).
  destruct (Hgroup ltac:(vm_compute; reflexivity)) as (_ & Hgid).
  exact (Hgid 10 _ eq_refl).
Defined.

End ClassProblems.

(** The part the two group lookups share, from [FindClass] to the gid,
    on a class that need not have the member field. *)
Ltac group_head Hsec Hc Habs Hctor Hf :=
  run ltac:(apply FindClass_found; simpl; eauto);
  run ltac:(eapply getJavaMethodId_ctor; simpl; eauto);
  run ltac:(eapply NewObject_fresh; simpl; eauto);
  cbn [gr_name gr_passwd gr_gid gr_mem group_of_entry ge_name ge_passwd ge_gid ge_members
       fmap option_fmap option_map];
  set_string Hc Hf; set_string Hc Hf; set_int Hc Hf.

(** The member array, up to the lookup of the member field that fails. *)
Ltac members_unbound Hsec Hstr Hc Hmem m ms :=
  erewrite run_bind_undefined; [reflexivity|];
  run ltac:(apply (scan_members_terminated (m :: ms) 0));
  cbn [Nat.ltb Nat.leb];
  run ltac:(apply FindClass_found; simpl; eauto);
  run ltac:(unfold JNI.NewStringUTF; eapply alloc_middle; simpl; reflexivity);
  run ltac:(unfold JNI.NewObjectArray; eapply alloc_middle; simpl; reflexivity);
  run ltac:(apply (copy_members_all (m :: ms) _ _ [_; _; _]));
  cbn [fmap list_fmap];
  run ltac:(eapply GetFieldID_missing; [simpl; exact Hc | exact Hmem]);
  run ltac:(apply throw_security; simpl; eauto);
  reflexivity.

Section MemberField.

Import Libc JNI.

Lemma unbound_members_readable o cs hp p t c F n pwd m ms :
  array_strings
    (mk_World o cs
       (hp ++ OInst c F :: OStr n :: OStr pwd :: OStr ""
           :: OArr (refs_from (length hp + 5) (S (length ms)))
           :: OStr m :: (OStr <$> ms)) p t)
    (length hp + 4)
  = Some (m :: ms).
Proof.
  set (w' := mk_World o cs _ p t).
  assert (Harr : heap w' !! (length hp + 4)%nat
                 = Some (OArr (refs_from (length hp + 5) (S (length ms)))))
    by (unfold w'; cbn [heap]; now rewrite lookup_past_middle).
  unfold array_strings. rewrite Harr.
  apply (mapM_string_at w' (m :: ms)). intros k s Hk.
  unfold w'; cbn [heap].
  replace (length hp + 5 + k)%nat with (length hp + S (4 + k))%nat by lia.
  rewrite lookup_past_middle. simpl.
  change (OStr m :: (OStr <$> ms)) with (OStr <$> (m :: ms)).
  now rewrite list_lookup_fmap, Hk.
Qed.

(** X13.  The member field is only looked up for a group that has
    members.  On a [Group] class without a [String[]] field [_grMem],
    [getgrgid] of a group without members succeeds and raises nothing;
    for a group with members it builds the string array, then raises the
    security exception for the field and passes the null field id to
    [SetObjectField]: the array is never bound. *)
Theorem getgrgid_member_field_only_if_members (w : World) (gid : Z)
    (e : group_entry) (cd : classdef) :
  is_Some (classes w !! security) →
  is_Some (classes w !! "java/lang/String") →
  declares (classes w) "org/mortbay/setuid/Group"
    [("_grName", jstring); ("_grPasswd", jstring); ("_grGid", "I")] = true →
  classes w !! "org/mortbay/setuid/Group" = Some cd →
  cd_fields cd !! "_grMem" ≠ Some "[Ljava/lang/String;" →
  find (λ g, ge_gid g =? to_uint32 gid) (group_db (os w)) = Some e →
  match ge_members e with
  | Some (m :: ms) =>
      ∃ w',
        Java_org_mortbay_setuid_SetUID_getgrgid gid w = Undefined w'
        ∧ pending w'
          = Some (security, "Java Object Field is not found: String _grMem!!!")
        ∧ field_string w' (length (heap w)) "_grName" = Some (ge_name e)
        ∧ array_strings w' (length (heap w) + 4) = Some (m :: ms)
  | _ =>
      ∃ w',
        Java_org_mortbay_setuid_SetUID_getgrgid gid w
        = Returns (Some (length (heap w))) w'
        ∧ pending w' = pending w
        ∧ trace w' = Call (Getgrgid (to_uint32 gid)) :: trace w
        ∧ field_string w' (length (heap w)) "_grName" = Some (ge_name e)
        ∧ field_string w' (length (heap w)) "_grPasswd" = Some (ge_passwd e)
        ∧ field_int w' (length (heap w)) "_grGid" = Some (to_int32 (ge_gid e))
  end.
Proof.
  intros Hsec Hstr Hdecl Hcd Hmem Hdb.
  apply declares_inv in Hdecl as (cd' & Hc & Habs & Hctor & Hf).
  assert (cd' = cd) as -> by congruence.
  destruct w as [o cs hp p t]; simpl in *.
  unfold Java_org_mortbay_setuid_SetUID_getgrgid.
  destruct e as [n pwd g [[|m ms]|]]; cbn [ge_members ge_name ge_passwd ge_gid];
    eexists; (split; [
      run ltac:(unfold getgrgid, db_getgrgid; simpl; rewrite Hdb; simpl; reflexivity);
      group_head Hsec Hc Habs Hctor Hf |]).
  - erewrite run_bind;
      [| run ltac:(apply (scan_members_terminated [] 0)); reflexivity].
    tidy. reflexivity.
  - cbn [pending trace]. repeat split.
    + eapply (field_string_built _ _ _ _ _ "_grName" 0); [reflexivity|read_map|reflexivity].
    + eapply (field_string_built _ _ _ _ _ "_grPasswd" 1); [reflexivity|read_map|reflexivity].
    + eapply (field_int_built _ _ _ _ _ "_grGid"); [reflexivity|read_map].
  - members_unbound Hsec Hstr Hc Hmem m ms.
  - cbn [pending]. split; [reflexivity|]. split.
    + eapply (field_string_built _ _ _ _ _ "_grName" 0); [reflexivity|read_map|reflexivity].
    + apply unbound_members_readable.
  - run ltac:(reflexivity). reflexivity.
  - cbn [pending trace]. repeat split.
    + eapply (field_string_built _ _ _ _ _ "_grName" 0); [reflexivity|read_map|reflexivity].
    + eapply (field_string_built _ _ _ _ _ "_grPasswd" 1); [reflexivity|read_map|reflexivity].
    + eapply (field_int_built _ _ _ _ _ "_grGid"); [reflexivity|read_map].
Qed.

Lemma getgrgid_member_field_only_if_members_witness :
  ∃ w',
    Java_org_mortbay_setuid_SetUID_getgrgid 1001
      (world process
         (<["org/mortbay/setuid/Group" :=
              record_class [("_grName", jstring); ("_grPasswd", jstring); ("_grGid", "I")]]>
            bundled) [])
    = Returns (Some 0%nat) w'
    ∧ field_int w' 0 "_grGid" = Some 1001.
Proof.
  assert (Hsec : is_Some (classes (world process
                    (<["org/mortbay/setuid/Group" :=
                         record_class [("_grName", jstring); ("_grPasswd", jstring);
                                       ("_grGid", "I")]]> bundled) []) !! security))
    by (eexists; vm_compute; reflexivity).
  assert (Hstr : is_Some (classes (world process
                    (<["org/mortbay/setuid/Group" :=
                         record_class [("_grName", jstring); ("_grPasswd", jstring);
                                       ("_grGid", "I")]]> bundled) [])
                    !! "java/lang/String"))
    by (eexists; vm_compute; reflexivity).
  assert (Hc : classes (world process
                  (<["org/mortbay/setuid/Group" :=
                       record_class [("_grName", jstring); ("_grPasswd", jstring);
                                     ("_grGid", "I")]]> bundled) [])
                 !! "org/mortbay/setuid/Group"
               = Some (record_class [("_grName", jstring); ("_grPasswd", jstring);
                                     ("_grGid", "I")]))
    by (vm_compute; reflexivity).
  destruct (getgrgid_member_field_only_if_members _ 1001
              (mk_group_entry "jetty" "x" 1001 (Some [])) _
              Hsec Hstr eq_refl Hc ltac:(vm_compute; discriminate) eq_refl)
    as (w' & Hrun & _ & _ & _ & _ & Hgid).
  exists w'. split; [exact Hrun | exact Hgid].
Defined.

(** X14.  The same by name.  On a [Group] class without a [String[]] field [_grMem],
    [getgrnam] of a group without members succeeds and raises nothing;
    for a group with members it builds the string array, then raises the
    security exception for the field and passes the null field id to
    [SetObjectField]: the array is never bound. *)
Theorem getgrnam_member_field_only_if_members (w : World) (sref : nat)
    (name : string) (e : group_entry) (cd : classdef) :
  is_Some (classes w !! security) →
  is_Some (classes w !! "java/lang/String") →
  declares (classes w) "org/mortbay/setuid/Group"
    [("_grName", jstring); ("_grPasswd", jstring); ("_grGid", "I")] = true →
  classes w !! "org/mortbay/setuid/Group" = Some cd →
  cd_fields cd !! "_grMem" ≠ Some "[Ljava/lang/String;" →
  heap w !! sref = Some (OStr name) →
  find (λ g, String.eqb (ge_name g) name) (group_db (os w)) = Some e →
  match ge_members e with
  | Some (m :: ms) =>
      ∃ w',
        Java_org_mortbay_setuid_SetUID_getgrnam (Some sref) w = Undefined w'
        ∧ pending w'
          = Some (security, "Class: Java Object Field is not found: String[] _grMem!!!")
        ∧ field_string w' (length (heap w)) "_grName" = Some (ge_name e)
        ∧ array_strings w' (length (heap w) + 4) = Some (m :: ms)
  | _ =>
      ∃ w',
        Java_org_mortbay_setuid_SetUID_getgrnam (Some sref) w
        = Returns (Some (length (heap w))) w'
        ∧ pending w' = pending w
        ∧ trace w' = Call (Getgrnam name) :: trace w
        ∧ field_string w' (length (heap w)) "_grName" = Some (ge_name e)
        ∧ field_string w' (length (heap w)) "_grPasswd" = Some (ge_passwd e)
        ∧ field_int w' (length (heap w)) "_grGid" = Some (to_int32 (ge_gid e))
  end.
Proof.
  intros Hsec Hstr Hdecl Hcd Hmem Hs Hdb.
  apply declares_inv in Hdecl as (cd' & Hc & Habs & Hctor & Hf).
  assert (cd' = cd) as -> by congruence.
  destruct w as [o cs hp p t]; simpl in *.
  unfold Java_org_mortbay_setuid_SetUID_getgrnam.
  destruct e as [n pwd g [[|m ms]|]]; cbn [ge_members ge_name ge_passwd ge_gid];
    eexists; (split; [
      run ltac:(unfold GetStringUTFChars; simpl; rewrite Hs; reflexivity);
      run ltac:(unfold getgrnam, db_getgrnam; simpl; rewrite Hdb; simpl; reflexivity);
      run ltac:(reflexivity);
      group_head Hsec Hc Habs Hctor Hf |]).
  - erewrite run_bind;
      [| run ltac:(apply (scan_members_terminated [] 0)); reflexivity].
    tidy. reflexivity.
  - cbn [pending trace]. repeat split.
    + eapply (field_string_built _ _ _ _ _ "_grName" 0); [reflexivity|read_map|reflexivity].
    + eapply (field_string_built _ _ _ _ _ "_grPasswd" 1); [reflexivity|read_map|reflexivity].
    + eapply (field_int_built _ _ _ _ _ "_grGid"); [reflexivity|read_map].
  - members_unbound Hsec Hstr Hc Hmem m ms.
  - cbn [pending]. split; [reflexivity|]. split.
    + eapply (field_string_built _ _ _ _ _ "_grName" 0); [reflexivity|read_map|reflexivity].
    + apply unbound_members_readable.
  - run ltac:(reflexivity). reflexivity.
  - cbn [pending trace]. repeat split.
    + eapply (field_string_built _ _ _ _ _ "_grName" 0); [reflexivity|read_map|reflexivity].
    + eapply (field_string_built _ _ _ _ _ "_grPasswd" 1); [reflexivity|read_map|reflexivity].
    + eapply (field_int_built _ _ _ _ _ "_grGid"); [reflexivity|read_map].
Qed.

Lemma getgrnam_member_field_only_if_members_witness :
  ∃ w',
    Java_org_mortbay_setuid_SetUID_getgrnam (Some 0%nat)
      (world process
         (<["org/mortbay/setuid/Group" :=
              record_class [("_grName", jstring); ("_grPasswd", jstring); ("_grGid", "I")]]>
            bundled) [OStr "wheel"])
    = Undefined w'
    ∧ array_strings w' 5 = Some ["root"; "jetty"].
Proof.
  assert (Hsec : is_Some (classes (world process
                    (<["org/mortbay/setuid/Group" :=
                         record_class [("_grName", jstring); ("_grPasswd", jstring);
                                       ("_grGid", "I")]]> bundled) [OStr "wheel"])
                    !! security))
    by (eexists; vm_compute; reflexivity).
  assert (Hstr : is_Some (classes (world process
                    (<["org/mortbay/setuid/Group" :=
                         record_class [("_grName", jstring); ("_grPasswd", jstring);
                                       ("_grGid", "I")]]> bundled) [OStr "wheel"])
                    !! "java/lang/String"))
    by (eexists; vm_compute; reflexivity).
  assert (Hc : classes (world process
                  (<["org/mortbay/setuid/Group" :=
                       record_class [("_grName", jstring); ("_grPasswd", jstring);
                                     ("_grGid", "I")]]> bundled) [OStr "wheel"])
                 !! "org/mortbay/setuid/Group"
               = Some (record_class [("_grName", jstring); ("_grPasswd", jstring);
                                     ("_grGid", "I")]))
    by (vm_compute; reflexivity).
  destruct (getgrnam_member_field_only_if_members _ 0 "wheel"
              (mk_group_entry "wheel" "x" 10 (Some ["root"; "jetty"])) _
              Hsec Hstr eq_refl Hc ltac:(vm_compute; discriminate) eq_refl eq_refl)
    as (w' & Hrun & _ & _ & Harr).
  exists w'. split; [exact Hrun | exact Harr].
Defined.

End MemberField.

(** ** Operations one after the other *)
Section Composition.

Import Libc JNI.

Lemma field_string_extends w w' r n s :
  (∃ fresh, heap w' = heap w ++ fresh) →
  field_string w r n = Some s → field_string w' r n = Some s.
Proof.
  intros [fresh Hh]. unfold field_string, get_field, string_at. rewrite Hh.
  destruct (heap w !! r) as [[c flds| |]|] eqn:Er; try discriminate.
  rewrite (lookup_app_l_Some _ _ _ _ Er).
  destruct (flds !! n) as [[z|[a|]]|]; try discriminate.
  destruct (heap w !! a) as [[| s'|]|] eqn:Ea; try discriminate.
  now rewrite (lookup_app_l_Some _ _ _ _ Ea).
Qed.

Lemma field_int_extends w w' r n z :
  (∃ fresh, heap w' = heap w ++ fresh) →
  field_int w r n = Some z → field_int w' r n = Some z.
Proof.
  intros [fresh Hh]. unfold field_int, get_field. rewrite Hh.
  destruct (heap w !! r) as [[c flds| |]|] eqn:Er; try discriminate.
  now rewrite (lookup_app_l_Some _ _ _ _ Er).
Qed.

Lemma read_passwd_inv w r v :
  read_passwd w r = Some v →
  field_string w r "_pwName" = Some (pw_name v)
  ∧ field_string w r "_pwPasswd" = Some (pw_passwd v)
  ∧ field_int w r "_pwUid" = Some (pw_uid v)
  ∧ field_int w r "_pwGid" = Some (pw_gid v)
  ∧ field_string w r "_pwGecos" = Some (pw_gecos v)
  ∧ field_string w r "_pwDir" = Some (pw_dir v)
  ∧ field_string w r "_pwShell" = Some (pw_shell v).
Proof.
  unfold read_passwd. intros H.
  destruct (field_string w r "_pwName"); [|discriminate].
  destruct (field_string w r "_pwPasswd"); [|discriminate].
  destruct (field_int w r "_pwUid"); [|discriminate].
  destruct (field_int w r "_pwGid"); [|discriminate].
  destruct (field_string w r "_pwGecos"); [|discriminate].
  destruct (field_string w r "_pwDir"); [|discriminate].
  destruct (field_string w r "_pwShell"); [|discriminate].
  simpl in H. inversion H. simpl. auto 10.
Qed.

Lemma read_passwd_extends w w' r v :
  (∃ fresh, heap w' = heap w ++ fresh) →
  read_passwd w r = Some v → read_passwd w' r = Some v.
Proof.
  intros Hext H. apply read_passwd_inv in H as (H1 & H2 & H3 & H4 & H5 & H6 & H7).
  unfold read_passwd.
  rewrite (field_string_extends _ _ _ _ _ Hext H1), (field_string_extends _ _ _ _ _ Hext H2),
    (field_int_extends _ _ _ _ _ Hext H3), (field_int_extends _ _ _ _ _ Hext H4),
    (field_string_extends _ _ _ _ _ Hext H5), (field_string_extends _ _ _ _ _ Hext H6),
    (field_string_extends _ _ _ _ _ Hext H7).
  now destruct v.
Qed.

Lemma to_uint32_int32 z : to_uint32 (to_int32 z) = to_uint32 z.
Proof.
  unfold to_uint32, to_int32.
  rewrite Zminus_mod_idemp_l. f_equal. lia.
Qed.

Lemma to_uint32_idem z : to_uint32 (to_uint32 z) = to_uint32 z.
Proof. unfold to_uint32. apply Zmod_mod. Qed.

Lemma to_int32_is_int32 z : is_int32 (to_int32 z) = true.
Proof.
  pose proof (to_int32_range z). unfold is_int32.
  apply andb_true_intro. split; apply Z.leb_le; lia.
Qed.

(** X15.  No record is shared or reused: a user lookup by name followed
    by one by id returns two different objects, neither of which existed
    before its call; in the final heap each reads as its own entry, and
    every object that was there before the two calls is still there
    unchanged. *)
Theorem successive_lookups_build_separate_records (w : World) (sref : nat)
    (name : string) (uid : Z) (pw1 pw2 : passwd) :
  host_ok (classes w) = true →
  heap w !! sref = Some (OStr name) →
  db_getpwnam name (os w) = Some pw1 →
  db_getpwuid (to_uint32 uid) (os w) = Some pw2 →
  ∃ r1 w1 r2 w2,
    Java_org_mortbay_setuid_SetUID_getpwnam (Some sref) w = Returns (Some r1) w1
    ∧ Java_org_mortbay_setuid_SetUID_getpwuid uid w1 = Returns (Some r2) w2
    ∧ r1 ≠ r2
    ∧ heap w !! r1 = None ∧ heap w1 !! r2 = None
    ∧ read_passwd w2 r1 = Some (java_passwd pw1)
    ∧ read_passwd w2 r2 = Some (java_passwd pw2)
    ∧ (∀ i o, heap w !! i = Some o → heap w2 !! i = Some o).
Proof.
  intros Hok Hs Hn Hu.
  destruct (getpwnam_found w sref name pw1 Hok Hs Hn)
    as (w1 & H1 & Hos1 & Hcs1 & _ & _ & [f1 Hh1] & R1).
  rewrite <- Hcs1 in Hok. rewrite <- Hos1 in Hu.
  destruct (getpwuid_found w1 uid pw2 Hok Hu)
    as (w2 & H2 & _ & _ & _ & _ & [f2 Hh2] & R2).
  assert (Hf1 : f1 ≠ []).
  { intros ->. rewrite app_nil_r in Hh1. unfold read_passwd, field_string, get_field in R1.
    rewrite Hh1, lookup_ge_None_2 in R1 by lia. discriminate R1. }
  exists (length (heap w)), w1, (length (heap w1)), w2.
  split; [exact H1|]. split; [exact H2|].
  split; [rewrite Hh1, length_app; destruct f1; [congruence | simpl; lia]|].
  split; [apply lookup_ge_None_2; lia|].
  split; [apply lookup_ge_None_2; lia|].
  split; [apply (read_passwd_extends w1); eauto|].
  split; [exact R2|].
  intros i o Hi. rewrite Hh2, Hh1.
  apply lookup_app_l_Some, lookup_app_l_Some, Hi.
Qed.

Lemma successive_lookups_build_separate_records_witness :
  ∃ r1 w1 r2 w2,
    Java_org_mortbay_setuid_SetUID_getpwnam (Some 0%nat)
      (world process bundled [OStr "jetty"]) = Returns (Some r1) w1
    ∧ Java_org_mortbay_setuid_SetUID_getpwuid 0 w1 = Returns (Some r2) w2
    ∧ r1 ≠ r2
    ∧ field_string w2 r1 "_pwName" = Some "jetty"
    ∧ field_string w2 r2 "_pwName" = Some "root".
Proof.
  destruct (successive_lookups_build_separate_records
              (world process bundled [OStr "jetty"]) 0 "jetty" 0
              (mk_passwd "jetty" "x" 1001 1001 "Jetty" "/opt/jetty" "/bin/false")
              (mk_passwd "root" "x" 0 0 "root" "/root" "/bin/sh")
              eq_refl eq_refl eq_refl eq_refl)
    as (r1 & w1 & r2 & w2 & H1 & H2 & Hne & _ & _ & R1 & R2 & _).
  exists r1, w1, r2, w2. split; [exact H1|]. split; [exact H2|]. split; [exact Hne|].
  apply read_passwd_inv in R1 as (R1 & _). apply read_passwd_inv in R2 as (R2 & _).
  split; [exact R1 | exact R2].
Defined.

(** X16.  The numeric id stored in a record leads back to the entry: the
    [_pwUid] of the record [getpwuid] returns is a Java [int] (negative
    for ids from 2^31 on), and [getpwuid] of that [int] finds the same
    entry again; likewise for [_grGid] and [getgrgid]. *)
Theorem record_id_finds_the_entry_again (w : World) (id : Z) :
  host_ok (classes w) = true →
  (∀ pw,
     db_getpwuid (to_uint32 id) (os w) = Some pw →
     ∃ r1 w1 jid r2 w2,
       Java_org_mortbay_setuid_SetUID_getpwuid id w = Returns (Some r1) w1
       ∧ field_int w1 r1 "_pwUid" = Some jid
       ∧ jid = to_int32 (to_uint32 id) ∧ is_int32 jid = true
       ∧ Java_org_mortbay_setuid_SetUID_getpwuid jid w1 = Returns (Some r2) w2
       ∧ read_passwd w2 r2 = Some (java_passwd pw))
  ∧ (∀ e,
       find (λ g, ge_gid g =? to_uint32 id) (group_db (os w)) = Some e →
       ∃ r1 w1 jid r2 w2,
         Java_org_mortbay_setuid_SetUID_getgrgid id w = Returns (Some r1) w1
         ∧ field_int w1 r1 "_grGid" = Some jid
         ∧ jid = to_int32 (to_uint32 id) ∧ is_int32 jid = true
         ∧ Java_org_mortbay_setuid_SetUID_getgrgid jid w1 = Returns (Some r2) w2
         ∧ read_group w2 r2 = Some (java_group e)).
Proof.
  intros Hok. split.
  - intros pw Hdb.
    assert (Hid : pw_uid pw = to_uint32 id).
    { unfold db_getpwuid in Hdb. apply find_some in Hdb as [_ H]. now apply Z.eqb_eq in H. }
    destruct (getpwuid_found w id pw Hok Hdb)
      as (w1 & H1 & Hos1 & Hcs1 & _ & _ & _ & R1).
    assert (Hdb' : db_getpwuid (to_uint32 (to_int32 (to_uint32 id))) (os w1) = Some pw)
      by (rewrite to_uint32_int32, to_uint32_idem, Hos1; exact Hdb).
    rewrite <- Hcs1 in Hok.
    destruct (getpwuid_found w1 _ pw Hok Hdb') as (w2 & H2 & _ & _ & _ & _ & _ & R2).
    apply read_passwd_inv in R1 as (_ & _ & Hu & _).
    exists (length (heap w)), w1, (to_int32 (to_uint32 id)), (length (heap w1)), w2.
    split; [exact H1|]. split; [simpl in Hu; now rewrite Hid in Hu|].
    split; [reflexivity|]. split; [apply to_int32_is_int32|].
    split; [exact H2 | exact R2].
  - intros e Hdb.
    assert (Hid : ge_gid e = to_uint32 id).
    { apply find_some in Hdb as [_ H]. now apply Z.eqb_eq in H. }
    destruct (getgrgid_found w id e Hok Hdb)
      as (w1 & H1 & Hos1 & Hcs1 & _ & _ & _ & R1 & _).
    assert (Hdb' : find (λ g, ge_gid g =? to_uint32 (to_int32 (to_uint32 id)))
                     (group_db (os w1)) = Some e)
      by (rewrite to_uint32_int32, to_uint32_idem, Hos1; exact Hdb).
    rewrite <- Hcs1 in Hok.
    destruct (getgrgid_found w1 _ e Hok Hdb') as (w2 & H2 & _ & _ & _ & _ & _ & R2 & _).
    exists (length (heap w)), w1, (to_int32 (to_uint32 id)), (length (heap w1)), w2.
    split; [exact H1|]. split.
    { unfold read_group in R1.
      destruct (field_string w1 (length (heap w)) "_grName"); [|discriminate].
      destruct (field_string w1 (length (heap w)) "_grPasswd"); [|discriminate].
      destruct (field_int w1 (length (heap w)) "_grGid") as [g|]; [|discriminate].
      destruct (read_members w1 (length (heap w))); [|discriminate].
      simpl in R1. inversion R1. now rewrite Hid. }
    split; [reflexivity|]. split; [apply to_int32_is_int32|].
    split; [exact H2 | exact R2].
Qed.

Lemma record_id_finds_the_entry_again_witness :
  ∃ r1 w1 r2 w2,
    Java_org_mortbay_setuid_SetUID_getpwuid 1001 (world process bundled [])
    = Returns (Some r1) w1
    ∧ field_int w1 r1 "_pwUid" = Some 1001
    ∧ Java_org_mortbay_setuid_SetUID_getpwuid 1001 w1 = Returns (Some r2) w2
    ∧ field_string w2 r2 "_pwName" = Some "jetty".
Proof.
  destruct (record_id_finds_the_entry_again (world process bundled []) 1001 eq_refl)
    as (Huser & _).
  destruct (Huser (mk_passwd "jetty" "x" 1001 1001 "Jetty" "/opt/jetty" "/bin/false")
              eq_refl)
    as (r1 & w1 & jid & r2 & w2 & H1 & Hf & -> & _ & H2 & R2).
  exists r1, w1, r2, w2. split; [exact H1|]. split; [exact Hf|]. split; [exact H2|].
  apply read_passwd_inv in R2 as (R2 & _). exact R2.
Defined.

End Composition.

(** ** What the lookups never do *)
Section Emits.

Import Libc JNI.

Lemma emits_silent {A} (P : event → Prop) (m : M A) :
  (∀ w, trace (final (m w)) = trace w) → emits P m.
Proof. intros H w. exists []. split; [apply H | constructor]. Qed.

Lemma emits_ret {A} (P : event → Prop) (a : A) : emits P (mret a : M A).
Proof. now apply emits_silent. Qed.

Lemma emits_bind {A B} (P : event → Prop) (m : M A) (f : A → M B) :
  emits P m → (∀ a, emits P (f a)) → emits P (m ≫= f).
Proof.
  intros Hm Hf w. destruct (Hm w) as (evs1 & H1 & F1).
  unfold mbind, M_bind. destruct (m w) as [a w1|w1]; simpl in *.
  - destruct (Hf a w1) as (evs2 & H2 & F2).
    exists (evs2 ++ evs1). split; [now rewrite H2, H1, app_assoc|].
    now apply Forall_app.
  - eauto.
Qed.

Lemma emits_undefined {A} (P : event → Prop) : emits P (undefined : M A).
Proof. now apply emits_silent. Qed.

Lemma emits_sprintf P n s : emits P (sprintf n s).
Proof.
  apply emits_silent. intros w. unfold sprintf.
  now destruct (String.length s <? n)%nat.
Qed.

Lemma emits_FindClass P n : emits P (FindClass n).
Proof.
  apply emits_silent. intros w. unfold FindClass. now destruct (classes w !! n).
Qed.

Lemma emits_GetStringUTFChars P s : emits P (GetStringUTFChars s).
Proof.
  apply emits_silent. intros w. unfold GetStringUTFChars.
  destruct s as [r|]; [|reflexivity]. now destruct (heap w !! r) as [[]|].
Qed.

Lemma emits_GetMethodID P c n s : emits P (GetMethodID c n s).
Proof.
  apply emits_silent. intros w. unfold GetMethodID.
  destruct c as [c|]; [|reflexivity].
  destruct (classes w !! c) as [cd|]; [|reflexivity]. now destruct (existsb _ _).
Qed.

Lemma emits_NewObject P c m : emits P (NewObject c m).
Proof.
  apply emits_silent. intros w. unfold NewObject.
  destruct c as [c|], m as [m|]; try reflexivity.
  destruct (classes w !! c) as [cd|]; [|reflexivity]. now destruct (cd_abstract cd).
Qed.

Lemma emits_GetObjectClass P o : emits P (GetObjectClass o).
Proof.
  apply emits_silent. intros w. unfold GetObjectClass.
  destruct o as [r|]; [|reflexivity]. now destruct (heap w !! r) as [[]|].
Qed.

Lemma emits_GetFieldID P c n s : emits P (GetFieldID c n s).
Proof.
  apply emits_silent. intros w. unfold GetFieldID.
  destruct c as [c|]; [|reflexivity].
  destruct (classes w !! c) as [cd|]; [|reflexivity].
  destruct (cd_fields cd !! n) as [sig|]; [|reflexivity].
  now destruct (String.eqb sig s).
Qed.

Lemma emits_set_field P o f v : emits P (set_field o f v).
Proof.
  apply emits_silent. intros w. unfold set_field.
  destruct o as [r|], f as [[n s]|]; try reflexivity.
  destruct (heap w !! r) as [[c flds| |]|]; try reflexivity.
  now destruct (flds !! n).
Qed.

Lemma emits_alloc P o : emits P (alloc o).
Proof. now apply emits_silent. Qed.

Lemma emits_NewObjectArray P n c i : emits P (NewObjectArray n c i).
Proof. destruct c; [apply emits_alloc | apply emits_undefined]. Qed.

Lemma emits_SetObjectArrayElement P a i v : emits P (SetObjectArrayElement a i v).
Proof.
  apply emits_silent. intros w. unfold SetObjectArrayElement.
  destruct a as [r|]; [|reflexivity].
  destruct (heap w !! r) as [[| |elts]|]; try reflexivity.
  now destruct (i <? length elts)%nat.
Qed.

(** The one place that throws: the class is always the security
    exception. *)
Lemma emits_throw msg : emits security_throw (throwNewJavaSecurityException msg).
Proof.
  intros w. unfold throwNewJavaSecurityException, throwNewJavaException,
    FindClass, mbind, M_bind.
  destruct (classes w !! "java/lang/SecurityException"); simpl.
  - exists [Throw security msg]. split; [reflexivity|]. now repeat constructor.
  - exists []. split; [reflexivity | constructor].
Qed.

Lemma emits_getJavaMethodId c n s : emits security_throw (getJavaMethodId c n s).
Proof.
  unfold getJavaMethodId. apply emits_bind; [apply emits_GetMethodID|].
  intros [m|]; [apply emits_ret|].
  apply emits_bind; [apply emits_sprintf|]. intros strErr.
  apply emits_bind; [apply emits_throw | intros; apply emits_ret].
Qed.

Lemma emits_setJavaFieldString o n v : emits security_throw (setJavaFieldString o n v).
Proof.
  unfold setJavaFieldString. apply emits_bind; [apply emits_GetObjectClass|]. intros clazz.
  apply emits_bind; [apply emits_GetFieldID|]. intros fieldId.
  apply emits_bind.
  { destruct fieldId; [apply emits_ret|].
    apply emits_bind; [apply emits_sprintf | intros; apply emits_throw]. }
  intros _. apply emits_bind; [apply emits_alloc|]. intros jstr.
  apply emits_bind; [apply emits_set_field | intros; apply emits_ret].
Qed.

Lemma emits_setJavaFieldInt o n v : emits security_throw (setJavaFieldInt o n v).
Proof.
  unfold setJavaFieldInt. apply emits_bind; [apply emits_GetObjectClass|]. intros clazz.
  apply emits_bind; [apply emits_GetFieldID|]. intros fieldId.
  apply emits_bind.
  { destruct fieldId; [apply emits_ret|].
    apply emits_bind; [apply emits_sprintf | intros; apply emits_throw]. }
  intros _. apply emits_bind; [apply emits_set_field | intros; apply emits_ret].
Qed.

Lemma emits_scan_members cells k : emits security_throw (scan_members cells k).
Proof.
  revert k. induction cells as [|[m|] cells IH]; intros k; simpl.
  - apply emits_undefined.
  - apply IH.
  - apply emits_ret.
Qed.

Lemma emits_copy_members cells arr todo :
  ∀ i, emits security_throw (copy_members cells arr i todo).
Proof.
  induction todo as [|todo IH]; intros i; simpl; [apply emits_ret|].
  destruct (cells !! i) as [cell|]; [|apply emits_undefined].
  apply emits_bind; [destruct cell; [apply emits_alloc | apply emits_ret]|]. intros jstr.
  apply emits_bind; [apply emits_SetObjectArrayElement | intros; apply IH].
Qed.

End Emits.

(** One step of a lookup. *)
Ltac emits_step :=
  first
    [ apply emits_ret | apply emits_undefined | apply emits_throw
    | apply emits_sprintf | apply emits_FindClass | apply emits_GetStringUTFChars
    | apply emits_getJavaMethodId | apply emits_NewObject
    | apply emits_setJavaFieldString | apply emits_setJavaFieldInt
    | apply emits_scan_members | apply emits_copy_members
    | apply emits_alloc | apply emits_NewObjectArray | apply emits_GetFieldID
    | apply emits_set_field
    | apply emits_bind; [|intros ?]
    | match goal with
      | |- emits _ (match ?x with _ => _ end) => destruct x
      | |- emits _ (if ?x then _ else _) => destruct x
      end ].

Section EmitsLookups.

Import Libc JNI.

(** A libc call followed by code that makes none. *)
Lemma call_first {A B} (c : syscall) (q : M A) (f : A → M B) (w : World) :
  (∃ a w', q w = Returns a w' ∧ trace w' = Call c :: trace w) →
  (∀ a, emits security_throw (f a)) →
  calls_then_throws c (q ≫= f) w.
Proof.
  intros (a & w' & Hq & Ht) Hf. unfold calls_then_throws, mbind, M_bind.
  rewrite Hq. destruct (Hf a w') as (evs & H & F).
  exists evs. split; [now rewrite H, Ht | exact F].
Qed.

(** Reading the name out of the Java string adds nothing to the trace,
    and stops the run when there is no string. *)
Lemma string_first {B} (K : string → syscall) (name : jobject) (f : string → M B) :
  (∀ s w, calls_then_throws (K s) (f s) w) →
  queries_once (λ w c, ∃ s, string_at w name = Some s ∧ c = K s)
    (GetStringUTFChars name ≫= f).
Proof.
  intros Hf w. unfold calls_then_throws, mbind, M_bind, GetStringUTFChars, string_at.
  destruct name as [r|]; [|now left].
  destruct (heap w !! r) as [[| s |]|]; try (now left).
  right. exists (K s). split; [eauto | apply Hf].
Qed.

Lemma getrlimit_call r w :
  ∃ a w', getrlimit r w = Returns a w' ∧ trace w' = Call (Getrlimit r) :: trace w.
Proof.
  unfold getrlimit. destruct (sys_getrlimit r (os w)) as [[rc l] o']. eauto.
Qed.

(** X17.  Whichever way they end, with a record, with null or in
    undefined behaviour, the four lookups and the resource-limit read
    make at most one libc call: their own query, with the name read from
    the Java string, the id cast to unsigned, or the open-file resource.
    It is the first event of the run, and every event after it is a
    [java.lang.SecurityException] thrown through [ThrowNew]; the only run
    without the query is a lookup by name whose argument is no string,
    and it leaves no event at all. *)
Theorem lookups_only_query_and_raise_security :
  (∀ name,
     queries_once (λ w c, ∃ s, string_at w name = Some s ∧ c = Getpwnam s)
       (Java_org_mortbay_setuid_SetUID_getpwnam name))
  ∧ (∀ uid w, calls_then_throws (Getpwuid (to_uint32 uid))
                (Java_org_mortbay_setuid_SetUID_getpwuid uid) w)
  ∧ (∀ name,
       queries_once (λ w c, ∃ s, string_at w name = Some s ∧ c = Getgrnam s)
         (Java_org_mortbay_setuid_SetUID_getgrnam name))
  ∧ (∀ gid w, calls_then_throws (Getgrgid (to_uint32 gid))
                (Java_org_mortbay_setuid_SetUID_getgrgid gid) w)
  ∧ (∀ w, calls_then_throws (Getrlimit RLIMIT_NOFILE)
            Java_org_mortbay_setuid_SetUID_getrlimitnofiles w).
Proof.
  split; [|split; [|split; [|split]]].
  - intros name. unfold Java_org_mortbay_setuid_SetUID_getpwnam.
    apply (string_first Getpwnam). intros s w.
    apply call_first; [unfold getpwnam; eauto|]. intros pw.
    unfold ReleaseStringUTFChars, DeleteLocalRef. repeat emits_step.
  - intros uid w. unfold Java_org_mortbay_setuid_SetUID_getpwuid.
    apply call_first; [unfold getpwuid; eauto|]. intros pw.
    unfold DeleteLocalRef. repeat emits_step.
  - intros name. unfold Java_org_mortbay_setuid_SetUID_getgrnam.
    apply (string_first Getgrnam). intros s w.
    apply call_first; [unfold getgrnam; eauto|]. intros gr.
    unfold ReleaseStringUTFChars, DeleteLocalRef, NewStringUTF, SetObjectField.
    repeat emits_step.
  - intros gid w. unfold Java_org_mortbay_setuid_SetUID_getgrgid.
    apply call_first; [unfold getgrgid; eauto|]. intros gr.
    unfold DeleteLocalRef, NewStringUTF, SetObjectField. repeat emits_step.
  - intros w. unfold Java_org_mortbay_setuid_SetUID_getrlimitnofiles.
    apply call_first; [apply getrlimit_call|]. intros [success rlim].
    unfold DeleteLocalRef. repeat emits_step.
Qed.

End EmitsLookups.

(** ** The process-wide state across calls *)
Section ProcessState.

Import Libc JNI.

(** X18.  A write is seen by the next read.  When [setrlimitnofiles]
    returns 0 for a record of two Java [int]s, a following
    [getrlimitnofiles] returns a new record with that soft and that hard
    value; when it returns a failure code, the code is -1 and the
    following read returns the limits as they were before the write.  The
    record that was written is not modified by either call. *)
Theorem write_then_read (w : World) (r : nat) (flds : gmap string value)
    (soft hard : Z) :
  host_ok (classes w) = true →
  heap w !! r = Some (OInst "org/mortbay/setuid/RLimit" flds) →
  flds !! "_soft" = Some (VInt soft) →
  flds !! "_hard" = Some (VInt hard) →
  is_int32 soft = true → is_int32 hard = true →
  is_refused NR_getrlimit (os w) = false →
  ∃ rc w1 r2 w2,
    Java_org_mortbay_setuid_SetUID_setrlimitnofiles (Some r) w = Returns rc w1
    ∧ Java_org_mortbay_setuid_SetUID_getrlimitnofiles w1 = Returns (Some r2) w2
    ∧ r2 ≠ r
    ∧ (rc = 0 →
       field_int w2 r2 "_soft" = Some soft ∧ field_int w2 r2 "_hard" = Some hard)
    ∧ (rc ≠ 0 →
       rc = -1
       ∧ field_int w2 r2 "_soft" = Some (to_int32 (rlim_cur (nofile (os w))))
       ∧ field_int w2 r2 "_hard" = Some (to_int32 (rlim_max (nofile (os w)))))
    ∧ heap w2 !! r = heap w !! r.
Proof.
  intros Hok Hr Hs Hh Hsoft Hhard Hsys.
  pose proof (setrlimitnofiles_run w r flds soft hard Hok Hr Hs Hh) as Hrun1.
  cbv zeta in Hrun1.
  set (l := mk_rlimit (to_uint64 soft) (to_uint64 hard)) in *.
  set (w1 := mk_World (sys_setrlimit RLIMIT_NOFILE l (os w)).2 (classes w) (heap w)
               (pending w) (Call (Setrlimit RLIMIT_NOFILE l) :: trace w)) in *.
  assert (Hsys1 : is_refused NR_getrlimit (os w1) = false).
  { unfold w1, is_refused; cbn [os]. rewrite sys_setrlimit_refused. exact Hsys. }
  destruct (getrlimitnofiles_run w1 Hok Hsys1) as (flds2 & Hs2 & Hh2 & Hrun2).
  assert (Hlt : (r < length (heap w))%nat) by (eapply lookup_lt_Some; eauto).
  assert (Hint : ∀ z, is_int32 z = true → to_int32 (to_uint64 z) = z).
  { intros z Hz. rewrite to_int32_uint64. apply to_int32_small.
    unfold is_int32 in Hz. apply andb_prop in Hz as [H1 H2].
    apply Z.leb_le in H1, H2. lia. }
  unfold w1 in Hs2, Hh2; cbn [os] in Hs2, Hh2.
  rewrite sys_setrlimit_nofile in Hs2, Hh2.
  eexists _, w1, _, _. split; [exact Hrun1|]. split; [exact Hrun2|].
  split; [unfold w1; cbn [heap]; lia|].
  pose proof (sys_setrlimit_code RLIMIT_NOFILE l (os w)) as Hcode.
  split; [|split].
  - intros Hrc. rewrite Hrc in Hs2, Hh2. cbn [Z.eqb rlim_cur rlim_max l] in Hs2, Hh2.
    unfold l in Hs2, Hh2; cbn [rlim_cur rlim_max] in Hs2, Hh2.
    rewrite Hint in Hs2, Hh2 by assumption.
    split; (eapply field_int_built; [reflexivity | eassumption]).
  - intros Hrc. destruct Hcode as [Hc|Hc]; [contradiction|].
    rewrite Hc in Hs2, Hh2. cbn [Z.eqb] in Hs2, Hh2.
    split; [exact Hc|].
    split; (eapply field_int_built; [reflexivity | eassumption]).
  - cbn [heap]. unfold w1; cbn [heap]. now apply lookup_app_l.
Qed.

Lemma write_then_read_witness :
  ∃ w1 r2 w2,
    Java_org_mortbay_setuid_SetUID_setrlimitnofiles (Some 0%nat)
      (world process bundled [limits 2048 4096]) = Returns 0 w1
    ∧ Java_org_mortbay_setuid_SetUID_getrlimitnofiles w1 = Returns (Some r2) w2
    ∧ field_int w2 r2 "_soft" = Some 2048
    ∧ field_int w2 r2 "_hard" = Some 4096.
Proof.
  assert (Hs : limit_fields 2048 4096 !! "_soft" = Some (VInt 2048))
    by (vm_compute; reflexivity).
  assert (Hh : limit_fields 2048 4096 !! "_hard" = Some (VInt 4096))
    by (vm_compute; reflexivity).
  destruct (write_then_read (world process bundled [limits 2048 4096]) 0
              (limit_fields 2048 4096) 2048 4096
              eq_refl eq_refl Hs Hh eq_refl eq_refl eq_refl)
    as (rc & w1 & r2 & w2 & H1 & H2 & _ & Hok & _).
  assert (Hrc : rc = 0).
  { assert (E : Java_org_mortbay_setuid_SetUID_setrlimitnofiles (Some 0%nat)
                  (world process bundled [limits 2048 4096])
                = Returns 0
                    (mk_World (sys_setrlimit RLIMIT_NOFILE (mk_rlimit 2048 4096) process).2
                       bundled [limits 2048 4096] None
                       [Call (Setrlimit RLIMIT_NOFILE (mk_rlimit 2048 4096))]))
      by (vm_compute; reflexivity).
    rewrite E in H1. now inversion H1. }
  subst rc. destruct (Hok eq_refl) as (Ha & Hb).
  exists w1, r2, w2. split; [exact H1|]. split; [exact H2|]. split; assumption.
Defined.

Lemma land_permission_bits z : to_int32 (Z.land z 511) = Z.land z 511.
Proof.
  change 511 with (Z.ones 9). rewrite Z.land_ones by lia.
  pose proof (Z.mod_pos_bound z (2 ^ 9) ltac:(lia)).
  apply to_int32_small. unfold INT_MIN, INT_MAX. lia.
Qed.

(** X19.  [setumask] hands back what the previous [setumask] installed:
    after [setumask(a)], a call [setumask(b)] returns the permission bits
    of [a] and leaves the permission bits of [b] as the mask; neither
    call raises anything or touches the Java heap. *)
Theorem setumask_returns_previous_mask (a b : Z) (w : World) :
  ∃ rc w1 w2,
    Java_org_mortbay_setuid_SetUID_setumask a w = Returns rc w1
    ∧ Java_org_mortbay_setuid_SetUID_setumask b w1
      = Returns (Z.land (to_uint32 a) 511) w2
    ∧ cmask (os w2) = Z.land (to_uint32 b) 511
    ∧ pending w2 = pending w ∧ heap w2 = heap w
    ∧ trace w2 = Call (Umask (to_uint32 b)) :: Call (Umask (to_uint32 a)) :: trace w.
Proof.
  unfold Java_org_mortbay_setuid_SetUID_setumask, umask, sys_umask, mbind, M_bind.
  cbn -[to_int32 to_uint32 Z.land]. eexists _, _, _.
  split; [reflexivity|]. cbn -[to_int32 to_uint32 Z.land].
  rewrite land_permission_bits.
  split; [reflexivity|]. repeat split.
Qed.

End ProcessState.

(** ** The lookups when they succeed *)
Section Success.

Import Libc JNI.

(** X21.  A lookup that finds its entry, and a resource-limit read whose
    [getrlimit] succeeds, returns its record having made exactly one libc
    call, its own query, and having raised nothing: the pending-exception
    slot, the process state and the loaded classes are as before. *)
Theorem successful_lookups_are_quiet (w : World) :
  host_ok (classes w) = true →
  (∀ sref name pw,
     heap w !! sref = Some (OStr name) → db_getpwnam name (os w) = Some pw →
     ∃ r w',
       Java_org_mortbay_setuid_SetUID_getpwnam (Some sref) w = Returns (Some r) w'
       ∧ trace w' = Call (Getpwnam name) :: trace w
       ∧ pending w' = pending w ∧ os w' = os w ∧ classes w' = classes w)
  ∧ (∀ uid pw,
       db_getpwuid (to_uint32 uid) (os w) = Some pw →
       ∃ r w',
         Java_org_mortbay_setuid_SetUID_getpwuid uid w = Returns (Some r) w'
         ∧ trace w' = Call (Getpwuid (to_uint32 uid)) :: trace w
         ∧ pending w' = pending w ∧ os w' = os w ∧ classes w' = classes w)
  ∧ (∀ sref name e,
       heap w !! sref = Some (OStr name) →
       find (λ g, String.eqb (ge_name g) name) (group_db (os w)) = Some e →
       ∃ r w',
         Java_org_mortbay_setuid_SetUID_getgrnam (Some sref) w = Returns (Some r) w'
         ∧ trace w' = Call (Getgrnam name) :: trace w
         ∧ pending w' = pending w ∧ os w' = os w ∧ classes w' = classes w)
  ∧ (∀ gid e,
       find (λ g, ge_gid g =? to_uint32 gid) (group_db (os w)) = Some e →
       ∃ r w',
         Java_org_mortbay_setuid_SetUID_getgrgid gid w = Returns (Some r) w'
         ∧ trace w' = Call (Getgrgid (to_uint32 gid)) :: trace w
         ∧ pending w' = pending w ∧ os w' = os w ∧ classes w' = classes w)
  ∧ (is_refused NR_getrlimit (os w) = false →
     ∃ r w',
       Java_org_mortbay_setuid_SetUID_getrlimitnofiles w = Returns (Some r) w'
       ∧ trace w' = Call (Getrlimit RLIMIT_NOFILE) :: trace w
       ∧ pending w' = pending w ∧ os w' = os w ∧ classes w' = classes w).
Proof.
  intros Hok. split; [|split; [|split; [|split]]].
  - intros sref name pw Hs Hdb.
    destruct (getpwnam_found w sref name pw Hok Hs Hdb)
      as (w' & Hrun & Hos & Hcs & Hp & Ht & _).
    eauto 10.
  - intros uid pw Hdb.
    destruct (getpwuid_found w uid pw Hok Hdb) as (w' & Hrun & Hos & Hcs & Hp & Ht & _).
    eauto 10.
  - intros sref name e Hs Hdb.
    destruct (getgrnam_found w sref name e Hok Hs Hdb)
      as (w' & Hrun & Hos & Hcs & Hp & Ht & _).
    eauto 10.
  - intros gid e Hdb.
    destruct (getgrgid_found w gid e Hok Hdb) as (w' & Hrun & Hos & Hcs & Hp & Ht & _).
    eauto 10.
  - intros Hsys.
    destruct (getrlimitnofiles_run w Hok Hsys) as (flds & _ & _ & Hrun).
    eexists _, _. split; [exact Hrun|]. repeat split.
Qed.

Lemma successful_lookups_are_quiet_witness :
  ∃ r w',
    Java_org_mortbay_setuid_SetUID_getgrgid 10 (world process bundled [])
    = Returns (Some r) w'
    ∧ trace w' = [Call (Getgrgid 10)] ∧ pending w' = None.
Proof.
  destruct (successful_lookups_are_quiet (world process bundled []) eq_refl)
    as (_ & _ & _ & Hgid & _).
  destruct (Hgid 10 (mk_group_entry "wheel" "x" 10 (Some ["root"; "jetty"])) eq_refl)
    as (r & w' & Hrun & Ht & Hp & _).
  exists r, w'. split; [exact Hrun|]. split; [exact Ht | exact Hp].
Defined.

End Success.
